(** * ChatGenius: the real-time messaging hub and the client's reconciliation

    A shallow embedding of
    - [server/routes.ts]: the WebSocket hub ([broadcastMessage],
      [cleanupClient], the ['message'], ['close'] and ['error'] handlers), and
    - the client hook [useWebSocket]: the reducers passed to [setMessages],
      [sendMessage], and the connection effect with its reconnect logic.

    Further on, the rest of the two: the hub's connection handler, the
    hook's presence and typing state with [updatePresence] and
    [updateTyping]; and what the components make of the hook's state, the
    merge and the send handler of the pages [Channel] and [DirectMessage],
    the typing notice of [MessageInput], the status of [Sidebar] and the
    grouping of replies in [MessageThread].

    Conventions of the embedding.
    - An instant is a [Z], the milliseconds since the epoch.  On the wire and
      in the records of the source an instant is an ISO string produced by
      [new Date().toISOString()]; the only thing the code ever does with such a
      string is [new Date(s).getTime()], so the string is identified with the
      instant it denotes.
    - An optional field of a JSON object is an [option]; JavaScript's
      truthiness test on an optional string is [truthy].
    - A string is kept as the bytes of its UTF-8 encoding, which is also how
      it travels in the JSON text of a frame; a character outside ASCII is
      two to four bytes.
    - Clock readings ([new Date()], [Date.now()]) and [Math.random()] are
      arguments of the function that reads them. *)

From Stdlib Require Import ZArith Ascii String List Bool Lia Permutation Sorted.
From stdpp Require Import base option list gmap strings pretty.
Import ListNotations.
Open Scope string_scope.

(** ** JavaScript values *)

(** [!!s] for an optional string: [undefined] and the empty string are falsy. *)
Definition truthy (o : option string) : bool :=
  match o with
  | Some s => negb (String.eqb s "")
  | None => false
  end.

(** [a || b] where [a] is an optional value that is truthy whenever present. *)
Definition or_default {A : Type} (o : option A) (d : A) : A :=
  match o with
  | Some a => a
  | None => d
  end.

(** [s.trim()], as the client pages call it on what the user typed before
    they hand it to [sendMessage].  It strips the white space and the line
    terminators of ECMAScript from both ends: U+0009 to U+000D and U+0020,
    one byte each; U+00A0, two bytes; and U+1680, U+2000 to U+200A, U+2028,
    U+2029, U+202F, U+205F, U+3000 and U+FEFF, three bytes each. *)
Definition white_space_2 (a b : ascii) : bool :=
  Nat.eqb (nat_of_ascii a) 194 && Nat.eqb (nat_of_ascii b) 160.    (* U+00A0 *)

Definition white_space_3 (a b c : ascii) : bool :=
  let x := nat_of_ascii a in
  let y := nat_of_ascii b in
  let z := nat_of_ascii c in
  Nat.eqb x 225 && Nat.eqb y 154 && Nat.eqb z 128                  (* U+1680 *)
  || Nat.eqb x 226 && Nat.eqb y 128
     && (Nat.leb 128 z && Nat.leb z 138                            (* U+2000 to U+200A *)
         || Nat.eqb z 168 || Nat.eqb z 169                         (* U+2028, U+2029 *)
         || Nat.eqb z 175)                                         (* U+202F *)
  || Nat.eqb x 226 && Nat.eqb y 129 && Nat.eqb z 159               (* U+205F *)
  || Nat.eqb x 227 && Nat.eqb y 128 && Nat.eqb z 128               (* U+3000 *)
  || Nat.eqb x 239 && Nat.eqb y 187 && Nat.eqb z 191.              (* U+FEFF *)

(** The white space at the front of [s] is dropped.  With [back] the bytes of
    [s] are taken to be in reverse order, as they are when the end of a
    string is looked at from its last byte. *)
Fixpoint strip (back : bool) (s : string) : string :=
  match s with
  | String a r =>
      if Ascii.is_space a then strip back r
      else
        match r with
        | String b r' =>
            if (if back then white_space_2 b a else white_space_2 a b) then strip back r'
            else
              match r' with
              | String c r'' =>
                  if (if back then white_space_3 c b a else white_space_3 a b c)
                  then strip back r''
                  else s
              | EmptyString => s
              end
        | EmptyString => s
        end
  | EmptyString => EmptyString
  end.

Definition trimStart (s : string) : string := strip false s.

Definition trimEnd (s : string) : string := String.rev (strip true (String.rev s)).

Definition trim (s : string) : string := trimEnd (trimStart s).

(** [s.startsWith('temp_')]. *)
Definition is_temp (s : string) : bool := String.prefix "temp_" s.

(** ** Wire events

    [interface WebSocketMessage], declared once by the server and once by the
    client hook; the two declarations describe the same JSON object (the
    client's adds [emoji]).  After [JSON.parse] any field may be absent. *)
Module Wire.

Record WebSocketMessage : Type := {
  type : option string;
  messageId : option string;
  emoji : option string;
  userId : option string;
  content : option string;
  channelId : option string;
  dmId : option string;
  timestamp : option Z;
  status : option string;
  isTyping : option bool;
  lastSeen : option Z;
  readBy : option (list string);
  id : option string;
  parentId : option string
}.

(** The object literal [{}]. *)
Definition empty : WebSocketMessage :=
  {| type := None; messageId := None; emoji := None; userId := None;
     content := None; channelId := None; dmId := None; timestamp := None;
     status := None; isTyping := None; lastSeen := None; readBy := None;
     id := None; parentId := None |}.

End Wire.

Import Wire.

(** ** The client hook: [useWebSocket] *)
Module Client.

Record User : Type := {
  user_id : string;
  name : string;
  email : string;
  isOnline : bool
}.

Definition mockUser0 : User :=
  {| user_id := "current"; name := "You"; email := "you@example.com"; isOnline := true |}.

Definition mockUsers : list User :=
  [ mockUser0;
    {| user_id := "jane"; name := "Jane Smith"; email := "jane@example.com"; isOnline := true |};
    {| user_id := "bob"; name := "Bob Wilson"; email := "bob@example.com"; isOnline := false |} ].

Record Message : Type := {
  id : string;
  content : string;
  sender : User;
  timestamp : Z;
  channelId : option string;
  dmId : option string;
  reactions : list (string * list User);
  readBy : list string;
  parentId : option string
}.

(** [arr.sort((a, b) => new Date(a.timestamp).getTime() - new Date(b.timestamp).getTime())].
    [Array.prototype.sort] is stable, so with this comparator the result is
    the stable sort by instant; it is computed here by insertion, an element
    going in front of the first one that is not earlier than it. *)
Fixpoint insert_by_time (m : Message) (l : list Message) : list Message :=
  match l with
  | [] => [m]
  | x :: r =>
      if (timestamp m <=? timestamp x)%Z then m :: x :: r
      else x :: insert_by_time m r
  end.

Fixpoint sort_by_time (l : list Message) : list Message :=
  match l with
  | [] => []
  | m :: r => insert_by_time m (sort_by_time r)
  end.

(** The predicate both handlers pass to [prev.filter]: a placeholder with the
    confirmed content is dropped, every other entry is kept. *)
Definition keep_unless_placeholder (c : string) (m : Message) : bool :=
  if is_temp (id m) then negb (String.eqb (content m) c) else true.

(** [mockUsers.find(u => u.id === data.userId) || mockUsers[0]]. *)
Definition lookup_sender (uid : string) : User :=
  or_default (List.find (fun u => String.eqb (user_id u) uid) mockUsers) mockUser0.

(** [case 'new_message'], as the reducer it hands to [setMessages]. [now] is
    the reading of [new Date()] used when the event has no timestamp. *)
Definition on_new_message (now : Z) (data : WebSocketMessage) (prev : list Message)
  : list Message :=
  match Wire.content data, Wire.userId data, Wire.id data with
  | Some c, Some u, Some i =>
      if negb (truthy (Some c)) || negb (truthy (Some u)) || negb (truthy (Some i)) then prev
      else
        let newMessage :=
          {| id := i; content := c; sender := lookup_sender u;
             timestamp := or_default (Wire.timestamp data) now;
             channelId := Wire.channelId data; dmId := Wire.dmId data;
             reactions := []; readBy := or_default (Wire.readBy data) [];
             parentId := Wire.parentId data |} in
        if existsb (fun m => String.eqb (id m) (id newMessage)) prev then prev
        else sort_by_time (List.filter (keep_unless_placeholder (content newMessage)) prev
                           ++ [newMessage])
  | _, _, _ => prev
  end.

(** [case 'message_confirmed'], as the reducer it hands to [setMessages]. *)
Definition on_message_confirmed (now : Z) (data : WebSocketMessage) (prev : list Message)
  : list Message :=
  match Wire.id data, Wire.content data with
  | Some i, Some c =>
      if negb (truthy (Some i)) || negb (truthy (Some c)) then prev
      else
        let filtered := List.filter (keep_unless_placeholder c) prev in
        let confirmedMessage :=
          {| id := i; content := c; sender := mockUser0;
             timestamp := or_default (Wire.timestamp data) now;
             channelId := Wire.channelId data; dmId := Wire.dmId data;
             reactions := []; readBy := [user_id mockUser0];
             parentId := Wire.parentId data |} in
        sort_by_time (filtered ++ [confirmedMessage])
  | _, _ => prev
  end.

(** The state of the hook that the message handlers and [sendMessage] touch:
    [messages] and the [pendingMessages] set. *)
Record Hook : Type := {
  messages : list Message;
  pendingMessages : gset string
}.

(** [socket.onmessage] for the two message events; every other event leaves
    [messages] and [pendingMessages] alone. *)
Definition onmessage (now : Z) (data : WebSocketMessage) (h : Hook) : Hook :=
  match Wire.type data with
  | Some "new_message" =>
      {| messages := on_new_message now data (messages h);
         pendingMessages := pendingMessages h |}
  | Some "message_confirmed" =>
      match Wire.id data, Wire.content data with
      | Some i, Some c =>
          if negb (truthy (Some i)) || negb (truthy (Some c)) then h
          else {| messages := on_message_confirmed now data (messages h);
                  pendingMessages := pendingMessages h ∖ {[ c ]} |}
      | _, _ => h
      end
  | _ => h
  end.

(** The placeholder [sendMessage] builds: [dateNow] is [Date.now()], [now] the
    reading of [new Date()]. *)
Definition tempMessage (dateNow : N) (now : Z) (c : string) (message : WebSocketMessage)
  : Message :=
  {| id := "temp_" +:+ pretty dateNow; content := c; sender := mockUser0;
     timestamp := now;
     channelId := Wire.channelId message; dmId := Wire.dmId message;
     reactions := []; readBy := [user_id mockUser0]; parentId := None |}.

(** [sendMessage].  [ws_open] is [ws && ws.readyState === WebSocket.OPEN];
    [send_throws] says whether [ws.send] throws.  The result is the boolean
    the function returns, the hook's state, and the frame written to the
    socket, if any.  The placeholder is added before [ws.send] is called, so
    it stays when the send throws. *)
Definition sendMessage (ws_open send_throws : bool) (dateNow : N) (now : Z)
    (message : WebSocketMessage) (h : Hook)
  : bool * Hook * option WebSocketMessage :=
  if negb ws_open then (false, h, None)
  else
    let h' :=
      match Wire.type message, Wire.content message with
      | Some "new_message", Some c =>
          if truthy (Some c) then
            {| messages := sort_by_time (messages h ++ [tempMessage dateNow now c message]);
               pendingMessages := pendingMessages h ∪ {[ c ]} |}
          else h
      | _, _ => h
      end in
    if send_throws then (false, h', None) else (true, h', Some message).

End Client.

(** ** The client hook: the connection effect and its reconnect logic

    [useEffect(() => { ... connect(); return cleanup }, [retryCount, reconnectTimer])].
    React's contract for an effect with a dependency array: after a render in
    which a dependency differs (by [Object.is]) from the value the last run of
    the effect saw, the cleanup returned by that run is called, and then the
    effect runs again, in the closure of the new render.  A state setter
    called from a socket or timer callback causes such a render before any
    later callback runs.  Every run of the effect has variables of its own
    ([socket], [isDestroyed]) and sees the [retryCount] and [reconnectTimer]
    of its render. *)
Module Reconnect.

(** [Math.min(1000 * Math.pow(2, retryCount), 10000)]. *)
Definition nextRetry (retryCount : nat) : Z :=
  Z.min (1000 * 2 ^ Z.of_nat retryCount) 10000.

(** What [socket.onclose] decides from the [retryCount] it sees: the delay of
    the timer it sets, or no timer. *)
Definition scheduled_delay (retryCount : nat) : option Z :=
  if Nat.ltb retryCount 5 then Some (nextRetry retryCount) else None.

(** The closure of one run of the effect. *)
Record Run : Type := {
  seen_retryCount : nat;
  seen_reconnectTimer : option nat;
  isDestroyed : bool;
  socket : option nat
}.

(** A timer made by [setTimeout]: the run whose closure its callback lives
    in, its delay, and whether it can still fire. *)
Record Timer : Type := {
  timer_run : nat;
  delay : Z;
  pending : bool
}.

(** A call of [new WebSocket(wsUrl)]: the run whose [connect] made it and, when
    the call came from a timer's callback, that timer. *)
Record Attempt : Type := {
  attempt_run : nat;
  attempt_timer : option nat
}.

(** The state of the hook that the effect touches.  [runs], [timers] and
    [sockets] grow at the end: a run, a timer and a socket are named by their
    index, and the current run of the effect is the last of [runs]. *)
Record Hook : Type := {
  retryCount : nat;
  reconnectTimer : option nat;
  isConnected : bool;
  ws : option nat;
  runs : list Run;
  timers : list Timer;
  sockets : list Attempt
}.

Definition set_run (r : nat) (f : Run -> Run) (h : Hook) : Hook :=
  {| retryCount := retryCount h; reconnectTimer := reconnectTimer h;
     isConnected := isConnected h; ws := ws h;
     runs := alter f r (runs h); timers := timers h; sockets := sockets h |}.

(** [clearTimeout(t)]. *)
Definition clearTimeout (t : nat) (h : Hook) : Hook :=
  {| retryCount := retryCount h; reconnectTimer := reconnectTimer h;
     isConnected := isConnected h; ws := ws h; runs := runs h;
     timers := alter (fun tm => {| timer_run := timer_run tm; delay := delay tm;
                                   pending := false |}) t (timers h);
     sockets := sockets h |}.

(** [connect()] in the closure of run [r]; [by_timer] is the timer whose
    callback makes the call, if one does. *)
Definition connect (r : nat) (by_timer : option nat) (h : Hook) : Hook :=
  match runs h !! r with
  | Some run =>
      if isDestroyed run then h
      else
        let k := length (sockets h) in
        set_run r (fun run => {| seen_retryCount := seen_retryCount run;
                                 seen_reconnectTimer := seen_reconnectTimer run;
                                 isDestroyed := isDestroyed run; socket := Some k |})
          {| retryCount := retryCount h; reconnectTimer := reconnectTimer h;
             isConnected := isConnected h; ws := ws h; runs := runs h;
             timers := timers h;
             sockets := (sockets h ++ [{| attempt_run := r; attempt_timer := by_timer |}])%list |}
  | None => h
  end.

(** [socket.onopen] of socket [k]. *)
Definition onopen (k : nat) (h : Hook) : Hook :=
  match sockets h !! k with
  | Some a =>
      match runs h !! attempt_run a with
      | Some run =>
          if isDestroyed run then h
          else
            let h1 := {| retryCount := 0; reconnectTimer := reconnectTimer h;
                         isConnected := true; ws := Some k; runs := runs h;
                         timers := timers h; sockets := sockets h |} in
            match seen_reconnectTimer run with
            | Some t =>
                let h2 := clearTimeout t h1 in
                {| retryCount := retryCount h2; reconnectTimer := None;
                   isConnected := isConnected h2; ws := ws h2; runs := runs h2;
                   timers := timers h2; sockets := sockets h2 |}
            | None => h1
            end
      | None => h
      end
  | None => h
  end.

(** [socket.onclose] of socket [k]. *)
Definition onclose (k : nat) (h : Hook) : Hook :=
  match sockets h !! k with
  | Some a =>
      match runs h !! attempt_run a with
      | Some run =>
          if isDestroyed run then h
          else
            match scheduled_delay (seen_retryCount run) with
            | Some d =>
                let timer := length (timers h) in
                {| retryCount := retryCount h; reconnectTimer := Some timer;
                   isConnected := false; ws := None; runs := runs h;
                   timers := (timers h ++ [{| timer_run := attempt_run a; delay := d;
                                              pending := true |}])%list;
                   sockets := sockets h |}
            | None =>
                {| retryCount := retryCount h; reconnectTimer := reconnectTimer h;
                   isConnected := false; ws := None; runs := runs h;
                   timers := timers h; sockets := sockets h |}
            end
      | None => h
      end
  | None => h
  end.

(** The callback given to [setTimeout], when timer [t] fires. *)
Definition timer_fires (t : nat) (h : Hook) : Hook :=
  match timers h !! t with
  | Some tm =>
      if pending tm then
        let h1 := clearTimeout t h in
        match runs h1 !! timer_run tm with
        | Some run =>
            if isDestroyed run then h1
            else
              connect (timer_run tm) (Some t)
                {| retryCount := S (retryCount h1); reconnectTimer := reconnectTimer h1;
                   isConnected := isConnected h1; ws := ws h1; runs := runs h1;
                   timers := timers h1; sockets := sockets h1 |}
        | None => h1
        end
      else h
  | None => h
  end.

(** The cleanup returned by run [r] of the effect.  Its [socket.close()] is
    left out: the [onclose] it causes finds [isDestroyed] set and returns. *)
Definition cleanup (r : nat) (h : Hook) : Hook :=
  match runs h !! r with
  | Some run =>
      let h1 := set_run r (fun run => {| seen_retryCount := seen_retryCount run;
                                         seen_reconnectTimer := seen_reconnectTimer run;
                                         isDestroyed := true; socket := socket run |}) h in
      match seen_reconnectTimer run with
      | Some t => clearTimeout t h1
      | None => h1
      end
  | None => h
  end.

(** A new run of the effect: a fresh closure over the current state, then
    [connect()]. *)
Definition run_effect (h : Hook) : Hook :=
  let r := length (runs h) in
  connect r None
    {| retryCount := retryCount h; reconnectTimer := reconnectTimer h;
       isConnected := isConnected h; ws := ws h;
       runs := (runs h ++ [{| seen_retryCount := retryCount h;
                              seen_reconnectTimer := reconnectTimer h;
                              isDestroyed := false; socket := None |}])%list;
       timers := timers h; sockets := sockets h |}.

(** The render that follows a callback: the effect is cleaned up and run
    again exactly when [retryCount] or [reconnectTimer] is no longer what its
    last run saw. *)
Definition render (h : Hook) : Hook :=
  let r := pred (length (runs h)) in
  match runs h !! r with
  | Some run =>
      if bool_decide (seen_retryCount run = retryCount h
                      /\ seen_reconnectTimer run = reconnectTimer h)
      then h
      else run_effect (cleanup r h)
  | None => h
  end.

(** The hook when its component mounts. *)
Definition mount : Hook :=
  run_effect {| retryCount := 0; reconnectTimer := None; isConnected := false;
                ws := None; runs := []; timers := []; sockets := [] |}.

Inductive Event : Type :=
  | SocketOpens (k : nat)
  | SocketCloses (k : nat)
  | TimerFires (t : nat).

(** One callback and the render after it. *)
Definition step (h : Hook) (e : Event) : Hook :=
  render match e with
         | SocketOpens k => onopen k h
         | SocketCloses k => onclose k h
         | TimerFires t => timer_fires t h
         end.

Definition run_events (es : list Event) : Hook := fold_left step es mount.

(** The server refuses every connection: each socket closes, and before the
    next one does the timer set meanwhile fires. *)
Fixpoint refused (n : nat) : list Event :=
  match n with
  | O => []
  | S n' => (refused n' ++ [SocketCloses n'; TimerFires n'])%list
  end.

(** The hook after [n] refused connections, as [refused_stuck] below shows:
    [retryCount] is still 0, every earlier run of the effect is destroyed,
    every timer was set for 1000 ms and is spent, and every socket was made
    directly by a run of the effect. *)
Definition timer_before (n : nat) : option nat :=
  match n with
  | O => None
  | S k => Some k
  end.

Definition past_run (i : nat) : Run :=
  {| seen_retryCount := 0; seen_reconnectTimer := timer_before i;
     isDestroyed := true; socket := Some i |}.

Definition live_run (n : nat) : Run :=
  {| seen_retryCount := 0; seen_reconnectTimer := timer_before n;
     isDestroyed := false; socket := Some n |}.

Definition dead_timer (i : nat) : Timer :=
  {| timer_run := i; delay := 1000; pending := false |}.

Definition direct_attempt (i : nat) : Attempt :=
  {| attempt_run := i; attempt_timer := None |}.

Definition stuck (n : nat) : Hook :=
  {| retryCount := 0; reconnectTimer := timer_before n; isConnected := false;
     ws := None;
     runs := ((past_run <$> seq 0 n) ++ [live_run n])%list;
     timers := dead_timer <$> seq 0 n;
     sockets := direct_attempt <$> seq 0 (S n) |}.

(** The hook between the [n]+1st refusal and the firing of the timer that
    refusal set. *)
Definition reconnecting (n : nat) : Hook :=
  {| retryCount := 0; reconnectTimer := Some n; isConnected := false; ws := None;
     runs := ((past_run <$> seq 0 (S n)) ++ [live_run (S n)])%list;
     timers := ((dead_timer <$> seq 0 n)
                ++ [{| timer_run := n; delay := 1000; pending := true |}])%list;
     sockets := direct_attempt <$> seq 0 (S (S n)) |}.

End Reconnect.

(** ** The hub: [server/routes.ts] *)
Module Server.

(** A connection handle ([ws: WebSocket]). *)
Definition WS : Type := nat.

(** What the hub can observe of a connection's transport while one handler
    runs: whether [ws.readyState === WebSocket.OPEN], and whether [ws.send]
    throws. *)
Record Transport : Type := {
  isOpen : bool;
  sendThrows : bool
}.

(** A value of [userPresenceInMemory]. *)
Record Presence : Type := {
  p_status : string;
  p_lastSeen : Z
}.

(** The hub's in-memory state (the four [const]s of [registerRoutes]) and, as
    a ghost field, [sent]: every frame a call of [ws.send] accepted, oldest
    first.  [clients] is a JavaScript [Map], which iterates in insertion
    order: an association list without repeated keys. *)
Record Hub : Type := {
  messagesInMemory : list WebSocketMessage;
  clients : list (WS * string);
  userPresenceInMemory : gmap string Presence;
  pendingMessages : gmap string WebSocketMessage;
  sent : list (WS * WebSocketMessage)
}.

Definition set_clients (f : list (WS * string) -> list (WS * string)) (h : Hub) : Hub :=
  {| messagesInMemory := messagesInMemory h; clients := f (clients h);
     userPresenceInMemory := userPresenceInMemory h;
     pendingMessages := pendingMessages h; sent := sent h |}.

Definition set_presence (f : gmap string Presence -> gmap string Presence) (h : Hub) : Hub :=
  {| messagesInMemory := messagesInMemory h; clients := clients h;
     userPresenceInMemory := f (userPresenceInMemory h);
     pendingMessages := pendingMessages h; sent := sent h |}.

Definition set_messages (f : list WebSocketMessage -> list WebSocketMessage) (h : Hub) : Hub :=
  {| messagesInMemory := f (messagesInMemory h); clients := clients h;
     userPresenceInMemory := userPresenceInMemory h;
     pendingMessages := pendingMessages h; sent := sent h |}.

Definition set_pending
    (f : gmap string WebSocketMessage -> gmap string WebSocketMessage) (h : Hub) : Hub :=
  {| messagesInMemory := messagesInMemory h; clients := clients h;
     userPresenceInMemory := userPresenceInMemory h;
     pendingMessages := f (pendingMessages h); sent := sent h |}.

(** The hub when [registerRoutes] returns. *)
Definition init : Hub :=
  {| messagesInMemory := []; clients := []; userPresenceInMemory := ∅;
     pendingMessages := ∅; sent := [] |}.

(** A call of [ws.send(JSON.stringify(frame))] that returns. *)
Definition deliver (ws : WS) (frame : WebSocketMessage) (h : Hub) : Hub :=
  {| messagesInMemory := messagesInMemory h; clients := clients h;
     userPresenceInMemory := userPresenceInMemory h;
     pendingMessages := pendingMessages h; sent := (sent h ++ [(ws, frame)])%list |}.

(** [Map.prototype.get], [set] and [delete] on [clients]. *)
Definition clients_get (ws : WS) (m : list (WS * string)) : option string :=
  snd <$> List.find (fun p => Nat.eqb (fst p) ws) m.

Fixpoint clients_set (ws : WS) (u : string) (m : list (WS * string)) : list (WS * string) :=
  match m with
  | [] => [(ws, u)]
  | (k, v) :: r => if Nat.eqb k ws then (k, u) :: r else (k, v) :: clients_set ws u r
  end.

Definition clients_delete (ws : WS) (m : list (WS * string)) : list (WS * string) :=
  List.filter (fun p => negb (Nat.eqb (fst p) ws)) m.

(** [ws !== excludeWs], where [excludeWs] may be [undefined]. *)
Definition not_excluded (ws : WS) (excludeWs : option WS) : bool :=
  match excludeWs with
  | Some x => negb (Nat.eqb ws x)
  | None => true
  end.

(** [clients.forEach(body)]: the entries are visited in insertion order, and
    an entry deleted before its turn is not visited.  The keys are those
    present when the loop starts (the loop bodies of the hub never add one);
    each is looked up again in the current map when its turn comes.  [None]
    is the loop body running out of fuel. *)
Fixpoint forEach_clients (body : WS -> string -> Hub -> option Hub)
    (keys : list WS) (h : Hub) : option Hub :=
  match keys with
  | [] => Some h
  | ws :: rest =>
      match clients_get ws (clients h) with
      | Some userId =>
          match body ws userId h with
          | Some h' => forEach_clients body rest h'
          | None => None
          end
      | None => forEach_clients body rest h
      end
  end.

Section Handlers.

(** The transports of the connections, and the clock reading of the handler
    that is running. *)
Variable net : WS -> Transport.
Variable now : Z.

(** The event [cleanupClient] broadcasts. *)
Definition offline_notice (userId : string) : WebSocketMessage :=
  {| type := Some "presence_update"; messageId := None; emoji := None;
     userId := Some userId; content := None; channelId := None; dmId := None;
     timestamp := Some now; status := Some "offline"; isTyping := None;
     lastSeen := None; readBy := None; Wire.id := None; parentId := None |}.

(** The body of the loop of [broadcastMessage]; [cleanup] is what its [catch]
    calls. *)
Definition broadcast_visit (cleanup : WS -> Hub -> option Hub)
    (message : WebSocketMessage) (excludeWs : option WS)
    (ws : WS) (userId : string) (h : Hub) : option Hub :=
  if not_excluded ws excludeWs && isOpen (net ws) then
    if sendThrows (net ws) then cleanup ws h
    else Some (deliver ws message h)
  else Some h.

(** [cleanupClient], over the [broadcastMessage] it calls. *)
Definition cleanupClient_with
    (broadcast : WebSocketMessage -> option WS -> Hub -> option Hub)
    (ws : WS) (h : Hub) : option Hub :=
  match clients_get ws (clients h) with
  | Some userId =>
      if truthy (Some userId) then
        let h1 := set_clients (clients_delete ws) h in
        let h2 := set_presence
                    (insert userId {| p_status := "offline"; p_lastSeen := now |}) h1 in
        broadcast (offline_notice userId) None h2
      else Some h
  | None => Some h
  end.

(** [broadcastMessage] and [cleanupClient] call each other; [fuel] bounds the
    depth of the calls, and [None] is the fuel running out
    ([broadcastMessage_total] below: one more than the number of registered
    connections is enough, since every nested call follows a deletion). *)
Fixpoint broadcastMessage (fuel : nat) (message : WebSocketMessage)
    (excludeWs : option WS) (h : Hub) : option Hub :=
  match fuel with
  | O => None
  | S fuel' =>
      forEach_clients
        (broadcast_visit (cleanupClient_with (broadcastMessage fuel')) message excludeWs)
        (fst <$> clients h) h
  end.

Definition cleanupClient (fuel : nat) (ws : WS) (h : Hub) : option Hub :=
  cleanupClient_with (broadcastMessage fuel) ws h.

(** The two functions with fuel that always suffices. *)
Definition broadcast (message : WebSocketMessage) (excludeWs : option WS) (h : Hub)
  : option Hub :=
  broadcastMessage (S (length (clients h))) message excludeWs h.

Definition evict (ws : WS) (h : Hub) : option Hub :=
  cleanupClient (length (clients h)) ws h.

(** The id the hub gives a message:
    [`msg_${Date.now()}_${Math.random().toString(36).slice(2)}`]; [dateNow] is
    [Date.now()] and [rnd] the digits of the random number. *)
Definition messageId_of (dateNow : N) (rnd : string) : string :=
  "msg_" +:+ pretty dateNow +:+ "_" +:+ rnd.

(** The id the durable store gives a message, as [POST /api/messages] puts it
    on the wire: [fullMessage.message.id.toString()], where [id] is the
    [serial] primary key of the [messages] table. *)
Definition durable_id (serial : N) : string := pretty serial.

(** [{...message, id: messageId, timestamp, readBy: [message.userId],
      parentId: message.parentId}]. *)
Definition newMessage_of (message : WebSocketMessage) (messageId userId : string)
  : WebSocketMessage :=
  {| type := type message; messageId := Wire.messageId message; emoji := emoji message;
     userId := Wire.userId message; content := content message;
     channelId := channelId message; dmId := dmId message;
     timestamp := Some now; status := status message; isTyping := isTyping message;
     lastSeen := lastSeen message; readBy := Some [userId];
     Wire.id := Some messageId; parentId := parentId message |}.

(** The reply to the sender. *)
Definition confirmation_of (message : WebSocketMessage) (messageId : string)
  : WebSocketMessage :=
  {| type := Some "message_confirmed"; messageId := None; emoji := None;
     userId := None; content := content message;
     channelId := channelId message; dmId := dmId message;
     timestamp := Some now; status := None; isTyping := None;
     lastSeen := None; readBy := None;
     Wire.id := Some messageId; parentId := parentId message |}.

(** [case 'new_message'], after [clients.set]. *)
Definition handle_new_message (ws : WS) (dateNow : N) (rnd : string)
    (message : WebSocketMessage) (userId : string) (h : Hub) : option Hub :=
  if negb (truthy (content message)) then Some h
  else
    let messageId := messageId_of dateNow rnd in
    let newMessage := newMessage_of message messageId userId in
    let h1 := set_messages (fun l => (l ++ [newMessage])%list) h in
    let h2 := set_pending (insert messageId newMessage) h1 in
    if sendThrows (net ws) then
      (* catch: messagesInMemory.pop(); pendingMessages.delete(messageId) *)
      Some (set_pending (delete messageId) (set_messages (@removelast _) h2))
    else
      let h3 := deliver ws (confirmation_of message messageId) h2 in
      match broadcast newMessage (Some ws) h3 with
      | Some h4 => Some (set_pending (delete messageId) h4)
      | None => None
      end.

(** [case 'presence_update']. *)
Definition handle_presence_update (message : WebSocketMessage) (userId : string)
    (h : Hub) : option Hub :=
  match status message with
  | Some st =>
      if negb (truthy (Some st)) then Some h
      else
        let h1 := set_presence (insert userId {| p_status := st; p_lastSeen := now |}) h in
        broadcast
          {| type := Some "presence_update"; messageId := None; emoji := None;
             userId := Some userId; content := None; channelId := None; dmId := None;
             timestamp := Some now; status := Some st; isTyping := None;
             lastSeen := Some now; readBy := None; Wire.id := None; parentId := None |}
          None h1
  | None => Some h
  end.

(** [case 'typing_indicator']. *)
Definition handle_typing_indicator (ws : WS) (message : WebSocketMessage)
    (userId : string) (h : Hub) : option Hub :=
  broadcast
    {| type := Some "typing_indicator"; messageId := None; emoji := None;
       userId := Some userId; content := None;
       channelId := channelId message; dmId := dmId message;
       timestamp := Some now; status := None; isTyping := isTyping message;
       lastSeen := None; readBy := None; Wire.id := None; parentId := None |}
    (Some ws) h.

(** The [switch] of the handler. *)
Definition dispatch (ws : WS) (dateNow : N) (rnd : string)
    (message : WebSocketMessage) (ty userId : string) (h : Hub) : option Hub :=
  if String.eqb ty "new_message" then handle_new_message ws dateNow rnd message userId h
  else if String.eqb ty "presence_update" then handle_presence_update message userId h
  else if String.eqb ty "typing_indicator" then handle_typing_indicator ws message userId h
  else broadcast message (Some ws) h.

(** [ws.on('message', ...)].  [raw] is the outcome of [JSON.parse]: [None]
    when it throws, which the handler's [catch] swallows. *)
Definition on_message (ws : WS) (dateNow : N) (rnd : string)
    (raw : option WebSocketMessage) (h : Hub) : option Hub :=
  match raw with
  | None => Some h
  | Some message =>
      match type message, Wire.userId message with
      | Some ty, Some userId =>
          if negb (truthy (Some ty)) || negb (truthy (Some userId)) then Some h
          else dispatch ws dateNow rnd message ty userId
                 (set_clients (clients_set ws userId) h)
      | _, _ => Some h
      end
  end.

(** [ws.on('close', ...)] and [ws.on('error', ...)]. *)
Definition on_close (ws : WS) (h : Hub) : option Hub := evict ws h.

End Handlers.

End Server.

(** ** What the properties of the hub are stated with *)
Module HubSpec.
Import Server.

Global Instance WebSocketMessage_eq_dec : EqDecision WebSocketMessage.
Proof. solve_decision. Defined.

(** The registry is a [Map]: no key twice; and the handler only ever stores a
    truthy user id. *)
Definition registry_ok (h : Hub) : Prop :=
  NoDup (fst <$> clients h) /\ Forall (fun p => p.2 <> "") (clients h).

(** How often the frame [e] was sent to [w]. *)
Definition count_sent (w : WS) (e : WebSocketMessage) (l : list (WS * WebSocketMessage)) : nat :=
  length (List.filter (fun p => bool_decide (p = (w, e))) l).

Section Trace.

Variable net : WS -> Transport.
Variable now : Z.

(** The presence record [cleanupClient] writes. *)
Definition offline : Presence := {| p_status := "offline"; p_lastSeen := now |}.

(** The frames a broadcast of [e] that excludes [x] and visits the keys [ks]
    may send: [e] itself to a visited, open, working connection other than
    [x], and the offline notices of the evictions it causes. *)
Definition allowed (ks : list WS) (e : WebSocketMessage) (x : option WS)
    (p : WS * WebSocketMessage) : Prop :=
  isOpen (net p.1) = true /\ sendThrows (net p.1) = false
  /\ ((p.2 = e /\ not_excluded p.1 x = true /\ p.1 ∈ ks)
      \/ exists u, p.2 = offline_notice now u).

(** What a broadcast or an eviction may do to the hub: the message log and
    the pending map stay; connections are only removed, and only open ones
    whose [send] throws, their user being marked offline; [sent] grows by
    frames that satisfy [P]. *)
Record evolves (P : WS * WebSocketMessage -> Prop) (h h' : Hub) : Prop := {
  ev_messages : messagesInMemory h' = messagesInMemory h;
  ev_pending : pendingMessages h' = pendingMessages h;
  ev_clients : clients h' `sublist_of` clients h;
  ev_evicted : forall p, p ∈ clients h -> p ∉ clients h' ->
    isOpen (net p.1) = true /\ sendThrows (net p.1) = true
    /\ userPresenceInMemory h' !! p.2 = Some offline;
  ev_presence : forall u,
    userPresenceInMemory h' !! u = userPresenceInMemory h !! u
    \/ userPresenceInMemory h' !! u = Some offline;
  ev_sent : exists new, sent h' = (sent h ++ new)%list /\ Forall P new
}.

(** The state in which [cleanupClient] calls [broadcastMessage]. *)
Definition deleted (ws : WS) (u : string) (h : Hub) : Hub :=
  set_presence (insert u offline) (set_clients (clients_delete ws) h).

(** The hub once the confirmation has been sent, in which [case 'new_message']
    calls [broadcastMessage]. *)
Definition confirmed_hub (ws : WS) (dateNow : N) (rnd : string)
    (message : WebSocketMessage) (uid : string) (h : Hub) : Hub :=
  let messageId := messageId_of dateNow rnd in
  let newMessage := newMessage_of now message messageId uid in
  deliver ws (confirmation_of now message messageId)
    (set_pending (insert messageId newMessage)
       (set_messages (fun l => (l ++ [newMessage])%list)
          (set_clients (clients_set ws uid) h))).

End Trace.

(** The hubs the handlers can produce.  The transports and the clock are
    those of the handler that runs, and may differ from one to the next. *)
Inductive reachable : Hub -> Prop :=
  | reach_init : reachable init
  | reach_message (net : WS -> Transport) (now : Z) (ws : WS) (dateNow : N)
      (rnd : string) (raw : option WebSocketMessage) (h h' : Hub) :
      reachable h -> on_message net now ws dateNow rnd raw h = Some h' -> reachable h'
  | reach_close (net : WS -> Transport) (now : Z) (ws : WS) (h h' : Hub) :
      reachable h -> on_close net now ws h = Some h' -> reachable h'.

End HubSpec.

(** ** A scenario

    Four connections: 0 is jane's and 1 is bob's, both open and working; 2 is
    carol's, open, but its [send] throws; 3 is dave's and is not open. *)
Module Scenario.
Import Server.

Definition net (w : WS) : Transport :=
  match w with
  | 2 => {| isOpen := true; sendThrows := true |}
  | 3 => {| isOpen := false; sendThrows := false |}
  | _ => {| isOpen := true; sendThrows := false |}
  end.

Definition now : Z := 1700000000400.

Definition hub : Hub :=
  {| messagesInMemory := [];
     clients := [(0, "jane"); (1, "bob"); (2, "carol"); (3, "dave")];
     userPresenceInMemory := ∅; pendingMessages := ∅; sent := [] |}.

(** Only jane and bob. *)
Definition duo : Hub :=
  {| messagesInMemory := []; clients := [(0, "jane"); (1, "bob")];
     userPresenceInMemory := ∅; pendingMessages := ∅; sent := [] |}.

(** What is shown of a hub below: to whom each frame went, with its type,
    id and content, and the ids in the message log. *)
Definition summary (h : Hub)
  : list (WS * option string * option string * option string) * list (option string) :=
  (map (fun p => (p.1, type p.2, id p.2, content p.2)) (sent h),
   map id (messagesInMemory h)).

(** [new_message{content, channelId: "1"}] from jane. *)
Definition new_message (c : string) (parent : option string) : WebSocketMessage :=
  {| type := Some "new_message"; messageId := None; emoji := None;
     userId := Some "jane"; content := Some c; channelId := Some "1";
     dmId := None; timestamp := None; status := None; isTyping := None;
     lastSeen := None; readBy := None; id := None; parentId := parent |}.

Definition hi : WebSocketMessage := new_message "hi" None.

(** The same event without its content. *)
Definition no_content : WebSocketMessage :=
  {| type := Some "new_message"; messageId := None; emoji := None;
     userId := Some "jane"; content := None; channelId := Some "1";
     dmId := None; timestamp := None; status := None; isTyping := None;
     lastSeen := None; readBy := None; id := None; parentId := None |}.

(** A typing event, as the hub re-broadcasts it. *)
Definition typing : WebSocketMessage :=
  {| type := Some "typing_indicator"; messageId := None; emoji := None;
     userId := Some "jane"; content := None; channelId := Some "1";
     dmId := None; timestamp := Some now; status := None; isTyping := Some true;
     lastSeen := None; readBy := None; id := None; parentId := None |}.

(** The client's side of it: jane's hook before anything was sent, her send
    of "hello", and the confirmation that answers it. *)
Definition confirmed_hello : WebSocketMessage :=
  {| type := Some "message_confirmed"; messageId := None; emoji := None;
     userId := None; content := Some "hello"; channelId := Some "1";
     dmId := None; timestamp := Some 1700000000500%Z; status := None;
     isTyping := None; lastSeen := None; readBy := None;
     id := Some "msg_1700000000400_k3x9"; parentId := None |}.

Definition send_hello : WebSocketMessage :=
  {| type := Some "new_message"; messageId := None; emoji := None;
     userId := Some "current"; content := Some "hello";
     channelId := Some "1"; dmId := None; timestamp := None;
     status := None; isTyping := None; lastSeen := None; readBy := None;
     id := None; parentId := None |}.

Definition empty_hook : Client.Hook := {| Client.messages := []; Client.pendingMessages := ∅ |}.

End Scenario.

(** ** The hub: a new connection

    [wss.on('connection', ...)], up to the point where it attaches the
    handlers above.  The first [ws.send] stands outside any [try]: when it
    throws, the exception leaves the listener ([None] below) and neither
    replay nor handler follows.  The two replays catch what their sends throw.
    The presence store is kept as a finite map here, so its entries are
    replayed in the order of [map_to_list], which need not be the order in
    which the [Map] of the source received them; nothing below depends on
    that order. *)
Module Connection.
Import Server.

Section Handlers.

Variable net : WS -> Transport.
Variable now : Z.

Definition connection_established : WebSocketMessage :=
  {| type := Some "connection_established"; messageId := None; emoji := None;
     userId := None; content := None; channelId := None; dmId := None;
     timestamp := Some now; status := None; isTyping := None;
     lastSeen := None; readBy := None; id := None; parentId := None |}.

(** The frame that replays one entry of the presence store. *)
Definition presence_state (userId : string) (presence : Presence) : WebSocketMessage :=
  {| type := Some "presence_update"; messageId := None; emoji := None;
     userId := Some userId; content := None; channelId := None; dmId := None;
     timestamp := Some now; status := Some (p_status presence); isTyping := None;
     lastSeen := Some (p_lastSeen presence); readBy := None; id := None;
     parentId := None |}.

(** [try { ws.send(frame) } catch (error) { console.error(...) }]. *)
Definition try_send (ws : WS) (frame : WebSocketMessage) (h : Hub) : Hub :=
  if sendThrows (net ws) then h else deliver ws frame h.

(** [message.type === 'new_message']. *)
Definition is_new_message (m : WebSocketMessage) : bool :=
  match type m with
  | Some ty => String.eqb ty "new_message"
  | None => false
  end.

Definition replay_presence (ws : WS) (store : list (string * Presence)) (h : Hub) : Hub :=
  fold_left (fun acc up => try_send ws (presence_state up.1 up.2) acc) store h.

Definition replay_messages (ws : WS) (log : list WebSocketMessage) (h : Hub) : Hub :=
  fold_left (fun acc m => if is_new_message m then try_send ws m acc else acc) log h.

Definition on_connection (ws : WS) (h : Hub) : option Hub :=
  if sendThrows (net ws) then None
  else
    Some (replay_messages ws (messagesInMemory h)
            (replay_presence ws (map_to_list (userPresenceInMemory h))
               (deliver ws connection_established h))).

End Handlers.

(** What the handler of [case 'new_message'] stores: the sender's event with
    the hub's id and timestamp and [readBy: [userId]]. *)
Definition log_entry_ok (m : WebSocketMessage) : Prop :=
  type m = Some "new_message"
  /\ truthy (content m) = true
  /\ truthy (userId m) = true
  /\ (exists dateNow rnd, id m = Some (messageId_of dateNow rnd))
  /\ readBy m = (fun u => [u]) <$> userId m
  /\ is_Some (timestamp m).

(** What the handlers write to the presence store: a status for a user id,
    neither of them empty. *)
Definition presence_ok (h : Hub) : Prop :=
  map_Forall (fun u p => u <> "" /\ p_status p <> "") (userPresenceInMemory h).

(** The hubs a running server can be in: every handler, with the transports
    and the clock it finds. *)
Inductive serving : Hub -> Prop :=
  | serving_init : serving init
  | serving_connection (net : WS -> Transport) (ws : WS) (now : Z) (h h' : Hub) :
      serving h -> on_connection net now ws h = Some h' -> serving h'
  | serving_message (net : WS -> Transport) (now : Z) (ws : WS) (dateNow : N)
      (rnd : string) (raw : option WebSocketMessage) (h h' : Hub) :
      serving h -> on_message net now ws dateNow rnd raw h = Some h' -> serving h'
  | serving_close (net : WS -> Transport) (now : Z) (ws : WS) (h h' : Hub) :
      serving h -> on_close net now ws h = Some h' -> serving h'.

End Connection.

(** ** The hub: what its handlers send and store, by name *)
Module Intake.
Import Server.

Section Handlers.

Variable net : WS -> Transport.
Variable now : Z.

(** The test [case 'new_message'] passes before it stores and keeps a
    message: a type, a user id and a content, and a reply that can be sent. *)
Definition accepts (ws : WS) (raw : option WebSocketMessage) : bool :=
  match raw with
  | Some message =>
      match type message with
      | Some ty =>
          String.eqb ty "new_message" && truthy (userId message)
          && truthy (content message) && negb (sendThrows (net ws))
      | None => false
      end
  | None => false
  end.

(** The entry an accepted event leaves in [messagesInMemory]. *)
Definition stored (dateNow : N) (rnd : string) (raw : option WebSocketMessage)
  : list WebSocketMessage :=
  match raw with
  | Some message =>
      match userId message with
      | Some uid => [newMessage_of now message (messageId_of dateNow rnd) uid]
      | None => []
      end
  | None => []
  end.

(** The event [case 'presence_update'] broadcasts. *)
Definition presence_frame (userId st : string) : WebSocketMessage :=
  {| type := Some "presence_update"; messageId := None; emoji := None;
     Wire.userId := Some userId; content := None; channelId := None; dmId := None;
     timestamp := Some now; status := Some st; isTyping := None;
     lastSeen := Some now; readBy := None; id := None; parentId := None |}.

(** The event [case 'typing_indicator'] broadcasts. *)
Definition typing_frame (message : WebSocketMessage) (userId : string) : WebSocketMessage :=
  {| type := Some "typing_indicator"; messageId := None; emoji := None;
     Wire.userId := Some userId; content := None;
     channelId := channelId message; dmId := dmId message;
     timestamp := Some now; status := None; isTyping := isTyping message;
     lastSeen := None; readBy := None; id := None; parentId := None |}.

End Handlers.

End Intake.

(** ** A session

    A hub that has served two events of jane's, both sent on connection 0:
    her report that she is busy, taken in by a hub that had served nothing
    yet, and then her "hi". *)
Module Session.
Import Server.

(** jane reports that she is busy. *)
Definition busy : WebSocketMessage :=
  {| type := Some "presence_update"; messageId := None; emoji := None;
     userId := Some "jane"; content := None; channelId := None;
     dmId := None; timestamp := None; status := Some "busy"; isTyping := None;
     lastSeen := None; readBy := None; id := None; parentId := None |}.

(** jane has read a message. *)
Definition receipt : WebSocketMessage :=
  {| type := Some "read_receipt"; messageId := Some "msg_1700000000400_k3x9";
     emoji := None; userId := Some "jane"; content := None; channelId := Some "1";
     dmId := None; timestamp := None; status := None; isTyping := None;
     lastSeen := None; readBy := None; id := None; parentId := None |}.

Definition jane_is_busy : Hub :=
  default init
    (on_message Scenario.net 1700000000300 0 1700000000300 "a1" (Some busy) init).

Definition jane_said_hi : Hub :=
  default jane_is_busy
    (on_message Scenario.net Scenario.now 0 1700000000400 "k3x9" (Some Scenario.hi)
       jane_is_busy).

End Session.

(** ** The client hook: presence, typing and the whole of [socket.onmessage]

    The two other pieces of state the hook keeps, [presenceUpdates] and
    [typingIndicators], with the reducers [socket.onmessage] hands to their
    setters, the two senders [updatePresence] and [updateTyping], and what
    the components read from them: [getUserStatus] of the sidebar (the
    direct-message page has the same expression) and [typingUsers] of the
    message input. *)
Module Store.

Record PresenceUpdate : Type := {
  userId : string;
  status : string;
  lastSeen : option Z
}.

(** [case 'presence_update']: the test, and the reducer handed to
    [setPresenceUpdates]. *)
Definition on_presence_update (data : WebSocketMessage)
    (prev : gmap string PresenceUpdate) : gmap string PresenceUpdate :=
  match Wire.userId data, Wire.status data with
  | Some u, Some st =>
      if negb (truthy (Some u)) || negb (truthy (Some st)) then prev
      else
        <[u := {| userId := u;
                  status := if truthy (Some st) then st else "offline";
                  lastSeen := Wire.lastSeen data |}]> prev
  | _, _ => prev
  end.

(** [data.channelId || data.dmId || '']. *)
Definition typing_key (data : WebSocketMessage) : string :=
  match Wire.channelId data, Wire.dmId data with
  | Some c, Some d => if truthy (Some c) then c else if truthy (Some d) then d else ""
  | Some c, None => if truthy (Some c) then c else ""
  | None, Some d => if truthy (Some d) then d else ""
  | None, None => ""
  end.

(** [case 'typing_indicator']: the test, and the reducer handed to
    [setTypingIndicators].  The [Set] it updates is the one the previous map
    holds, changed in place; [add] and [delete] give the same set when the
    reducer is run again, so the next state is the one below. *)
Definition on_typing_indicator (data : WebSocketMessage)
    (prev : gmap string (gset string)) : gmap string (gset string) :=
  match Wire.userId data with
  | Some u =>
      if negb (truthy (Some u)) then prev
      else
        let key := typing_key data in
        let users := default ∅ (prev !! key) in
        <[key := match Wire.isTyping data with
                 | Some true => users ∪ {[ u ]}
                 | _ => users ∖ {[ u ]}
                 end]> prev
  | None => prev
  end.

(** The state [socket.onmessage] works on. *)
Record State : Type := {
  hook : Client.Hook;
  presenceUpdates : gmap string PresenceUpdate;
  typingIndicators : gmap string (gset string)
}.

Definition empty : State :=
  {| hook := {| Client.messages := []; Client.pendingMessages := ∅ |};
     presenceUpdates := ∅; typingIndicators := ∅ |}.

(** [socket.onmessage] in a run of the effect that is not destroyed, on an
    event that [JSON.parse] returned; [now] is the reading of [new Date()]. *)
Definition receive (now : Z) (data : WebSocketMessage) (s : State) : State :=
  match Wire.type data with
  | Some "presence_update" =>
      {| hook := hook s;
         presenceUpdates := on_presence_update data (presenceUpdates s);
         typingIndicators := typingIndicators s |}
  | Some "typing_indicator" =>
      {| hook := hook s; presenceUpdates := presenceUpdates s;
         typingIndicators := on_typing_indicator data (typingIndicators s) |}
  | _ =>
      {| hook := Client.onmessage now data (hook s);
         presenceUpdates := presenceUpdates s;
         typingIndicators := typingIndicators s |}
  end.

(** The events of a connection, one after the other, each with the clock
    reading of its callback. *)
Definition receive_all (events : list (Z * WebSocketMessage)) (s : State) : State :=
  fold_left (fun acc e => receive e.1 e.2 acc) events s.

(** [presence?.status || 'offline'], where [presence] is
    [presenceUpdates.get(userId)]. *)
Definition getUserStatus (presenceUpdates : gmap string PresenceUpdate)
    (userId : string) : string :=
  match presenceUpdates !! userId with
  | Some presence =>
      if truthy (Some (status presence)) then status presence else "offline"
  | None => "offline"
  end.

(** [(typingIndicators?.get(id || "") || new Set()).size > 0], where [id] is
    the route parameter of the page. *)
Definition typingUsers (typingIndicators : gmap string (gset string))
    (id : option string) : bool :=
  let key := match id with
             | Some i => if truthy (Some i) then i else ""
             | None => ""
             end in
  negb (Nat.eqb (size (default ∅ (typingIndicators !! key))) 0).

(** The event [updateTyping] hands to [sendMessage]. *)
Definition typing_event (now : Z) (isTyping : bool) (channelId dmId : option string)
  : WebSocketMessage :=
  {| type := Some "typing_indicator"; messageId := None; emoji := None;
     Wire.userId := Some (Client.user_id Client.mockUser0); content := None;
     Wire.channelId := channelId; Wire.dmId := dmId; timestamp := Some now;
     Wire.status := None; Wire.isTyping := Some isTyping; Wire.lastSeen := None;
     readBy := None; id := None; parentId := None |}.

Definition updateTyping (ws_open send_throws : bool) (dateNow : N) (now : Z)
    (isTyping : bool) (channelId dmId : option string) (h : Client.Hook)
  : bool * Client.Hook * option WebSocketMessage :=
  Client.sendMessage ws_open send_throws dateNow now
    (typing_event now isTyping channelId dmId) h.

(** The event [updatePresence] hands to [sendMessage]. *)
Definition presence_event (now : Z) (st : string) : WebSocketMessage :=
  {| type := Some "presence_update"; messageId := None; emoji := None;
     Wire.userId := Some (Client.user_id Client.mockUser0); content := None;
     Wire.channelId := None; Wire.dmId := None; timestamp := Some now;
     Wire.status := Some st; Wire.isTyping := None; Wire.lastSeen := None;
     readBy := None; id := None; parentId := None |}.

(** [updatePresence]: the own status is recorded only when [sendMessage]
    returned [true]; [now'] is the second reading of the clock. *)
Definition updatePresence (ws_open send_throws : bool) (dateNow : N) (now now' : Z)
    (st : string) (s : State) : State * option WebSocketMessage :=
  let '(sent, h, frame) :=
    Client.sendMessage ws_open send_throws dateNow now (presence_event now st) (hook s) in
  ({| hook := h;
      presenceUpdates :=
        if sent then
          <[Client.user_id Client.mockUser0 :=
              {| userId := Client.user_id Client.mockUser0; status := st;
                 lastSeen := Some now' |}]> (presenceUpdates s)
        else presenceUpdates s;
      typingIndicators := typingIndicators s |},
   frame).

(** How the client shows an entry of the hub's message log: what the
    message it makes of the entry takes from it. *)
Definition shown_as (m : WebSocketMessage) (m' : Client.Message) : Prop :=
  Wire.id m = Some (Client.id m')
  /\ Wire.content m = Some (Client.content m')
  /\ Wire.timestamp m = Some (Client.timestamp m')
  /\ Wire.channelId m = Client.channelId m'
  /\ Wire.dmId m = Client.dmId m'
  /\ Wire.parentId m = Client.parentId m'.

End Store.

(** ** A client that connects

    bob's client connects, on connection 1, to the hub of the session above,
    and handles what the hub sends it. *)
Module Arrival.
Import Server.

Definition bob_connects : Hub :=
  default Session.jane_said_hi
    (Connection.on_connection Scenario.net Scenario.now 1 Session.jane_said_hi).

(** The frames the connection handler sent. *)
Definition replay : list (WS * WebSocketMessage) :=
  drop (length (sent Session.jane_said_hi)) (sent bob_connects).

(** The same frames as bob's [socket.onmessage] gets them. *)
Definition events : list (Z * WebSocketMessage) :=
  (fun p => (1700000000500%Z, p.2)) <$> replay.

(** bob's client connects again, at once, on connection 4. *)
Definition bob_reconnects : Hub :=
  default bob_connects
    (Connection.on_connection Scenario.net 1700000000900 4 bob_connects).

Definition second_replay : list (WS * WebSocketMessage) :=
  drop (length (sent bob_connects)) (sent bob_reconnects).

Definition second_events : list (Z * WebSocketMessage) :=
  (fun p => (1700000001000%Z, p.2)) <$> second_replay.

End Arrival.

(** ** JavaScript objects used as maps

    An object literal inherits the properties of [Object.prototype]; a lookup
    [obj[k]] for one of these names gives the inherited value, which is
    truthy and is no array, also when the object has no entry of its own
    for [k]. *)
Module JsObject.

Definition prototype_names : list string :=
  [ "constructor"; "__proto__"; "hasOwnProperty"; "isPrototypeOf";
    "propertyIsEnumerable"; "toString"; "toLocaleString"; "valueOf";
    "__defineGetter__"; "__defineSetter__"; "__lookupGetter__"; "__lookupSetter__" ].

Definition inherited (k : string) : bool :=
  existsb (String.eqb k) prototype_names.

End JsObject.

(** ** The pages: [Channel.tsx] and [DirectMessage.tsx]

    Each page shows the mock messages of its conversation merged with the
    hook's messages, and sends what the user typed. *)
Module Pages.
Import Client.

Definition mockUser (i : nat) : User := nth i mockUsers mockUser0.

Record Channel : Type := {
  channel_id : string;
  channel_name : string;
  description : string
}.

Definition mockChannels : list Channel :=
  [ {| channel_id := "1"; channel_name := "general"; description := "General discussion" |};
    {| channel_id := "2"; channel_name := "random"; description := "Random chat" |};
    {| channel_id := "3"; channel_name := "help"; description := "Get help" |} ].

(** [mockDirectMessages]: the id of the conversation and its user. *)
Definition mockDirectMessages : list (string * User) :=
  [ ("jane", mockUser 1); ("bob", mockUser 2) ].

(** The mock messages carry no [readBy] and no [parentId]; their timestamps
    are 2024-03-20T10:00:00Z and 10:05:00Z. *)
Definition mockChannelMessages : list Message :=
  [ {| id := "1"; content := "Hey everyone! How's it going?"; sender := mockUser 0;
       timestamp := 1710928800000; channelId := Some "1"; dmId := None;
       reactions := [("👋", [mockUser 1]); ("👍", [mockUser 1; mockUser 2])];
       readBy := []; parentId := None |};
    {| id := "2"; content := "Pretty good! Working on some new features.";
       sender := mockUser 1; timestamp := 1710929100000; channelId := Some "1";
       dmId := None; reactions := [("🎉", [mockUser 0])];
       readBy := []; parentId := None |} ].

(** [mockDirectMessageThreads], by its own keys; the timestamps are
    2024-03-20T09:00:00Z, 09:02:00Z, 11:00:00Z and 11:05:00Z. *)
Definition mockDirectMessageThreads : list (string * list Message) :=
  [ ("jane",
     [ {| id := "dm1"; content := "Hi! Need help with the project?"; sender := mockUser 1;
          timestamp := 1710925200000; channelId := None; dmId := Some "jane";
          reactions := []; readBy := []; parentId := None |};
       {| id := "dm2"; content := "Yes, could you review my code?"; sender := mockUser 0;
          timestamp := 1710925320000; channelId := None; dmId := Some "jane";
          reactions := []; readBy := []; parentId := None |} ]);
    ("bob",
     [ {| id := "dm3"; content := "Hey! Are you joining the meeting?"; sender := mockUser 2;
          timestamp := 1710932400000; channelId := None; dmId := Some "bob";
          reactions := []; readBy := []; parentId := None |};
       {| id := "dm4"; content := "Yes, I'll be there in 5 minutes"; sender := mockUser 0;
          timestamp := 1710932700000; channelId := None; dmId := Some "bob";
          reactions := []; readBy := []; parentId := None |} ]) ].

(** [messageMap]: a [Map<string, Message>], in the order in which its keys
    were first set. *)
Definition map_has (k : string) (m : list (string * Message)) : bool :=
  existsb (fun p => String.eqb p.1 k) m.

Fixpoint map_set (k : string) (v : Message) (m : list (string * Message))
  : list (string * Message) :=
  match m with
  | [] => [(k, v)]
  | (k', v') :: r =>
      if String.eqb k' k then (k', v) :: r else (k', v') :: map_set k v r
  end.

(** The key under which the loop below puts a message. *)
Definition map_key (msg : Message) : string :=
  if is_temp (id msg) then content msg else id msg.

(** The body of [allMessages.forEach]: a placeholder goes in under its
    content, unless that key is taken; any other message goes in under its
    id, in the place of what that key held. *)
Definition dedupe_visit (messageMap : list (string * Message)) (msg : Message)
  : list (string * Message) :=
  if is_temp (id msg) then
    if map_has (content msg) messageMap then messageMap
    else map_set (content msg) msg messageMap
  else map_set (id msg) msg messageMap.

(** [Array.from(messageMap.values())] after the loop. *)
Definition dedupe (allMessages : list Message) : list Message :=
  snd <$> fold_left dedupe_visit allMessages [].

(** The effect of [Channel]: what [localMessages] is after it ran.  With no
    route parameter the effect returns at once. *)
Definition channel_messages (id : option string) (wsMessages localMessages : list Message)
  : list Message :=
  match id with
  | Some i =>
      if truthy (Some i) then
        let mockMessages :=
          List.filter (fun m => bool_decide (channelId m = Some i)) mockChannelMessages in
        let channelMessages :=
          List.filter (fun m => bool_decide (channelId m = Some i)) wsMessages in
        dedupe (sort_by_time (mockMessages ++ channelMessages))
      else localMessages
  | None => localMessages
  end.

(** The effect of [DirectMessage].  [mockDirectMessageThreads[id] || []] on a
    name that the object inherits gives a value that cannot be spread: the
    effect throws ([None]). *)
Definition dm_messages (id : option string) (wsMessages localMessages : list Message)
  : option (list Message) :=
  match id with
  | Some i =>
      if truthy (Some i) then
        if JsObject.inherited i then None
        else
          let mockMessages :=
            or_default (snd <$> List.find (fun p => String.eqb p.1 i) mockDirectMessageThreads)
              [] in
          let dmMessages := List.filter (fun m => bool_decide (dmId m = Some i)) wsMessages in
          Some (dedupe (sort_by_time (mockMessages ++ dmMessages)))
      else Some localMessages
  | None => Some localMessages
  end.

(** The errors [handleSendMessage] throws. *)
Inductive SendError : Type :=
  | NotFound        (* "Channel not found", "Conversation not found" *)
  | NotConnected    (* "Not connected to server" *)
  | EmptyMessage    (* "Message cannot be empty" *)
  | SendFailed.     (* "Failed to send message" *)

(** The event both pages hand to [sendMessage]. *)
Definition outgoing (trimmedContent : string) (channelId dmId : option string)
    (replyingTo : option Message) : WebSocketMessage :=
  {| type := Some "new_message"; messageId := None; emoji := None;
     userId := Some (user_id (mockUser 0)); Wire.content := Some trimmedContent;
     Wire.channelId := channelId; Wire.dmId := dmId; Wire.timestamp := None;
     status := None; isTyping := None; lastSeen := None; Wire.readBy := None;
     Wire.id := None; Wire.parentId := id <$> replyingTo |}.

(** [handleSendMessage] after the page has found its channel or
    conversation: the error it throws or its normal return, the hook's state
    and the frame written to the socket.  [isConnected] is the hook's state
    of that name; [ws_open] and [send_throws] are as in [sendMessage]. *)
Definition send_trimmed (isConnected ws_open send_throws : bool) (dateNow : N) (now : Z)
    (channelId dmId : option string) (replyingTo : option Message) (content : string)
    (h : Hook) : (SendError + unit) * Hook * option WebSocketMessage :=
  if negb isConnected then (inl NotConnected, h, None)
  else
    let trimmedContent := trim content in
    if negb (truthy (Some trimmedContent)) then (inl EmptyMessage, h, None)
    else
      let '(sent, h', frame) :=
        sendMessage ws_open send_throws dateNow now
          (outgoing trimmedContent channelId dmId replyingTo) h in
      if sent then (inr tt, h', frame) else (inl SendFailed, h', frame).

(** [handleSendMessage] of [Channel]. *)
Definition Channel_handleSendMessage (id : option string)
    (isConnected ws_open send_throws : bool) (dateNow : N) (now : Z)
    (replyingTo : option Message) (content : string) (h : Hook)
  : (SendError + unit) * Hook * option WebSocketMessage :=
  match id with
  | Some i =>
      if existsb (fun c => String.eqb (channel_id c) i) mockChannels then
        send_trimmed isConnected ws_open send_throws dateNow now (Some i) None
          replyingTo content h
      else (inl NotFound, h, None)
  | None => (inl NotFound, h, None)
  end.

(** [handleSendMessage] of [DirectMessage]. *)
Definition DirectMessage_handleSendMessage (id : option string)
    (isConnected ws_open send_throws : bool) (dateNow : N) (now : Z)
    (replyingTo : option Message) (content : string) (h : Hook)
  : (SendError + unit) * Hook * option WebSocketMessage :=
  match id with
  | Some i =>
      if existsb (fun d => String.eqb d.1 i) mockDirectMessages then
        send_trimmed isConnected ws_open send_throws dateNow now None (Some i)
          replyingTo content h
      else (inl NotFound, h, None)
  | None => (inl NotFound, h, None)
  end.

End Pages.

(** ** A message on its way

    The hook of the scenario after its "hello" was written to the socket,
    with the placeholder that stands for it, and a "hello" of bob's, from
    his direct-message conversation, as the hub broadcasts it. *)
Module Outbox.

Definition after_send : Client.Hook :=
  (Client.sendMessage true false 1700000000000 1700000000000 Scenario.send_hello
     Scenario.empty_hook).1.2.

Definition placeholder : Client.Message :=
  Client.tempMessage 1700000000000 1700000000000 "hello" Scenario.send_hello.

Definition bobs_hello : WebSocketMessage :=
  {| type := Some "new_message"; messageId := None; emoji := None;
     userId := Some "bob"; content := Some "hello"; channelId := None;
     dmId := Some "bob"; timestamp := Some 1700000000450%Z; status := None;
     isTyping := None; lastSeen := None; readBy := Some ["bob"];
     id := Some "msg_1700000000450_q7"; parentId := None |}.

(** What a user typed: a no-break space (U+00A0), " hello", and an
    ideographic space (U+3000); and a text of nothing but these two. *)
Definition no_break_space : string := String "194" (String "160" "").

Definition ideographic_space : string := String "227" (String "128" (String "128" "")).

Definition typed : string := no_break_space +:+ " hello" +:+ ideographic_space.

Definition typed_blank : string := no_break_space +:+ ideographic_space.

End Outbox.

(** ** The thread view: [MessageThread]

    The component groups the replies under their parents in an object used
    as a map from ids to arrays.  What it does when an id or a [parentId] is
    a name that every object inherits is left out of the model: the
    functions below give [None] for such a list of messages. *)
Module Threads.
Import Client.

(** No id and no [parentId] is an inherited name. *)
Definition plain (messages : list Message) : bool :=
  forallb (fun m => negb (JsObject.inherited (id m))
                    && negb (JsObject.inherited (or_default (parentId m) "")))
    messages.

(** The body of the [reduce]: a reply is pushed to the array of its parent,
    which is made if there is none; a message without [parentId] gets an
    empty array unless it has one. *)
Definition thread_visit (acc : gmap string (list Message)) (message : Message)
  : gmap string (list Message) :=
  if truthy (parentId message) then
    let p := or_default (parentId message) "" in
    <[p := (default [] (acc !! p) ++ [message])%list]> acc
  else
    match acc !! id message with
    | Some _ => acc
    | None => <[id message := []]> acc
    end.

Definition messageThreads (messages : list Message)
  : option (gmap string (list Message)) :=
  if plain messages then Some (fold_left thread_visit messages ∅) else None.

(** [toggleThread], as the reducer it hands to [setExpandedThreads]. *)
Definition toggleThread (messageId : string) (prev : gset string) : gset string :=
  if bool_decide (messageId ∈ prev) then prev ∖ {[ messageId ]}
  else prev ∪ {[ messageId ]}.

(** What the component computes for a message without [parentId] before it
    renders it. *)
Record Row : Type := {
  message : Message;
  replies : list Message;
  hasReplies : bool;
  isExpanded : bool;
  previewReplies : list Message;
  isParentMessage : bool
}.

Definition row (expandedThreads : gset string) (messages : list Message)
    (threads : gmap string (list Message)) (m : Message) : Row :=
  let replies := default [] (threads !! id m) in
  let hasReplies := negb (Nat.eqb (length replies) 0) in
  let isExpanded := bool_decide (id m ∈ expandedThreads) in
  {| message := m; replies := replies; hasReplies := hasReplies;
     isExpanded := isExpanded;
     previewReplies := if hasReplies && negb isExpanded then take 2 replies else [];
     isParentMessage :=
       existsb (fun r => bool_decide (parentId r = Some (id m))) messages |}.

(** [messages.filter(m => !m.parentId).map(...)]. *)
Definition rows (expandedThreads : gset string) (messages : list Message)
  : option (list Row) :=
  match messageThreads messages with
  | Some threads =>
      Some (row expandedThreads messages threads
              <$> List.filter (fun m => negb (truthy (parentId m))) messages)
  | None => None
  end.

(** The replies a row shows: the preview, or all of them once the thread is
    expanded. *)
Definition shown_replies (r : Row) : list Message :=
  if hasReplies r && isExpanded r then replies r else previewReplies r.

End Threads.

(** ** Replies

    The mock messages of channel 1 with a reply to the first of them, a reply
    to that reply, and a reply to a message nobody has. *)
Module Conversation.
Import Client.

Definition reply (i parent : string) (t : Z) : Message :=
  {| id := i; content := "noted"; sender := mockUser0; timestamp := t;
     channelId := Some "1"; dmId := None; reactions := []; readBy := ["current"];
     parentId := Some parent |}.

Definition messages : list Message :=
  (Pages.mockChannelMessages
   ++ [ reply "msg_1700000000400_a" "1" 1700000000400;
        reply "msg_1700000000500_b" "msg_1700000000400_a" 1700000000500;
        reply "msg_1700000000600_c" "msg_0_gone" 1700000000600 ])%list.

End Conversation.

(** ** The reconnect logic, whatever happens

    What holds of the hook after every callback and the render that follows
    it: the retry count is 0; all runs of the effect but the last are
    destroyed, and the last is alive, has seen the current state and has a
    connection of its own; every connection was made directly by the run of
    the same number; every timer asked for 1000 ms and belongs to a
    destroyed run. *)
Module ReconnectSpec.
Import Reconnect.

Definition settled (h : Hook) : Prop :=
  retryCount h = 0
  /\ (exists old cur, runs h = (old ++ [cur])%list
        /\ Forall (fun r => isDestroyed r = true) old
        /\ isDestroyed cur = false /\ seen_retryCount cur = 0
        /\ seen_reconnectTimer cur = reconnectTimer h
        /\ socket cur = Some (length old))
  /\ sockets h = direct_attempt <$> seq 0 (length (runs h))
  /\ Forall (fun t => delay t = 1000%Z
                      /\ exists r, runs h !! timer_run t = Some r
                           /\ isDestroyed r = true) (timers h)
  /\ (forall t, reconnectTimer h = Some t -> t < length (timers h)).

(** The same between a callback and the render that follows it: the state
    may have moved away from what the last run saw, and a timer may belong
    to the last run, which is then about to be cleaned up. *)
Definition called (h : Hook) : Prop :=
  retryCount h = 0
  /\ (exists old cur, runs h = (old ++ [cur])%list
        /\ Forall (fun r => isDestroyed r = true) old
        /\ isDestroyed cur = false /\ seen_retryCount cur = 0
        /\ socket cur = Some (length old)
        /\ Forall (fun t => delay t = 1000%Z /\ timer_run t <= length old) (timers h)
        /\ (seen_reconnectTimer cur = reconnectTimer h ->
            Forall (fun t => timer_run t < length old) (timers h)))
  /\ sockets h = direct_attempt <$> seq 0 (length (runs h))
  /\ (forall t, reconnectTimer h = Some t -> t < length (timers h)).

End ReconnectSpec.

(** * Properties *)

(** ** JavaScript values *)

Lemma truthy_Some (o : option string) :
  truthy o = true -> exists s, o = Some s /\ s <> "".
Proof.
  destruct o as [s|]; simpl; [|discriminate].
  intros H. exists s. split; [reflexivity|].
  intros ->. discriminate.
Qed.

Lemma truthy_of_Some (s : string) : s <> "" -> truthy (Some s) = true.
Proof.
  intros H. simpl. destruct (String.eqb_spec s ""); [contradiction|reflexivity].
Qed.

(** ** The client's reconciliation *)
Module Reconciliation.
Import Client.
Import Scenario (confirmed_hello, send_hello, empty_hook).

Lemma insert_by_time_perm (m : Message) (l : list Message) :
  insert_by_time m l ≡ₚ m :: l.
Proof.
  induction l as [|x r IH]; simpl; [reflexivity|].
  destruct (timestamp m <=? timestamp x)%Z; [reflexivity|].
  rewrite IH. apply perm_swap.
Qed.

Lemma sort_by_time_perm (l : list Message) : sort_by_time l ≡ₚ l.
Proof.
  induction l as [|m r IH]; simpl; [reflexivity|].
  rewrite insert_by_time_perm, IH. reflexivity.
Qed.

Lemma length_sort_by_time (l : list Message) : length (sort_by_time l) = length l.
Proof. apply Permutation_length, sort_by_time_perm. Qed.

Lemma filter_perm {A : Type} (f : A -> bool) (l l' : list A) :
  l ≡ₚ l' -> List.filter f l ≡ₚ List.filter f l'.
Proof.
  induction 1 as [|x l l' _ IH|x y l|l l' l'' _ IH1 _ IH2]; simpl.
  - reflexivity.
  - destruct (f x); [constructor|]; exact IH.
  - destruct (f x), (f y); try reflexivity. apply perm_swap.
  - etransitivity; eassumption.
Qed.

Lemma filter_none {A : Type} (f : A -> bool) (l : list A) :
  (forall x, x ∈ l -> f x = false) -> List.filter f l = [].
Proof.
  induction l as [|x r IH]; intros H; simpl; [reflexivity|].
  rewrite (H x) by constructor.
  apply IH. intros y Hy. apply H. by constructor.
Qed.

Lemma is_temp_placeholder (s : string) : is_temp ("temp_" +:+ s) = true.
Proof. unfold is_temp. simpl. destruct s; reflexivity. Qed.

(** The sort keeps the order of the instants. *)
Lemma insert_by_time_sorted (m : Message) (l : list Message) :
  Sorted (fun a b => (timestamp a <= timestamp b)%Z) l ->
  Sorted (fun a b => (timestamp a <= timestamp b)%Z) (insert_by_time m l).
Proof.
  induction 1 as [|x r Hr IH Hx]; simpl.
  - repeat constructor.
  - destruct (Z.leb_spec (timestamp m) (timestamp x)).
    + constructor; [by constructor|]. by constructor.
    + constructor; [exact IH|].
      destruct Hx as [|y r' Hxy]; simpl.
      * constructor. lia.
      * destruct (Z.leb_spec (timestamp m) (timestamp y)); constructor; lia.
Qed.

Lemma sort_by_time_sorted (l : list Message) :
  Sorted (fun a b => (timestamp a <= timestamp b)%Z) (sort_by_time l).
Proof.
  induction l as [|m r IH]; simpl; [constructor|].
  by apply insert_by_time_sorted.
Qed.

(** What [case 'new_message'] does and [case 'message_confirmed'] does not:
    an event whose id is already in the list leaves the list as it is. *)
Lemma on_new_message_known_id (now : Z) (data : WebSocketMessage) (prev : list Message)
    (i : string) :
  Wire.id data = Some i ->
  existsb (fun m => String.eqb (id m) i) prev = true ->
  on_new_message now data prev = prev.
Proof.
  intros Hi Hex. unfold on_new_message. rewrite Hi.
  destruct (Wire.content data) as [c|]; [|reflexivity].
  destruct (Wire.userId data) as [u|]; [|reflexivity].
  destruct (_ || _); [reflexivity|].
  cbn [id]. by rewrite Hex.
Qed.

Lemma on_new_message_cases (now : Z) (data : WebSocketMessage) (prev : list Message) :
  on_new_message now data prev = prev
  \/ exists i, Wire.id data = Some i
       /\ existsb (fun m => String.eqb (id m) i) (on_new_message now data prev) = true.
Proof.
  unfold on_new_message.
  destruct (Wire.content data) as [c|]; [|by left].
  destruct (Wire.userId data) as [u|]; [|by left].
  destruct (Wire.id data) as [i|]; [|by left].
  destruct (_ || _); [by left|].
  cbn [id content].
  destruct (existsb _ prev) eqn:Hex; [by left|].
  right. exists i. split; [reflexivity|].
  apply existsb_exists. eexists. split.
  - apply list_elem_of_In. rewrite sort_by_time_perm.
    apply elem_of_app. right. apply list_elem_of_singleton. reflexivity.
  - cbn [id]. apply String.eqb_refl.
Qed.

Lemma on_new_message_idempotent (now : Z) (data : WebSocketMessage) (prev : list Message) :
  on_new_message now data (on_new_message now data prev) = on_new_message now data prev.
Proof.
  destruct (on_new_message_cases now data prev) as [H|(i & Hi & Hex)].
  - by rewrite !H.
  - by apply on_new_message_known_id with i.
Qed.

(** The confirmation handler has no such test: a confirmation whose id is
    not a placeholder's always adds an entry, also when that id is already
    in the list. *)
Lemma on_message_confirmed_grows (now : Z) (data : WebSocketMessage) (prev : list Message)
    (i c : string) :
  Wire.id data = Some i -> Wire.content data = Some c ->
  i <> "" -> c <> "" -> is_temp i = false ->
  let once := on_message_confirmed now data prev in
  length (on_message_confirmed now data once) = S (length once).
Proof.
  intros Hi Hc Hi0 Hc0 Ht once. subst once.
  unfold on_message_confirmed. rewrite Hi, Hc.
  rewrite (truthy_of_Some i Hi0), (truthy_of_Some c Hc0). cbn [negb orb].
  rewrite !length_sort_by_time, !length_app. cbn [length].
  rewrite (Permutation_length (filter_perm _ _ _ (sort_by_time_perm _))).
  rewrite List.filter_app, length_app. cbn [List.filter].
  assert (Hk : forall m, id m = i -> keep_unless_placeholder c m = true).
  { intros m Hm. unfold keep_unless_placeholder. by rewrite Hm, Ht. }
  rewrite Hk by reflexivity. cbn [length].
  rewrite (List.forallb_filter_id (keep_unless_placeholder c)); [lia|].
  apply forallb_forall. intros m Hm. by apply filter_In in Hm as [_ ?].
Qed.

(** What [sendMessage] and the confirmation handler do to [messages] when
    the send is a [new_message] with content and the confirmation is valid. *)
Lemma sendMessage_messages (h : Hook) (send_throws : bool) (dateNow : N) (now : Z)
    (message : WebSocketMessage) (c : string) :
  Wire.type message = Some "new_message" ->
  Wire.content message = Some c -> c <> "" ->
  messages (snd (fst (sendMessage true send_throws dateNow now message h)))
  = sort_by_time (messages h ++ [tempMessage dateNow now c message]).
Proof.
  intros Hty Hc Hc0. unfold sendMessage. rewrite Hty, Hc.
  rewrite (truthy_of_Some c Hc0). cbn [negb].
  by destruct send_throws.
Qed.

Lemma onmessage_confirmed_messages (h : Hook) (now : Z) (data : WebSocketMessage) :
  Wire.type data = Some "message_confirmed" ->
  messages (onmessage now data h) = on_message_confirmed now data (messages h).
Proof.
  intros Hty. unfold onmessage, on_message_confirmed. rewrite Hty.
  destruct (Wire.id data) as [i|]; [|reflexivity].
  destruct (Wire.content data) as [c|]; [|reflexivity].
  by destruct (_ || _).
Qed.

(** C7 (placeholder replacement).  The hook sends a [new_message] with content
    [c] over an open socket, which adds a placeholder with the temporary id
    [temp_<Date.now()>], and then receives a [message_confirmed] for content
    [c] with the canonical id.  If the list held no confirmed entry with that
    content before, the final list has exactly one entry with content [c], and
    its id is the canonical id, not a temporary one.  The specified scenario is
    [c = "hello"]. *)
Theorem placeholder_replacement (h : Hook) (send_throws : bool) (dateNow : N)
    (now1 now2 : Z) (message data : WebSocketMessage) (c canonical : string) :
  Wire.type message = Some "new_message" ->
  Wire.content message = Some c -> c <> "" ->
  Wire.type data = Some "message_confirmed" ->
  Wire.content data = Some c -> Wire.id data = Some canonical ->
  canonical <> "" -> is_temp canonical = false ->
  (forall m, m ∈ messages h -> content m = c -> is_temp (id m) = true) ->
  let after_send := snd (fst (sendMessage true send_throws dateNow now1 message h)) in
  let final := messages (onmessage now2 data after_send) in
  (exists p, p ∈ messages after_send
             /\ id p = "temp_" +:+ pretty dateNow /\ content p = c)
  /\ (exists m, List.filter (fun m => String.eqb (content m) c) final = [m]
                /\ id m = canonical /\ is_temp (id m) = false)
  /\ (forall m, m ∈ final -> content m = c -> id m = canonical).
Proof.
  intros Hty Hc Hc0 Hdty Hdc Hdi Hi0 Htemp Hprev after_send final.
  assert (Hsend : messages after_send
                  = sort_by_time (messages h ++ [tempMessage dateNow now1 c message])).
  { by apply sendMessage_messages. }
  set (confirmedMessage :=
         {| id := canonical; content := c; sender := mockUser0;
            timestamp := or_default (Wire.timestamp data) now2;
            channelId := Wire.channelId data; dmId := Wire.dmId data;
            reactions := []; readBy := [user_id mockUser0];
            parentId := Wire.parentId data |}).
  assert (Hfinal : final = sort_by_time
            (List.filter (keep_unless_placeholder c) (messages after_send)
             ++ [confirmedMessage])).
  { subst final. rewrite onmessage_confirmed_messages by exact Hdty.
    unfold on_message_confirmed. rewrite Hdi, Hdc.
    by rewrite (truthy_of_Some canonical Hi0), (truthy_of_Some c Hc0). }
  assert (Hone : List.filter (fun m => String.eqb (content m) c) final = [confirmedMessage]).
  { apply Permutation_singleton_r.
    rewrite Hfinal, (filter_perm _ _ _ (sort_by_time_perm _)).
    rewrite List.filter_app. cbn [List.filter content]. rewrite String.eqb_refl.
    rewrite filter_none; [reflexivity|].
    intros m Hm. apply list_elem_of_In, filter_In in Hm as [Hm Hkeep].
    apply list_elem_of_In in Hm. rewrite Hsend, sort_by_time_perm in Hm.
    destruct (String.eqb_spec (content m) c) as [Hmc|]; [|reflexivity].
    exfalso. unfold keep_unless_placeholder in Hkeep.
    apply elem_of_app in Hm as [Hm|Hm].
    - rewrite (Hprev m Hm Hmc), Hmc, String.eqb_refl in Hkeep. discriminate.
    - apply list_elem_of_singleton in Hm. subst m.
      unfold tempMessage in Hkeep. cbn [id content] in Hkeep.
      rewrite is_temp_placeholder, String.eqb_refl in Hkeep. discriminate. }
  split; [|split].
  - exists (tempMessage dateNow now1 c message). split; [|split; reflexivity].
    rewrite Hsend, sort_by_time_perm. apply elem_of_app. right. by constructor.
  - exists confirmedMessage. split; [exact Hone|]. split; [reflexivity|exact Htemp].
  - intros m Hm Hmc.
    assert (Hin : In m (List.filter (fun m => String.eqb (content m) c) final)).
    { apply filter_In. split; [by apply list_elem_of_In|].
      rewrite Hmc. apply String.eqb_refl. }
    rewrite Hone in Hin. destruct Hin as [<-|[]]. reflexivity.
Qed.

Lemma placeholder_replacement_witness :
  let after_send := snd (fst (sendMessage true false 1700000000000%N 1700000000000%Z
                                send_hello empty_hook)) in
  let final := messages (onmessage 1700000000600%Z confirmed_hello after_send) in
  (exists p, p ∈ messages after_send
             /\ id p = "temp_" +:+ pretty 1700000000000%N /\ content p = "hello")
  /\ (exists m, List.filter (fun m => String.eqb (content m) "hello") final = [m]
                /\ id m = "msg_1700000000400_k3x9" /\ is_temp (id m) = false)
  /\ (forall m, m ∈ final -> content m = "hello" -> id m = "msg_1700000000400_k3x9").
Proof.
  apply (placeholder_replacement empty_hook false 1700000000000%N 1700000000000%Z
           1700000000600%Z send_hello confirmed_hello "hello" "msg_1700000000400_k3x9");
    try reflexivity; try discriminate.
  intros m Hm. cbn in Hm. by apply elem_of_nil in Hm.
Defined.

(** C1 (reconciliation idempotence), evaluated: the hook with an empty list
    receives the same [message_confirmed] event twice.  After the first the
    list has one entry; after the second it has two, both with the canonical
    id, so receiving the event twice is not receiving it once. *)
Theorem message_confirmed_twice_duplicates :
  let once := onmessage 1700000000600%Z confirmed_hello empty_hook in
  let twice := onmessage 1700000000600%Z confirmed_hello once in
  map id (messages once) = ["msg_1700000000400_k3x9"]
  /\ map id (messages twice) = ["msg_1700000000400_k3x9"; "msg_1700000000400_k3x9"]
  /\ messages twice <> messages once.
Proof.
  cbv zeta. split; [|split].
  - vm_compute. reflexivity.
  - vm_compute. reflexivity.
  - intros H. apply (f_equal (@length Message)) in H. vm_compute in H. discriminate.
Qed.

End Reconciliation.


(** ** The client's reconnect logic *)
Module Backoff.
Import Reconnect.
Local Open Scope list_scope.

(** The arithmetic of [socket.onclose]: for the counts 0 to 4 it asks for
    1s, 2s, 4s, 8s and 10s, and from 5 on it sets no timer. *)
Lemma scheduled_delay_values :
  map scheduled_delay [0; 1; 2; 3; 4]
  = [Some 1000%Z; Some 2000%Z; Some 4000%Z; Some 8000%Z; Some 10000%Z].
Proof. reflexivity. Qed.

Lemma scheduled_delay_stops (n : nat) : 5 <= n -> scheduled_delay n = None.
Proof.
  intros H. unfold scheduled_delay.
  destruct (Nat.ltb_spec n 5); [lia|reflexivity].
Qed.

Lemma nextRetry_bounds (k : nat) : (1000 <= nextRetry k <= 10000)%Z.
Proof.
  unfold nextRetry.
  assert (1 <= 2 ^ Z.of_nat k)%Z by (apply Z.pow_le_mono_r with (b := 0%Z); lia).
  lia.
Qed.

(** A callback of a run whose cleanup has been called does nothing. *)
Lemma timer_of_destroyed_run (h : Hook) (t : nat) (tm : Timer) (run : Run) :
  timers h !! t = Some tm -> pending tm = true ->
  runs h !! timer_run tm = Some run -> isDestroyed run = true ->
  timer_fires t h = clearTimeout t h.
Proof.
  intros Ht Hp Hr Hd. unfold timer_fires. rewrite Ht, Hp.
  cbn [clearTimeout runs]. by rewrite Hr, Hd.
Qed.

Lemma lookup_tabulate {A : Type} (f : nat -> A) (n i : nat) :
  i < n -> (f <$> seq 0 n) !! i = Some (f i).
Proof. intros H. by rewrite list_lookup_fmap, lookup_seq_lt. Qed.

Lemma lookup_snoc_tabulate {A : Type} (f : nat -> A) (n : nat) (x : A) :
  ((f <$> seq 0 n) ++ [x]) !! n = Some x.
Proof.
  rewrite lookup_app_r; rewrite length_fmap, length_seq; [|lia].
  by rewrite Nat.sub_diag.
Qed.

Lemma alter_snoc_tabulate {A : Type} (g : A -> A) (f : nat -> A) (n : nat) (x : A) :
  alter g n ((f <$> seq 0 n) ++ [x]) = (f <$> seq 0 n) ++ [g x].
Proof.
  rewrite (alter_app_r_alt g); rewrite length_fmap, length_seq; [|lia].
  by rewrite Nat.sub_diag.
Qed.

Lemma alter_tabulate_id {A : Type} (g : A -> A) (f : nat -> A) (n i : nat) :
  g (f i) = f i -> alter g i (f <$> seq 0 n) = f <$> seq 0 n.
Proof.
  intros H. apply list_eq. intros j. destruct (decide (i = j)) as [->|Hne].
  - rewrite list_lookup_alter_eq. destruct (decide (j < n)).
    + rewrite lookup_tabulate by done. simpl. by rewrite H.
    + rewrite list_lookup_fmap, lookup_seq_ge by lia. done.
  - by rewrite list_lookup_alter_ne.
Qed.

Lemma tabulate_S {A : Type} (f : nat -> A) (n : nat) :
  f <$> seq 0 (S n) = (f <$> seq 0 n) ++ [f n].
Proof. by rewrite seq_S, fmap_app. Qed.


Lemma refusal_reconnects (n : nat) :
  step (stuck n) (SocketCloses n) = reconnecting n.
Proof.
  unfold step, onclose, stuck. cbn [sockets runs].
  rewrite lookup_tabulate by lia. cbn [attempt_run direct_attempt].
  rewrite lookup_snoc_tabulate. cbn [isDestroyed live_run seen_retryCount].
  cbn [scheduled_delay Nat.ltb Nat.leb]. cbn [timers retryCount reconnectTimer].
  rewrite length_fmap, length_seq.
  unfold render. cbn [runs retryCount reconnectTimer].
  rewrite length_app, length_fmap, length_seq. cbn [length].
  replace (pred (n + 1)) with n by lia.
  rewrite lookup_snoc_tabulate. cbn [seen_retryCount seen_reconnectTimer live_run].
  rewrite bool_decide_eq_false_2.
  2:{ intros [_ H]. destruct n; simpl in H; [discriminate|]. injection H. lia. }
  unfold cleanup. cbn [runs]. rewrite lookup_snoc_tabulate.
  cbn [seen_reconnectTimer]. unfold set_run. cbn [runs retryCount reconnectTimer isConnected ws timers sockets].
  rewrite alter_snoc_tabulate.
  change (nextRetry 0) with 1000%Z.
  change {| seen_retryCount := seen_retryCount (live_run n);
            seen_reconnectTimer := seen_reconnectTimer (live_run n);
            isDestroyed := true; socket := socket (live_run n) |} with (past_run n).
  rewrite <-tabulate_S.
  match goal with |- run_effect ?m = _ =>
    assert (m = {| retryCount := 0; reconnectTimer := Some n; isConnected := false;
                   ws := None; runs := past_run <$> seq 0 (S n);
                   timers := (dead_timer <$> seq 0 n)
                             ++ [{| timer_run := n; delay := 1000; pending := true |}];
                   sockets := direct_attempt <$> seq 0 (S n) |}) as ->
  end.
  { destruct n as [|k]; [reflexivity|]. cbn [seen_reconnectTimer live_run timer_before].
    unfold clearTimeout. cbn [runs retryCount reconnectTimer isConnected ws timers sockets].
    rewrite alter_app_l by (rewrite length_fmap, length_seq; lia).
    by rewrite alter_tabulate_id. }
  unfold run_effect, connect. cbn [runs retryCount reconnectTimer isConnected ws timers sockets].
  rewrite length_fmap, length_seq. rewrite lookup_snoc_tabulate. cbn [isDestroyed].
  unfold set_run. cbn [runs retryCount reconnectTimer isConnected ws timers sockets].
  rewrite alter_snoc_tabulate. cbn [seen_retryCount seen_reconnectTimer isDestroyed].
  rewrite length_fmap, length_seq.
  unfold reconnecting. by rewrite (tabulate_S direct_attempt (S n)).
Qed.

Lemma dead_timer_fires (n : nat) :
  step (reconnecting n) (TimerFires n) = stuck (S n).
Proof.
  unfold step, timer_fires, reconnecting. cbn [timers].
  rewrite lookup_snoc_tabulate. cbn [pending timer_run].
  unfold clearTimeout. cbn [runs retryCount reconnectTimer isConnected ws timers sockets].
  rewrite alter_snoc_tabulate. cbn [timer_run delay].
  rewrite lookup_app_l by (rewrite length_fmap, length_seq; lia).
  rewrite lookup_tabulate by lia. cbn [isDestroyed past_run].
  unfold render. cbn [runs retryCount reconnectTimer].
  rewrite length_app, length_fmap, length_seq. cbn [length].
  replace (pred (S n + 1)) with (S n) by lia.
  rewrite lookup_snoc_tabulate. cbn [seen_retryCount seen_reconnectTimer live_run timer_before].
  rewrite bool_decide_eq_true_2 by done.
  unfold stuck. cbn [timer_before]. by rewrite (tabulate_S dead_timer n).
Qed.

Lemma refused_stuck (n : nat) : run_events (refused n) = stuck n.
Proof.
  induction n as [|n IH]; [reflexivity|].
  unfold run_events in *. cbn [refused]. rewrite fold_left_app, IH. cbn [fold_left].
  by rewrite refusal_reconnects, dead_timer_fires.
Qed.

(** However many connections the server refuses, the hook reconnects: it
    never counts a retry and never stops. *)
Lemma reconnect_never_stops (n : nat) :
  let h := run_events (refused n) in
  retryCount h = 0
  /\ length (sockets h) = S n
  /\ Forall (fun a => attempt_timer a = None) (sockets h)
  /\ Forall (fun t => delay t = 1000%Z) (timers h)
  /\ last (runs h) = Some (live_run n).
Proof.
  cbv zeta. rewrite refused_stuck. unfold stuck.
  cbn [retryCount sockets timers runs].
  split; [reflexivity|]. split; [by rewrite length_fmap, length_seq|].
  split; [by apply Forall_fmap, Forall_true|].
  split; [by apply Forall_fmap, Forall_true|].
  apply last_snoc.
Qed.

(** C8 (backoff bound), evaluated on the hook as React runs it.  The server
    refuses six connections in a row, and every timer fires before the next
    refusal.  The hook then still has [retryCount = 0]; the six timers it set
    all asked for 1000 ms, and none of them made a connection, because
    setting [reconnectTimer] re-ran the effect: each of the six reconnections
    was made at once by the new run of the effect, the run that owned the
    timer having been cleaned up; and the seventh connection is under way,
    so the hook has not stopped after five failures. *)
Theorem reconnect_never_backs_off :
  let h := run_events (refused 6) in
  retryCount h = 0
  /\ map delay (timers h) = [1000; 1000; 1000; 1000; 1000; 1000]%Z
  /\ map attempt_timer (sockets h) = [None; None; None; None; None; None; None]
  /\ map isDestroyed (runs h) = [true; true; true; true; true; true; false]
  /\ socket <$> last (runs h) = Some (Some 6).
Proof.
  cbv zeta. repeat split; vm_compute; reflexivity.
Qed.

End Backoff.

(** ** The hub *)
Module HubFacts.
Import Server HubSpec.

(** *** The registry *)

Lemma clients_get_Some_elem (ws : WS) (u : string) (m : list (WS * string)) :
  clients_get ws m = Some u -> (ws, u) ∈ m.
Proof.
  unfold clients_get. destruct (List.find (fun p => Nat.eqb (fst p) ws) m) as [[k v]|] eqn:Hf; [|discriminate].
  intros [= <-]. apply find_some in Hf as [Hin Hk]. simpl in Hk.
  apply Nat.eqb_eq in Hk. subst k. by apply list_elem_of_In.
Qed.

Lemma clients_get_None (ws : WS) (m : list (WS * string)) :
  clients_get ws m = None <-> ws ∉ (fst <$> m).
Proof.
  unfold clients_get. induction m as [|[k v] r IH]; simpl.
  - split; [|done]. intros _ H. by apply elem_of_nil in H.
  - destruct (Nat.eqb_spec k ws) as [->|Hne]; simpl.
    + split; [discriminate|]. intros H. exfalso. apply H. constructor.
    + rewrite IH, not_elem_of_cons. intuition congruence.
Qed.

Lemma clients_get_elem (ws : WS) (u : string) (m : list (WS * string)) :
  NoDup (fst <$> m) -> (ws, u) ∈ m -> clients_get ws m = Some u.
Proof.
  unfold clients_get. induction m as [|[k v] r IH]; simpl; intros Hnd Hin.
  - by apply elem_of_nil in Hin.
  - apply NoDup_cons in Hnd as [Hk Hnd].
    apply elem_of_cons in Hin as [[= <- <-]|Hin].
    + by rewrite Nat.eqb_refl.
    + destruct (Nat.eqb_spec k ws) as [->|Hne]; [|by apply IH].
      exfalso. apply Hk. by apply (list_elem_of_fmap_2 fst) in Hin.
Qed.

Lemma clients_delete_sublist (ws : WS) (m : list (WS * string)) :
  clients_delete ws m `sublist_of` m.
Proof.
  unfold clients_delete. induction m as [|p r IH]; simpl; [constructor|].
  destruct (negb _); by constructor.
Qed.

Lemma clients_delete_elem (p : WS * string) (ws : WS) (m : list (WS * string)) :
  p ∈ clients_delete ws m <-> p ∈ m /\ p.1 <> ws.
Proof.
  unfold clients_delete. rewrite !list_elem_of_In, filter_In.
  rewrite negb_true_iff, Nat.eqb_neq. reflexivity.
Qed.

Lemma clients_delete_length (ws : WS) (u : string) (m : list (WS * string)) :
  clients_get ws m = Some u -> length (clients_delete ws m) < length m.
Proof.
  unfold clients_get, clients_delete. induction m as [|[k v] r IH]; simpl; [discriminate|].
  destruct (Nat.eqb_spec k ws) as [->|Hne]; simpl.
  - intros _. apply Nat.lt_succ_r, sublist_length, clients_delete_sublist.
  - intros H. apply IH in H. lia.
Qed.

Lemma clients_set_get (ws : WS) (u : string) (m : list (WS * string)) :
  clients_get ws (clients_set ws u m) = Some u.
Proof.
  unfold clients_get. induction m as [|[k v] r IH]; simpl.
  - by rewrite Nat.eqb_refl.
  - destruct (Nat.eqb_spec k ws) as [->|Hne]; simpl.
    + by rewrite Nat.eqb_refl.
    + by destruct (Nat.eqb_spec k ws).
Qed.

Lemma clients_set_elem_ne (p : WS * string) (ws : WS) (u : string) (m : list (WS * string)) :
  p.1 <> ws -> p ∈ clients_set ws u m <-> p ∈ m.
Proof.
  intros Hne. induction m as [|[k v] r IH]; simpl.
  - rewrite list_elem_of_singleton. split.
    + intros ->. by destruct Hne.
    + intros H. by apply elem_of_nil in H.
  - destruct (Nat.eqb_spec k ws) as [->|Hk].
    + rewrite !elem_of_cons. destruct p as [a b]; simpl in *.
      split; (intros [[= ? ?]|?]; [congruence|by right]).
    + rewrite !elem_of_cons, IH. reflexivity.
Qed.

Lemma clients_set_keys (ws : WS) (u : string) (m : list (WS * string)) :
  fst <$> clients_set ws u m
  = if bool_decide (ws ∈ (fst <$> m)) then fst <$> m else ((fst <$> m) ++ [ws])%list.
Proof.
  induction m as [|[k v] r IH]; [reflexivity|].
  cbn [clients_set]. destruct (Nat.eqb_spec k ws) as [->|Hk]; rewrite !fmap_cons.
  - cbn [fst]. rewrite bool_decide_eq_true_2; [reflexivity|constructor].
  - rewrite IH. cbn [fst]. destruct (decide (ws ∈ (fst <$> r))).
    + rewrite !bool_decide_eq_true_2; [reflexivity| |done]. by constructor.
    + rewrite !bool_decide_eq_false_2; [reflexivity| |done].
      rewrite not_elem_of_cons. split; [congruence|done].
Qed.

Lemma clients_set_ok (ws : WS) (u : string) (h : Hub) :
  u <> "" -> registry_ok h -> registry_ok (set_clients (clients_set ws u) h).
Proof.
  intros Hu [Hnd Hne]. split; simpl.
  - rewrite clients_set_keys. case_bool_decide; [done|].
    apply NoDup_app. split; [done|]. split; [|apply NoDup_singleton].
    intros x Hx Hx'. apply list_elem_of_singleton in Hx'. by subst.
  - clear Hnd. induction (clients h) as [|[k v] r IH]; simpl.
    + by constructor.
    + apply Forall_cons in Hne as [Hv Hr].
      destruct (Nat.eqb k ws); constructor; auto.
Qed.

Lemma registry_ok_sublist (h h' : Hub) :
  clients h' `sublist_of` clients h -> registry_ok h -> registry_ok h'.
Proof.
  intros Hsub [Hnd Hne]. split.
  - eapply sublist_NoDup; [exact Hnd|]. by apply fmap_sublist.
  - eapply Forall_forall. intros p Hp.
    eapply (proj1 (Forall_forall _ _) Hne), elem_of_sublist; eauto.
Qed.


Lemma count_sent_app (w : WS) (e : WebSocketMessage) (l l' : list (WS * WebSocketMessage)) :
  count_sent w e (l ++ l') = count_sent w e l + count_sent w e l'.
Proof. unfold count_sent. by rewrite List.filter_app, length_app. Qed.

Lemma count_sent_none (w : WS) (e : WebSocketMessage) (l : list (WS * WebSocketMessage)) :
  Forall (fun p => p <> (w, e)) l -> count_sent w e l = 0.
Proof.
  unfold count_sent. induction 1 as [|p r Hp _ IH]; simpl; [reflexivity|].
  by rewrite bool_decide_eq_false_2.
Qed.

(** Evicting a connection that is not registered does nothing, whatever the
    transports and the clock. *)
Lemma evict_not_registered (net : WS -> Transport) (now : Z) (ws : WS) (h : Hub) :
  ws ∉ (fst <$> clients h) -> evict net now ws h = Some h.
Proof.
  intros Hout. unfold evict, cleanupClient, cleanupClient_with.
  by rewrite (proj2 (clients_get_None ws (clients h)) Hout).
Qed.

Section Broadcast.

Variable net : WS -> Transport.
Variable now : Z.

Local Abbreviation offline := (HubSpec.offline now).
Local Abbreviation allowed := (HubSpec.allowed net now).
Local Abbreviation evolves := (HubSpec.evolves net now).
Local Abbreviation deleted := (HubSpec.deleted now).
Local Abbreviation confirmed_hub := (HubSpec.confirmed_hub now).

Lemma evolves_refl (P : WS * WebSocketMessage -> Prop) (h : Hub) : evolves P h h.
Proof.
  split; try reflexivity.
  - intros p Hp Hn. contradiction.
  - by left.
  - exists []. split; [by rewrite app_nil_r|constructor].
Qed.

Lemma evolves_trans (P : WS * WebSocketMessage -> Prop) (h1 h2 h3 : Hub) :
  evolves P h1 h2 -> evolves P h2 h3 -> evolves P h1 h3.
Proof.
  intros [Hm1 Hp1 Hc1 He1 Hu1 (n1 & Hs1 & Hf1)] [Hm2 Hp2 Hc2 He2 Hu2 (n2 & Hs2 & Hf2)].
  split.
  - congruence.
  - congruence.
  - by etransitivity.
  - intros p Hp Hn. destruct (decide (p ∈ clients h2)) as [Hin|Hout].
    + by apply He2.
    + destruct (He1 p Hp Hout) as (Ho & Ht & Hpr). split; [done|]. split; [done|].
      destruct (Hu2 p.2) as [-> | ->]; done.
  - intros u. destruct (Hu2 u) as [-> | ->]; [apply Hu1|by right].
  - exists (n1 ++ n2)%list. split.
    + by rewrite Hs2, Hs1, app_assoc.
    + by apply Forall_app.
Qed.

Lemma evolves_weaken (P Q : WS * WebSocketMessage -> Prop) (h h' : Hub) :
  (forall p, P p -> Q p) -> evolves P h h' -> evolves Q h h'.
Proof.
  intros HPQ [Hm Hp Hc He Hu (n & Hs & Hf)]. split; try done.
  exists n. split; [done|]. eapply Forall_impl; eauto.
Qed.

Lemma evolves_deliver (P : WS * WebSocketMessage -> Prop) (ws : WS)
    (e : WebSocketMessage) (h : Hub) :
  P (ws, e) -> evolves P h (deliver ws e h).
Proof.
  intros HP. split; try reflexivity.
  - intros p Hp Hn. contradiction.
  - by left.
  - exists [(ws, e)]. split; [reflexivity|]. by apply Forall_singleton.
Qed.

Lemma allowed_mono (ks ks' : list WS) (e : WebSocketMessage) (x : option WS)
    (p : WS * WebSocketMessage) :
  (forall w, w ∈ ks -> w ∈ ks') -> allowed ks e x p -> allowed ks' e x p.
Proof.
  intros Hks (Ho & Ht & [(He & Hx & Hk)|Hoff]); repeat split; auto.
Qed.

Lemma allowed_notice (ks ks' : list WS) (e : WebSocketMessage) (x : option WS)
    (u : string) (p : WS * WebSocketMessage) :
  allowed ks (offline_notice now u) None p -> allowed ks' e x p.
Proof.
  intros (Ho & Ht & [(He & _)|Hoff]); repeat split; auto.
  right. by exists u.
Qed.

Lemma evolves_length (P : WS * WebSocketMessage -> Prop) (h h' : Hub) :
  evolves P h h' -> length (clients h') <= length (clients h).
Proof. intros Hev. apply sublist_length, Hev. Qed.

Lemma evolves_ok (P : WS * WebSocketMessage -> Prop) (h h' : Hub) :
  evolves P h h' -> registry_ok h -> registry_ok h'.
Proof. intros Hev. apply registry_ok_sublist, Hev. Qed.

Lemma evolves_not_registered (P : WS * WebSocketMessage -> Prop) (h h' : Hub) (w : WS) :
  evolves P h h' -> w ∉ (fst <$> clients h) -> w ∉ (fst <$> clients h').
Proof.
  intros Hev Hout Hin. apply Hout.
  eapply elem_of_sublist; [exact Hin|]. apply fmap_sublist, Hev.
Qed.

(** A connection whose [send] works is never evicted. *)
Lemma evolves_keeps (P : WS * WebSocketMessage -> Prop) (h h' : Hub) (p : WS * string) :
  evolves P h h' -> sendThrows (net p.1) = false -> p ∈ clients h -> p ∈ clients h'.
Proof.
  intros Hev Hw Hin. destruct (decide (p ∈ clients h')) as [|Hout]; [done|].
  destruct (ev_evicted _ _ _ _ _ Hev p Hin Hout) as (_ & Ht & _). congruence.
Qed.

(** A broadcast that does not visit [w], or excludes it, sends it no copy of
    an event that is not an offline notice. *)
Lemma evolves_silent (ks : list WS) (e : WebSocketMessage) (x : option WS)
    (h h' : Hub) (w : WS) :
  evolves (allowed ks e x) h h' ->
  (forall u, e <> offline_notice now u) ->
  w ∉ ks \/ not_excluded w x = false ->
  count_sent w e (sent h') = count_sent w e (sent h).
Proof.
  intros Hev He Hw. destruct (ev_sent _ _ _ _ _ Hev) as (new & -> & Hnew).
  rewrite count_sent_app, (count_sent_none w e new); [lia|].
  eapply Forall_impl; [exact Hnew|].
  intros p (_ & _ & [(_ & Hx & Hk)|(u & Hoff)]) ->; simpl in *.
  - destruct Hw as [Hw|Hw]; [done|congruence].
  - by apply (He u).
Qed.

(** *** The loop of [broadcastMessage], over any [broadcastMessage] that
    behaves while fewer than [n] connections are registered *)
Section Loop.

Variable bc : WebSocketMessage -> option WS -> Hub -> option Hub.
Variable n : nat.
Hypothesis bc_ok : forall e x h,
  length (clients h) < n -> registry_ok h ->
  exists h', bc e x h = Some h' /\ evolves (allowed (fst <$> clients h) e x) h h'.

Lemma cleanup_spec (ws : WS) (h : Hub) :
  length (clients h) <= n -> registry_ok h ->
  match clients_get ws (clients h) with
  | Some u =>
      exists h', cleanupClient_with now bc ws h = Some h'
        /\ forall e x, evolves (allowed [] e x) (deleted ws u h) h'
  | None => cleanupClient_with now bc ws h = Some h
  end.
Proof.
  intros Hlen Hok. unfold cleanupClient_with.
  destruct (clients_get ws (clients h)) as [u|] eqn:Hget; [|reflexivity].
  assert (Hu : truthy (Some u) = true).
  { apply truthy_of_Some.
    apply clients_get_Some_elem in Hget. destruct Hok as [_ Hne].
    by apply (proj1 (Forall_forall _ _) Hne (ws, u)). }
  rewrite Hu. fold offline. fold (deleted ws u h).
  destruct (bc_ok (offline_notice now u) None (deleted ws u h)) as (h3 & Hbc & Hev).
  { pose proof (clients_delete_length ws u (clients h) Hget). simpl. lia. }
  { apply registry_ok_sublist with h; [|done]. apply clients_delete_sublist. }
  exists h3. split; [done|]. intros e x.
  eapply evolves_weaken; [|exact Hev]. intros p. apply allowed_notice.
Qed.

Lemma not_registered_after (ws : WS) (u : string) (h h' : Hub)
    (P : WS * WebSocketMessage -> Prop) :
  evolves P (deleted ws u h) h' -> ws ∉ (fst <$> clients h').
Proof.
  intros Hev Hin.
  assert (ws ∈ (fst <$> clients (deleted ws u h))) as Hin2.
  { eapply elem_of_sublist; [exact Hin|]. apply fmap_sublist, Hev. }
  apply list_elem_of_fmap in Hin2 as (q & Hq & Hin2).
  apply clients_delete_elem in Hin2 as [_ Hne]. congruence.
Qed.

(** The deletion itself, for a connection whose [send] has just thrown. *)
Lemma evolves_deleted (P : WS * WebSocketMessage -> Prop) (ws : WS) (u : string) (h : Hub) :
  registry_ok h -> clients_get ws (clients h) = Some u ->
  isOpen (net ws) = true -> sendThrows (net ws) = true ->
  evolves P h (deleted ws u h).
Proof.
  intros [Hnd _] Hget Hopen Hthrows. split; try reflexivity.
  - apply clients_delete_sublist.
  - intros p Hp Hout.
    assert (p.1 = ws) as Hpw.
    { destruct (decide (p.1 = ws)); [done|]. exfalso. apply Hout.
      by apply clients_delete_elem. }
    assert (p.2 = u) as Hpu.
    { destruct p as [a b]; simpl in *; subst a.
      rewrite (clients_get_elem ws b (clients h) Hnd Hp) in Hget. congruence. }
    rewrite Hpw, Hpu. split; [done|]. split; [done|]. simpl. apply lookup_insert_eq.
  - intros v. simpl. destruct (decide (u = v)) as [->|Hne].
    + right. apply lookup_insert_eq.
    + left. by apply lookup_insert_ne.
  - exists []. split; [by rewrite app_nil_r|constructor].
Qed.

Lemma cleanup_evolves (ws : WS) (h : Hub) :
  length (clients h) <= n -> registry_ok h ->
  isOpen (net ws) = true -> sendThrows (net ws) = true ->
  exists h', cleanupClient_with now bc ws h = Some h'
    /\ (forall e x, evolves (allowed [] e x) h h')
    /\ ws ∉ (fst <$> clients h').
Proof.
  intros Hlen Hok Hopen Hthrows.
  pose proof (cleanup_spec ws h Hlen Hok) as Hspec.
  destruct (clients_get ws (clients h)) as [u|] eqn:Hget.
  - destruct Hspec as (h' & Hc & Hev). exists h'. split; [done|]. split.
    + intros e x. eapply evolves_trans; [|apply Hev]. by apply evolves_deleted.
    + eapply not_registered_after, (Hev Wire.empty None).
  - exists h. split; [done|]. split; [intros; apply evolves_refl|].
    by apply clients_get_None.
Qed.

(** One visit of the loop. *)
Lemma visit_evolves (e : WebSocketMessage) (x : option WS) (ws : WS) (u : string) (h : Hub) :
  length (clients h) <= n -> registry_ok h ->
  exists h', broadcast_visit net (cleanupClient_with now bc) e x ws u h = Some h'
    /\ evolves (allowed [ws] e x) h h'.
Proof.
  intros Hlen Hok. unfold broadcast_visit.
  destruct (not_excluded ws x && isOpen (net ws)) eqn:Hcond.
  2:{ exists h. split; [done|]. apply evolves_refl. }
  apply andb_true_iff in Hcond as [Hx Hopen].
  destruct (sendThrows (net ws)) eqn:Hthrows.
  - destruct (cleanup_evolves ws h Hlen Hok Hopen Hthrows) as (h' & Hc & Hev & _).
    exists h'. split; [done|]. eapply evolves_weaken; [|apply (Hev e x)].
    intros p. apply allowed_mono. intros w Hw. by apply elem_of_nil in Hw.
  - eexists. split; [reflexivity|]. apply evolves_deliver.
    repeat split; auto. left. repeat split; auto. constructor.
Qed.

Lemma loop_evolves (e : WebSocketMessage) (x : option WS) (ks : list WS) (h : Hub) :
  length (clients h) <= n -> registry_ok h ->
  exists h', forEach_clients (broadcast_visit net (cleanupClient_with now bc) e x) ks h
             = Some h'
    /\ evolves (allowed ks e x) h h'.
Proof.
  revert h. induction ks as [|ws rest IH]; intros h Hlen Hok; cbn [forEach_clients].
  - exists h. split; [done|]. apply evolves_refl.
  - destruct (clients_get ws (clients h)) as [u|] eqn:Hget.
    + destruct (visit_evolves e x ws u h Hlen Hok) as (h1 & Hv & Hev1). rewrite Hv.
      destruct (IH h1) as (h2 & Hl & Hev2).
      { pose proof (evolves_length _ _ _ Hev1). lia. }
      { by eapply evolves_ok. }
      exists h2. split; [done|]. eapply evolves_trans.
      * eapply evolves_weaken; [|exact Hev1]. intros p. apply allowed_mono.
        intros w Hw. apply list_elem_of_singleton in Hw. subst. constructor.
      * eapply evolves_weaken; [|exact Hev2]. intros p. apply allowed_mono.
        intros w Hw. by constructor.
    + destruct (IH h Hlen Hok) as (h2 & Hl & Hev2).
      exists h2. split; [done|]. eapply evolves_weaken; [|exact Hev2].
      intros p. apply allowed_mono. intros w Hw. by constructor.
Qed.

(** Every visited, registered, open connection whose [send] works and which
    is not excluded is sent the event exactly once. *)
Lemma loop_delivers (e : WebSocketMessage) (x : option WS) (w : WS) (u : string)
    (ks : list WS) (h h' : Hub) :
  (forall v, e <> offline_notice now v) ->
  NoDup ks -> w ∈ ks ->
  length (clients h) <= n -> registry_ok h -> (w, u) ∈ clients h ->
  not_excluded w x = true -> isOpen (net w) = true -> sendThrows (net w) = false ->
  forEach_clients (broadcast_visit net (cleanupClient_with now bc) e x) ks h = Some h' ->
  count_sent w e (sent h') = S (count_sent w e (sent h)).
Proof.
  intros He Hnd Hin Hlen Hok Hreg Hx Hopen Hworks. revert h Hlen Hok Hreg.
  induction ks as [|ws rest IH]; intros h Hlen Hok Hreg Hloop.
  { by apply elem_of_nil in Hin. }
  apply NoDup_cons in Hnd as [Hws Hnd]. cbn [forEach_clients] in Hloop.
  destruct (decide (ws = w)) as [->|Hne].
  - rewrite (clients_get_elem w u (clients h) (proj1 Hok) Hreg) in Hloop.
    unfold broadcast_visit at 1 in Hloop. rewrite Hx, Hopen, Hworks in Hloop.
    cbn [andb] in Hloop.
    destruct (loop_evolves e x rest (deliver w e h)) as (h2 & Hl & Hev); [done|done|].
    rewrite Hl in Hloop. injection Hloop as <-.
    rewrite (evolves_silent rest e x _ _ w Hev He) by (by left).
    cbn [sent deliver]. rewrite count_sent_app. unfold count_sent at 2. cbn [List.filter].
    rewrite bool_decide_eq_true_2 by reflexivity. cbn [length]. lia.
  - apply elem_of_cons in Hin as [->|Hin]; [done|].
    destruct (clients_get ws (clients h)) as [v|] eqn:Hget; [|by apply IH].
    destruct (visit_evolves e x ws v h Hlen Hok) as (h1 & Hv & Hev1).
    rewrite Hv in Hloop.
    rewrite <-(evolves_silent [ws] e x h h1 w Hev1 He).
    2:{ left. intros Hw. apply list_elem_of_singleton in Hw. congruence. }
    apply IH; auto.
    + pose proof (evolves_length _ _ _ Hev1). lia.
    + by eapply evolves_ok.
    + by eapply (evolves_keeps _ h h1 (w, u)).
Qed.

(** Every visited, open connection whose [send] throws and which is not
    excluded is out of the registry when the loop ends. *)
Lemma loop_evicts (e : WebSocketMessage) (x : option WS) (w : WS)
    (ks : list WS) (h h' : Hub) :
  w ∈ ks -> length (clients h) <= n -> registry_ok h ->
  not_excluded w x = true -> isOpen (net w) = true -> sendThrows (net w) = true ->
  forEach_clients (broadcast_visit net (cleanupClient_with now bc) e x) ks h = Some h' ->
  w ∉ (fst <$> clients h').
Proof.
  intros Hin Hlen Hok Hx Hopen Hthrows. revert h Hlen Hok.
  induction ks as [|ws rest IH]; intros h Hlen Hok Hloop.
  { by apply elem_of_nil in Hin. }
  cbn [forEach_clients] in Hloop.
  destruct (decide (ws = w)) as [->|Hne].
  - destruct (clients_get w (clients h)) as [v|] eqn:Hget.
    + unfold broadcast_visit at 1 in Hloop. rewrite Hx, Hopen, Hthrows in Hloop.
      cbn [andb] in Hloop.
      destruct (cleanup_evolves w h Hlen Hok Hopen Hthrows) as (h1 & Hc & Hev1 & Hout).
      rewrite Hc in Hloop.
      destruct (loop_evolves e x rest h1) as (h2 & Hl & Hev2).
      { pose proof (evolves_length _ _ _ (Hev1 e x)). lia. }
      { eapply evolves_ok; [apply (Hev1 e x)|done]. }
      rewrite Hl in Hloop. injection Hloop as <-.
      by eapply evolves_not_registered.
    + destruct (loop_evolves e x rest h Hlen Hok) as (h2 & Hl & Hev2).
      rewrite Hl in Hloop. injection Hloop as <-.
      eapply evolves_not_registered; [exact Hev2|]. by apply clients_get_None.
  - apply elem_of_cons in Hin as [->|Hin]; [done|].
    destruct (clients_get ws (clients h)) as [v|] eqn:Hget; [|by eapply IH; eauto].
    destruct (visit_evolves e x ws v h Hlen Hok) as (h1 & Hv & Hev1).
    rewrite Hv in Hloop. apply IH in Hloop; auto.
    + pose proof (evolves_length _ _ _ Hev1). lia.
    + by eapply evolves_ok.
Qed.

End Loop.

(** *** [broadcastMessage] and [cleanupClient] *)

(** With more fuel than registered connections, [broadcastMessage] returns. *)
Lemma broadcastMessage_evolves (n : nat) (e : WebSocketMessage) (x : option WS) (h : Hub) :
  length (clients h) < n -> registry_ok h ->
  exists h', broadcastMessage net now n e x h = Some h'
    /\ evolves (allowed (fst <$> clients h) e x) h h'.
Proof.
  revert e x h. induction n as [|n IH]; intros e x h Hlen Hok; [lia|].
  cbn [broadcastMessage].
  apply (loop_evolves (broadcastMessage net now n) n IH); [lia|done].
Qed.

Lemma broadcast_evolves (e : WebSocketMessage) (x : option WS) (h : Hub) :
  registry_ok h ->
  exists h', broadcast net now e x h = Some h'
    /\ evolves (allowed (fst <$> clients h) e x) h h'.
Proof. intros Hok. apply broadcastMessage_evolves; [lia|done]. Qed.

Lemma broadcast_delivers (e : WebSocketMessage) (x : option WS) (w : WS) (u : string)
    (h h' : Hub) :
  (forall v, e <> offline_notice now v) ->
  registry_ok h -> (w, u) ∈ clients h ->
  not_excluded w x = true -> isOpen (net w) = true -> sendThrows (net w) = false ->
  broadcast net now e x h = Some h' ->
  count_sent w e (sent h') = S (count_sent w e (sent h)).
Proof.
  intros He Hok Hreg Hx Hopen Hworks Hb.
  eapply (loop_delivers (broadcastMessage net now (length (clients h)))
            (length (clients h)) (broadcastMessage_evolves _) e x w u
            (fst <$> clients h) h h'); eauto.
  - apply Hok.
  - by apply (list_elem_of_fmap_2 fst) in Hreg.
Qed.

Lemma broadcast_evicts (e : WebSocketMessage) (x : option WS) (w : WS) (u : string)
    (h h' : Hub) :
  registry_ok h -> (w, u) ∈ clients h ->
  not_excluded w x = true -> isOpen (net w) = true -> sendThrows (net w) = true ->
  broadcast net now e x h = Some h' ->
  (w ∉ (fst <$> clients h')) /\ (userPresenceInMemory h' !! u) = Some offline.
Proof.
  intros Hok Hreg Hx Hopen Hthrows Hb.
  assert (Hout : w ∉ (fst <$> clients h')).
  { eapply (loop_evicts (broadcastMessage net now (length (clients h)))
              (length (clients h)) (broadcastMessage_evolves _) e x w
              (fst <$> clients h) h h'); eauto.
    by apply (list_elem_of_fmap_2 fst) in Hreg. }
  split; [done|].
  destruct (broadcast_evolves e x h Hok) as (h2 & Hb2 & Hev).
  rewrite Hb in Hb2. injection Hb2 as <-.
  apply (ev_evicted _ _ _ _ _ Hev (w, u) Hreg).
  intros Hin. apply Hout. by apply (list_elem_of_fmap_2 fst) in Hin.
Qed.


Lemma registry_ok_clients (h h' : Hub) :
  clients h' = clients h -> registry_ok h -> registry_ok h'.
Proof. unfold registry_ok. by intros ->. Qed.

Lemma not_excluded_ne (w x : WS) : w <> x -> not_excluded w (Some x) = true.
Proof. intros H. simpl. by destruct (Nat.eqb_spec w x). Qed.

Lemma not_excluded_self (w : WS) : not_excluded w (Some w) = false.
Proof. simpl. by rewrite Nat.eqb_refl. Qed.

Lemma not_notice (e : WebSocketMessage) :
  type e <> Some "presence_update" -> forall u, e <> offline_notice now u.
Proof. intros Hty u ->. by apply Hty. Qed.

(** More fuel changes nothing. *)
Section Fuel.

Variables bc1 bc2 : WebSocketMessage -> option WS -> Hub -> option Hub.
Hypothesis bc_mono : forall e x h h', bc1 e x h = Some h' -> bc2 e x h = Some h'.

Lemma cleanupClient_with_mono (ws : WS) (h h' : Hub) :
  cleanupClient_with now bc1 ws h = Some h' -> cleanupClient_with now bc2 ws h = Some h'.
Proof.
  unfold cleanupClient_with. destruct (clients_get ws (clients h)); [|done].
  destruct (truthy _); [apply bc_mono|done].
Qed.

Lemma forEach_clients_mono (e : WebSocketMessage) (x : option WS) (ks : list WS)
    (h h' : Hub) :
  forEach_clients (broadcast_visit net (cleanupClient_with now bc1) e x) ks h = Some h' ->
  forEach_clients (broadcast_visit net (cleanupClient_with now bc2) e x) ks h = Some h'.
Proof.
  revert h. induction ks as [|ws rest IH]; intros h; cbn [forEach_clients]; [done|].
  destruct (clients_get ws (clients h)) as [u|]; [|apply IH].
  destruct (broadcast_visit net (cleanupClient_with now bc1) e x ws u h) as [h1|] eqn:Hv;
    [|discriminate].
  assert (broadcast_visit net (cleanupClient_with now bc2) e x ws u h = Some h1) as ->.
  { revert Hv. unfold broadcast_visit. destruct (_ && _); [|done].
    destruct (sendThrows (net ws)); [apply cleanupClient_with_mono|done]. }
  apply IH.
Qed.

End Fuel.

Lemma broadcastMessage_mono (n m : nat) (e : WebSocketMessage) (x : option WS) (h h' : Hub) :
  n <= m -> broadcastMessage net now n e x h = Some h' ->
  broadcastMessage net now m e x h = Some h'.
Proof.
  revert m e x h h'. induction n as [|n IH]; intros m e x h h' Hle; [discriminate|].
  destruct m as [|m]; [lia|]. cbn [broadcastMessage].
  apply forEach_clients_mono. intros e' x' h1 h1'. apply IH. lia.
Qed.

(** [broadcastMessage] returns, and what it returns is the result of
    [broadcast], as soon as the fuel exceeds the number of connections. *)
Lemma broadcastMessage_total (n : nat) (e : WebSocketMessage) (x : option WS) (h : Hub) :
  registry_ok h -> length (clients h) < n ->
  is_Some (broadcast net now e x h)
  /\ broadcastMessage net now n e x h = broadcast net now e x h.
Proof.
  intros Hok Hlen. destruct (broadcast_evolves e x h Hok) as (h' & Hb & _).
  rewrite Hb. split; [done|].
  apply (broadcastMessage_mono (S (length (clients h)))); [lia|done].
Qed.

(** *** Fan-out *)

(** C5 (fan-out exclusion).  A broadcast of an event [e] that excludes the
    connection [c] returns, and: [c] is sent no copy of [e]; every other
    registered connection whose transport is open is either sent [e] exactly
    once and stays registered, when its [send] works, or is evicted (out of
    the registry, its user marked offline) when its [send] throws, whatever
    happens to the other connections.  The evictions send offline notices of
    their own to every connection; [e] is taken not to be such a notice, as
    none of the events the hub broadcasts with an exclusion is
    ([excluded_broadcasts] below). *)
Theorem fan_out_exclusion (e : WebSocketMessage) (c : WS) (h : Hub) :
  registry_ok h -> (forall u, e <> offline_notice now u) ->
  exists h', broadcast net now e (Some c) h = Some h'
    /\ count_sent c e (sent h') = count_sent c e (sent h)
    /\ forall w u, (w, u) ∈ clients h -> w <> c -> isOpen (net w) = true ->
         if sendThrows (net w)
         then (w ∉ (fst <$> clients h')) /\ (userPresenceInMemory h' !! u) = Some offline
         else count_sent w e (sent h') = S (count_sent w e (sent h))
              /\ (w, u) ∈ clients h'.
Proof.
  intros Hok Hnot.
  destruct (broadcast_evolves e (Some c) h Hok) as (h' & Hb & Hev).
  exists h'. split; [done|]. split.
  - apply (evolves_silent _ _ _ _ _ c Hev Hnot).
    right. apply not_excluded_self.
  - intros w u Hreg Hne Hopen. destruct (sendThrows (net w)) eqn:Hthrows.
    + by apply (broadcast_evicts e (Some c) w u h h' Hok Hreg (not_excluded_ne w c Hne)).
    + split.
      * by apply (broadcast_delivers e (Some c) w u h h' Hnot Hok Hreg
                    (not_excluded_ne w c Hne)).
      * by apply (evolves_keeps _ h h' (w, u) Hev).
Qed.

(** *** Eviction *)

Lemma evict_returns (ws : WS) (h : Hub) :
  registry_ok h ->
  exists h', evict net now ws h = Some h'
    /\ (ws ∉ (fst <$> clients h'))
    /\ clients h' `sublist_of` clients h
    /\ (ws ∉ (fst <$> clients h) -> h' = h).
Proof.
  intros Hok.
  pose proof (cleanup_spec (broadcastMessage net now (length (clients h)))
                (length (clients h)) (broadcastMessage_evolves _) ws h
                (Nat.le_refl _) Hok) as Hspec.
  fold (cleanupClient net now (length (clients h)) ws h) in Hspec.
  fold (evict net now ws h) in Hspec.
  destruct (clients_get ws (clients h)) as [u|] eqn:Hget.
  - destruct Hspec as (h' & Hc & Hev). exists h'. split; [done|].
    split; [eapply not_registered_after, (Hev Wire.empty None)|].
    split.
    + etransitivity; [apply (Hev Wire.empty None)|apply clients_delete_sublist].
    + intros Hno. apply clients_get_None in Hno. congruence.
  - apply clients_get_None in Hget. by exists h.
Qed.

(** C6 (eviction idempotence).  [ws.on('close')] and [ws.on('error')] both
    call [cleanupClient]: it returns; afterwards the connection is not
    registered; and a second call, whenever it comes, returns the very same
    hub, so the registry, the presence store and the frames sent are what
    they were, and no second offline notice goes out.  Evicting a connection
    that is not registered changes nothing at all. *)
Theorem eviction_idempotent (ws : WS) (h : Hub) :
  registry_ok h ->
  exists h', on_close net now ws h = Some h'
    /\ (ws ∉ (fst <$> clients h'))
    /\ (forall net' now', on_close net' now' ws h' = Some h')
    /\ (ws ∉ (fst <$> clients h) -> h' = h).
Proof.
  intros Hok. unfold on_close.
  destruct (evict_returns ws h Hok) as (h' & Hc & Hout & _ & Hsame).
  exists h'. split; [done|]. split; [done|]. split; [|done].
  intros net' now'. by apply evict_not_registered.
Qed.

(** *** Message intake *)

Lemma on_message_dispatch (ws : WS) (dateNow : N) (rnd : string)
    (message : WebSocketMessage) (ty uid : string) (h : Hub) :
  type message = Some ty -> ty <> "" ->
  Wire.userId message = Some uid -> uid <> "" ->
  on_message net now ws dateNow rnd (Some message) h
  = dispatch net now ws dateNow rnd message ty uid (set_clients (clients_set ws uid) h).
Proof.
  intros Hty Hty0 Hu Hu0. unfold on_message. rewrite Hty, Hu.
  by rewrite (truthy_of_Some ty Hty0), (truthy_of_Some uid Hu0).
Qed.

(** An accepted [new_message]: the handler returns, and its result is the
    broadcast's, run from [confirmed_hub], with the pending entry deleted. *)
Lemma new_message_accepted (ws : WS) (dateNow : N) (rnd : string)
    (message : WebSocketMessage) (uid c : string) (h : Hub) :
  registry_ok h ->
  type message = Some "new_message" ->
  Wire.userId message = Some uid -> uid <> "" ->
  content message = Some c -> c <> "" ->
  sendThrows (net ws) = false ->
  let messageId := messageId_of dateNow rnd in
  let newMessage := newMessage_of now message messageId uid in
  let h3 := confirmed_hub ws dateNow rnd message uid h in
  exists h4,
    broadcast net now newMessage (Some ws) h3 = Some h4
    /\ on_message net now ws dateNow rnd (Some message) h
       = Some (set_pending (delete messageId) h4)
    /\ evolves (allowed (fst <$> clients h3) newMessage (Some ws)) h3 h4.
Proof.
  intros Hok Hty Hu Hu0 Hc Hc0 Hworks messageId newMessage h3.
  destruct (broadcast_evolves newMessage (Some ws) h3) as (h4 & Hb & Hev).
  { apply registry_ok_clients with (set_clients (clients_set ws uid) h); [done|].
    by apply clients_set_ok. }
  exists h4. split; [done|]. split; [|done].
  rewrite (on_message_dispatch ws dateNow rnd message "new_message" uid h Hty) by done.
  unfold dispatch. cbn [String.eqb Ascii.eqb Bool.eqb].
  unfold handle_new_message. rewrite Hc, (truthy_of_Some c Hc0), Hworks. cbn [negb].
  fold messageId. fold newMessage.
  change (deliver ws _ _) with h3. by rewrite Hb.
Qed.

Lemma newMessage_type (message : WebSocketMessage) (mid uid : string) :
  type (newMessage_of now message mid uid) = type message.
Proof. reflexivity. Qed.

(** C2 (confirmation uniqueness).  For a [new_message] the hub accepts (type,
    sender and content present, and the reply to the sender can be sent), the
    handler returns and the frames it sends are: first the reply, to the
    originating connection, which is a [message_confirmed] with the hub's id
    and the content of the event; then frames none of which is a
    [message_confirmed], in which every [new_message] is the broadcast copy,
    a [new_message] with the same id and content, and goes to a connection
    other than the originator; and every other registered connection that is
    open and whose [send] works is sent that copy exactly once.  So the
    originator gets one [message_confirmed] and no [new_message], and each of
    the others one [new_message] and no [message_confirmed]. *)
Theorem confirmation_uniqueness (ws : WS) (dateNow : N) (rnd : string)
    (message : WebSocketMessage) (uid c : string) (h : Hub) :
  registry_ok h ->
  type message = Some "new_message" ->
  Wire.userId message = Some uid -> uid <> "" ->
  content message = Some c -> c <> "" ->
  sendThrows (net ws) = false ->
  let messageId := messageId_of dateNow rnd in
  let newMessage := newMessage_of now message messageId uid in
  let confirmation := confirmation_of now message messageId in
  exists h' rest,
    on_message net now ws dateNow rnd (Some message) h = Some h'
    /\ sent h' = (sent h ++ (ws, confirmation_of now message messageId) :: rest)%list
    /\ Forall (fun p => type p.2 <> Some "message_confirmed"
                        /\ (type p.2 = Some "new_message"
                            -> p.1 <> ws /\ p.2 = newMessage)) rest
    /\ count_sent ws newMessage rest = 0
    /\ (forall w u, (w, u) ∈ clients h -> w <> ws ->
          isOpen (net w) = true -> sendThrows (net w) = false ->
          count_sent w newMessage rest = 1)
    /\ type confirmation = Some "message_confirmed"
    /\ Wire.id confirmation = Some messageId /\ content confirmation = Some c
    /\ type newMessage = Some "new_message"
    /\ Wire.id newMessage = Some messageId /\ content newMessage = Some c
    /\ length (List.filter
                 (fun p => bool_decide (p.1 = ws /\ type p.2 = Some "message_confirmed"))
                 ((ws, confirmation) :: rest)) = 1
    /\ List.filter
         (fun p => bool_decide (p.1 = ws /\ type p.2 = Some "new_message"))
         ((ws, confirmation) :: rest) = [].
Proof.
  intros Hok Hty Hu Hu0 Hc Hc0 Hworks messageId newMessage confirmation.
  destruct (new_message_accepted ws dateNow rnd message uid c h)
    as (h4 & Hb & Hon & Hev); try done.
  fold messageId newMessage in Hb, Hon, Hev.
  set (h3 := confirmed_hub ws dateNow rnd message uid h) in *.
  destruct (ev_sent _ _ _ _ _ Hev) as (rest & Hsent & Hrest).
  assert (Hnot : forall v, newMessage <> offline_notice now v).
  { apply not_notice. unfold newMessage. rewrite newMessage_type, Hty. discriminate. }
  exists (set_pending (delete messageId) h4), rest.
  split; [done|]. split.
  { cbn [sent set_pending]. rewrite Hsent. unfold h3, HubSpec.confirmed_hub. cbn [sent deliver].
    fold messageId. by rewrite <-app_assoc. }
  split.
  { eapply Forall_impl; [exact Hrest|].
    intros [w f] (_ & _ & Hcase); cbn [fst snd] in *.
    destruct Hcase as [(Hf & Hx & _)|(v & Hf)]; subst f.
    - unfold newMessage at 1 2. rewrite newMessage_type, Hty.
      split; [discriminate|]. intros _. split; [|done].
      intros ->. by rewrite not_excluded_self in Hx.
    - split; [discriminate|]. discriminate. }
  split.
  { apply count_sent_none. eapply Forall_impl; [exact Hrest|].
    intros [w f] (_ & _ & Hcase) [= -> Hf]; cbn [fst snd] in *.
    destruct Hcase as [(_ & Hx & _)|(v & Hv)].
    - by rewrite not_excluded_self in Hx.
    - apply (Hnot v). congruence. }
  assert (Hfrest : Forall (fun p => type p.2 <> Some "message_confirmed"
                                    /\ (type p.2 = Some "new_message" -> p.1 <> ws)) rest).
  { eapply Forall_impl; [exact Hrest|].
    intros [w f] (_ & _ & Hcase); cbn [fst snd] in *.
    destruct Hcase as [(Hf & Hx & _)|(v & Hf)]; subst f.
    - unfold newMessage. rewrite newMessage_type, Hty.
      split; [discriminate|]. intros _ ->. by rewrite not_excluded_self in Hx.
    - split; discriminate. }
  split.
  { intros w u Hreg Hne Hopen Hw.
    assert (Hcount : count_sent w newMessage (sent h4)
                     = S (count_sent w newMessage (sent h3))).
    { apply (broadcast_delivers newMessage (Some ws) w u h3 h4); try done.
      - apply registry_ok_clients with (set_clients (clients_set ws uid) h); [done|].
        by apply clients_set_ok.
      - unfold h3, HubSpec.confirmed_hub.
        cbn [clients deliver set_pending set_messages set_clients].
        by apply clients_set_elem_ne.
      - by apply not_excluded_ne. }
    rewrite Hsent, count_sent_app in Hcount. lia. }
  split; [reflexivity|]. split; [reflexivity|]. split; [exact Hc|].
  split; [unfold newMessage; by rewrite newMessage_type|].
  split; [reflexivity|]. split; [exact Hc|].
  split.
  - cbn [List.filter fst snd]. rewrite bool_decide_eq_true_2 by done. cbn [length].
    f_equal. rewrite Reconciliation.filter_none; [done|].
    intros p Hp. apply (proj1 (Forall_forall _ _) Hfrest) in Hp as [Hp _].
    apply bool_decide_eq_false_2. by intros [_ ?].
  - cbn [List.filter fst snd]. rewrite bool_decide_eq_false_2 by (by intros [_ ?]).
    apply Reconciliation.filter_none.
    intros p Hp. apply (proj1 (Forall_forall _ _) Hfrest) in Hp as [_ Hp].
    apply bool_decide_eq_false_2. intros [Hw Hn]. by apply Hp.
Qed.

(** The ids of the hub and the ids of the store never coincide: the first
    character of a decimal numeral is not [m]. *)
Lemma pretty_N_go_not_m (x : N) (s : string) :
  (forall s', s <> String "m"%char s') -> forall s', pretty_N_go x s <> String "m"%char s'.
Proof.
  revert s. induction (N.lt_wf_0 x) as [x _ IH]; intros s Hs.
  assert (x = 0 \/ 0 < x)%N as [->|Hx] by lia.
  - by rewrite pretty_N_go_0.
  - rewrite pretty_N_go_step by done. apply IH; [by apply N.div_lt|].
    intros s'. unfold pretty_N_char. by repeat case_match.
Qed.

Lemma messageId_not_durable (dateNow : N) (rnd : string) (serial : N) :
  messageId_of dateNow rnd <> durable_id serial.
Proof.
  unfold durable_id, pretty, pretty_N.
  change (messageId_of dateNow rnd)
    with (String "m"%char ("sg_" +:+ pretty dateNow +:+ "_" +:+ rnd)).
  case_decide; [discriminate|].
  intros Heq. symmetry in Heq. revert Heq. by apply pretty_N_go_not_m.
Qed.

Lemma messageId_not_temp (dateNow : N) (rnd : string) :
  is_temp (messageId_of dateNow rnd) = false.
Proof. reflexivity. Qed.

(** C4 (canonical id provenance), as the code has it.  For an accepted
    [new_message] the id in the [message_confirmed] reply and in every
    broadcast copy is the one the hub itself makes from [Date.now()] and
    [Math.random()], and their timestamp is the hub's own clock reading; that
    id is never an id of the durable store, and never a placeholder's. *)
Theorem canonical_id_is_hub_made (ws : WS) (dateNow : N) (rnd : string)
    (message : WebSocketMessage) (uid c : string) (h : Hub) :
  registry_ok h ->
  type message = Some "new_message" ->
  Wire.userId message = Some uid -> uid <> "" ->
  content message = Some c -> c <> "" ->
  sendThrows (net ws) = false ->
  let messageId := messageId_of dateNow rnd in
  let confirmation := confirmation_of now message messageId in
  exists h' rest,
    on_message net now ws dateNow rnd (Some message) h = Some h'
    /\ sent h' = (sent h ++ (ws, confirmation) :: rest)%list
    /\ Wire.id confirmation = Some ("msg_" +:+ pretty dateNow +:+ "_" +:+ rnd)
    /\ timestamp confirmation = Some now
    /\ Forall (fun p => type p.2 = Some "new_message"
                        -> Wire.id p.2 = Wire.id confirmation
                           /\ timestamp p.2 = Some now) rest
    /\ (forall serial, Wire.id confirmation <> Some (durable_id serial))
    /\ is_temp messageId = false.
Proof.
  intros Hok Hty Hu Hu0 Hc Hc0 Hworks messageId confirmation.
  destruct (new_message_accepted ws dateNow rnd message uid c h)
    as (h4 & Hb & Hon & Hev); try done.
  fold messageId in Hb, Hon, Hev.
  destruct (ev_sent _ _ _ _ _ Hev) as (rest & Hsent & Hrest).
  exists (set_pending (delete messageId) h4), rest.
  split; [done|]. split.
  { cbn [sent set_pending]. rewrite Hsent. unfold HubSpec.confirmed_hub. cbn [sent deliver].
    fold messageId. by rewrite <-app_assoc. }
  split; [reflexivity|]. split; [reflexivity|]. split.
  { eapply Forall_impl; [exact Hrest|].
    intros [w f] (_ & _ & Hcase); cbn [fst snd] in *.
    destruct Hcase as [(Hf & _)|(v & Hf)]; subst f; [done|discriminate]. }
  split; [|reflexivity].
  intros serial [= H]. by apply (messageId_not_durable dateNow rnd serial).
Qed.

(** *** Identity *)

(** What a handler may do to the registry after [clients.set]. *)
Lemma broadcast_registry (e : WebSocketMessage) (x : option WS) (h0 h : Hub) :
  clients h = clients h0 -> registry_ok h0 ->
  exists h', broadcast net now e x h = Some h'
    /\ clients h' `sublist_of` clients h0
    /\ forall p, p ∈ clients h0 -> p ∉ clients h' -> sendThrows (net p.1) = true.
Proof.
  intros Hcl Hok.
  destruct (broadcast_evolves e x h) as (h' & Hb & Hev).
  { by apply registry_ok_clients with h0. }
  exists h'. split; [done|]. rewrite <-Hcl. split; [apply Hev|].
  intros p Hin Hout. by destruct (ev_evicted _ _ _ _ _ Hev p Hin Hout) as (_ & ? & _).
Qed.

Lemma dispatch_registry (ws : WS) (dateNow : N) (rnd : string)
    (message : WebSocketMessage) (ty uid : string) (h : Hub) :
  registry_ok h ->
  exists h', dispatch net now ws dateNow rnd message ty uid h = Some h'
    /\ clients h' `sublist_of` clients h
    /\ forall p, p ∈ clients h -> p ∉ clients h' -> sendThrows (net p.1) = true.
Proof.
  intros Hok.
  assert (Hsame : forall h', clients h' = clients h ->
            exists h'', Some h' = Some h''
              /\ clients h'' `sublist_of` clients h
              /\ forall p, p ∈ clients h -> p ∉ clients h'' -> sendThrows (net p.1) = true).
  { intros h' Hcl. exists h'. rewrite Hcl. split; [done|]. split; [done|].
    intros p Hin Hout. contradiction. }
  unfold dispatch.
  destruct (String.eqb ty "new_message").
  { unfold handle_new_message.
    destruct (negb (truthy (content message))); [by apply Hsame|].
    destruct (sendThrows (net ws)); [by apply Hsame|].
    match goal with |- context [broadcast net now ?e ?x ?h3] =>
      destruct (broadcast_registry e x h h3) as (h4 & -> & Hsub & Hev); [done|done|]
    end.
    eexists. split; [reflexivity|]. by split. }
  destruct (String.eqb ty "presence_update").
  { unfold handle_presence_update.
    destruct (status message) as [st|]; [|by apply Hsame].
    destruct (negb (truthy (Some st))); [by apply Hsame|].
    by apply broadcast_registry. }
  destruct (String.eqb ty "typing_indicator").
  { by apply broadcast_registry. }
  by apply broadcast_registry.
Qed.

(** C9 (identity from messages).  For every inbound event with a type and a
    user id, whatever the type, the handler first maps the connection to the
    user id the event declares, replacing whatever the registry held for it,
    and only then dispatches.  The handler returns; afterwards the connection
    is registered under that user id, unless its own [send] threw during the
    dispatch and it was evicted. *)
Theorem identity_from_messages (ws : WS) (dateNow : N) (rnd : string)
    (message : WebSocketMessage) (ty uid : string) (h : Hub) :
  registry_ok h ->
  type message = Some ty -> ty <> "" ->
  Wire.userId message = Some uid -> uid <> "" ->
  let admitted := set_clients (clients_set ws uid) h in
  clients_get ws (clients admitted) = Some uid
  /\ on_message net now ws dateNow rnd (Some message) h
     = dispatch net now ws dateNow rnd message ty uid admitted
  /\ exists h', on_message net now ws dateNow rnd (Some message) h = Some h'
       /\ (sendThrows (net ws) = false -> clients_get ws (clients h') = Some uid)
       /\ (clients_get ws (clients h') = Some uid \/ clients_get ws (clients h') = None).
Proof.
  intros Hok Hty Hty0 Hu Hu0 admitted.
  assert (Hok1 : registry_ok admitted) by by apply clients_set_ok.
  assert (Hget : clients_get ws (clients admitted) = Some uid) by apply clients_set_get.
  split; [done|]. split; [by apply on_message_dispatch|].
  rewrite (on_message_dispatch ws dateNow rnd message ty uid h) by done.
  destruct (dispatch_registry ws dateNow rnd message ty uid admitted Hok1)
    as (h' & Hd & Hsub & Hev).
  exists h'. split; [done|].
  assert (Hok' : registry_ok h') by by apply registry_ok_sublist with admitted.
  apply clients_get_Some_elem in Hget.
  destruct (decide ((ws, uid) ∈ clients h')) as [Hin|Hout].
  - pose proof (clients_get_elem ws uid (clients h') (proj1 Hok') Hin). auto.
  - split.
    + intros Hworks. specialize (Hev (ws, uid) Hget Hout). simpl in Hev. congruence.
    + right. apply clients_get_None. intros Hin.
      apply list_elem_of_fmap in Hin as ([w v] & Hw & Hin). simpl in Hw. subst w.
      pose proof (elem_of_sublist _ _ _ Hin Hsub) as Hin1.
      pose proof (clients_get_elem ws v (clients admitted) (proj1 Hok1) Hin1) as Hv.
      pose proof (clients_get_elem ws uid (clients admitted) (proj1 Hok1) Hget) as Hu1.
      apply Hout. congruence.
Qed.

(** *** Failed and rejected intake *)

(** C10 (intake atomicity on confirmation failure).  When the reply to the
    sender throws, the handler returns; the message log is what it was, no
    frame has been sent (no reply, no broadcast), the presence store is
    untouched and the pending map has lost at most the entry of the new id;
    the registry keeps the mapping made before the dispatch. *)
Theorem failed_confirmation_rolls_back (ws : WS) (dateNow : N) (rnd : string)
    (message : WebSocketMessage) (uid c : string) (h : Hub) :
  type message = Some "new_message" ->
  Wire.userId message = Some uid -> uid <> "" ->
  content message = Some c -> c <> "" ->
  sendThrows (net ws) = true ->
  exists h', on_message net now ws dateNow rnd (Some message) h = Some h'
    /\ messagesInMemory h' = messagesInMemory h
    /\ sent h' = sent h
    /\ userPresenceInMemory h' = userPresenceInMemory h
    /\ pendingMessages h' = delete (messageId_of dateNow rnd) (pendingMessages h)
    /\ (pendingMessages h !! messageId_of dateNow rnd = None
        -> pendingMessages h' = pendingMessages h)
    /\ clients h' = clients_set ws uid (clients h).
Proof.
  intros Hty Hu Hu0 Hc Hc0 Hthrows.
  rewrite (on_message_dispatch ws dateNow rnd message "new_message" uid h Hty) by done.
  unfold dispatch. cbn [String.eqb Ascii.eqb Bool.eqb].
  unfold handle_new_message. rewrite Hc, (truthy_of_Some c Hc0), Hthrows. cbn [negb].
  eexists. split; [reflexivity|].
  cbn [messagesInMemory sent userPresenceInMemory pendingMessages clients
       set_pending set_messages set_clients].
  split; [apply removelast_last|]. split; [done|]. split; [done|].
  split; [apply delete_insert_eq|]. split; [|done].
  intros Hfresh. rewrite delete_insert_eq. by apply delete_id.
Qed.

(** C3 (intake validation), as the code has it.  A [new_message] whose
    content is missing or empty, or whose user id is missing or empty, is
    rejected: the handler returns and has sent nothing and stored nothing.
    The content is tested as it arrives, without trimming. *)
Theorem intake_validation (ws : WS) (dateNow : N) (rnd : string)
    (message : WebSocketMessage) (h : Hub) :
  type message = Some "new_message" ->
  truthy (content message) = false \/ truthy (Wire.userId message) = false ->
  exists h', on_message net now ws dateNow rnd (Some message) h = Some h'
    /\ sent h' = sent h
    /\ messagesInMemory h' = messagesInMemory h
    /\ pendingMessages h' = pendingMessages h
    /\ userPresenceInMemory h' = userPresenceInMemory h.
Proof.
  intros Hty Hbad. unfold on_message. rewrite Hty.
  destruct (Wire.userId message) as [uid|] eqn:Hu; [|by exists h].
  change (negb (truthy (Some "new_message"))) with false. cbn [orb].
  destruct (truthy (Some uid)) eqn:Htu; cbn [negb]; [|by exists h].
  destruct Hbad as [Hbad|Hbad]; [|discriminate].
  unfold dispatch. cbn [String.eqb Ascii.eqb Bool.eqb].
  unfold handle_new_message. rewrite Hbad. cbn [negb].
  eexists. split; [reflexivity|]. done.
Qed.

(** *** The registry's invariant *)

Lemma on_message_ok (ws : WS) (dateNow : N) (rnd : string)
    (raw : option WebSocketMessage) (h : Hub) :
  registry_ok h ->
  exists h', on_message net now ws dateNow rnd raw h = Some h' /\ registry_ok h'.
Proof.
  intros Hok. unfold on_message.
  destruct raw as [message|]; [|by exists h].
  destruct (type message) as [ty|]; [|by exists h].
  destruct (Wire.userId message) as [uid|]; [|by exists h].
  destruct (truthy (Some ty)); [|by exists h].
  destruct (truthy (Some uid)) eqn:Hu; [|by exists h]. cbn [negb orb].
  apply truthy_Some in Hu as (u & [= <-] & Hu).
  pose proof (clients_set_ok ws uid h Hu Hok) as Hok1.
  destruct (dispatch_registry ws dateNow rnd message ty uid _ Hok1) as (h' & -> & Hsub & _).
  exists h'. split; [done|]. by apply registry_ok_sublist with (set_clients (clients_set ws uid) h).
Qed.

Lemma on_close_ok (ws : WS) (h : Hub) :
  registry_ok h ->
  exists h', on_close net now ws h = Some h' /\ registry_ok h'.
Proof.
  intros Hok. destruct (evict_returns ws h Hok) as (h' & Hc & _ & Hsub & _).
  exists h'. split; [done|]. by apply registry_ok_sublist with h.
Qed.

End Broadcast.

(** Every hub the handlers can produce satisfies the invariant, and every
    handler returns on it. *)
Lemma reachable_ok (h : Hub) : reachable h -> registry_ok h.
Proof.
  induction 1 as [|net now ws dateNow rnd raw h h' _ IH Hon|net now ws h h' _ IH Hc].
  - split; constructor.
  - destruct (on_message_ok net now ws dateNow rnd raw h IH) as (h2 & Hon2 & Hok).
    congruence.
  - destruct (on_close_ok net now ws h IH) as (h2 & Hc2 & Hok). congruence.
Qed.

(** The events the hub broadcasts with an exclusion (the new message, the
    typing indicator, and an event of any other type passed on as it came) are
    no offline notices. *)
Lemma excluded_broadcasts (now : Z) (message : WebSocketMessage) (mid uid ty : string) :
  type message = Some ty -> ty <> "presence_update" ->
  forall u, newMessage_of now message mid uid <> offline_notice now u
            /\ message <> offline_notice now u.
Proof.
  intros Hty Hne u. split.
  - intros H. apply (f_equal type) in H. cbn [type newMessage_of offline_notice] in H.
    congruence.
  - intros ->. cbn [type offline_notice] in Hty. congruence.
Qed.

(** *** The scenario *)

Ltac scenario_ok :=
  split; [compute_done | repeat constructor; discriminate].

Lemma fan_out_exclusion_witness :
  registry_ok Scenario.hub
  /\ (forall u, Scenario.typing <> offline_notice Scenario.now u)
  /\ exists h', broadcast Scenario.net Scenario.now Scenario.typing (Some 0) Scenario.hub
                = Some h'
    /\ count_sent 0 Scenario.typing (sent h') = count_sent 0 Scenario.typing (sent Scenario.hub)
    /\ forall w u, (w, u) ∈ clients Scenario.hub -> w <> 0 ->
         isOpen (Scenario.net w) = true ->
         if sendThrows (Scenario.net w)
         then (w ∉ (fst <$> clients h'))
              /\ (userPresenceInMemory h' !! u) = Some (offline Scenario.now)
         else count_sent w Scenario.typing (sent h')
              = S (count_sent w Scenario.typing (sent Scenario.hub))
              /\ (w, u) ∈ clients h'.
Proof.
  split; [scenario_ok|]. split; [intros u; discriminate|].
  apply (fan_out_exclusion Scenario.net Scenario.now Scenario.typing 0 Scenario.hub);
    [scenario_ok|intros u; discriminate].
Defined.

Lemma eviction_idempotent_witness :
  registry_ok Scenario.hub
  /\ exists h', on_close Scenario.net Scenario.now 1 Scenario.hub = Some h'
    /\ (1 ∉ (fst <$> clients h'))
    /\ (forall net' now', on_close net' now' 1 h' = Some h')
    /\ (1 ∉ (fst <$> clients Scenario.hub) -> h' = Scenario.hub).
Proof.
  split; [scenario_ok|].
  apply (eviction_idempotent Scenario.net Scenario.now 1 Scenario.hub). scenario_ok.
Defined.

Lemma confirmation_uniqueness_witness :
  let messageId := messageId_of 1700000000400 "k3x9" in
  let newMessage := newMessage_of Scenario.now Scenario.hi messageId "jane" in
  let confirmation := confirmation_of Scenario.now Scenario.hi messageId in
  registry_ok Scenario.hub
  /\ exists h' rest,
    on_message Scenario.net Scenario.now 0 1700000000400 "k3x9" (Some Scenario.hi)
      Scenario.hub = Some h'
    /\ sent h' = (sent Scenario.hub
                  ++ (0, confirmation_of Scenario.now Scenario.hi messageId) :: rest)%list
    /\ Forall (fun p => type p.2 <> Some "message_confirmed"
                        /\ (type p.2 = Some "new_message"
                            -> p.1 <> 0 /\ p.2 = newMessage)) rest
    /\ count_sent 0 newMessage rest = 0
    /\ (forall w u, (w, u) ∈ clients Scenario.hub -> w <> 0 ->
          isOpen (Scenario.net w) = true -> sendThrows (Scenario.net w) = false ->
          count_sent w newMessage rest = 1)
    /\ type confirmation = Some "message_confirmed"
    /\ Wire.id confirmation = Some messageId /\ content confirmation = Some "hi"
    /\ type newMessage = Some "new_message"
    /\ Wire.id newMessage = Some messageId /\ content newMessage = Some "hi"
    /\ length (List.filter
                 (fun p => bool_decide (p.1 = 0 /\ type p.2 = Some "message_confirmed"))
                 ((0, confirmation) :: rest)) = 1
    /\ List.filter
         (fun p => bool_decide (p.1 = 0 /\ type p.2 = Some "new_message"))
         ((0, confirmation) :: rest) = [].
Proof.
  split; [scenario_ok|].
  apply (confirmation_uniqueness Scenario.net Scenario.now 0 1700000000400 "k3x9"
           Scenario.hi "jane" "hi" Scenario.hub);
    first [scenario_ok | reflexivity | discriminate].
Defined.

Lemma canonical_id_is_hub_made_witness :
  let messageId := messageId_of 1700000000400 "k3x9" in
  let confirmation := confirmation_of Scenario.now Scenario.hi messageId in
  registry_ok Scenario.duo
  /\ exists h' rest,
    on_message Scenario.net Scenario.now 0 1700000000400 "k3x9" (Some Scenario.hi)
      Scenario.duo = Some h'
    /\ sent h' = (sent Scenario.duo ++ (0, confirmation) :: rest)%list
    /\ Wire.id confirmation = Some ("msg_" +:+ pretty 1700000000400%N +:+ "_" +:+ "k3x9")
    /\ timestamp confirmation = Some Scenario.now
    /\ Forall (fun p => type p.2 = Some "new_message"
                        -> Wire.id p.2 = Wire.id confirmation
                           /\ timestamp p.2 = Some Scenario.now) rest
    /\ (forall serial, Wire.id confirmation <> Some (durable_id serial))
    /\ is_temp messageId = false.
Proof.
  split; [scenario_ok|].
  apply (canonical_id_is_hub_made Scenario.net Scenario.now 0 1700000000400 "k3x9"
           Scenario.hi "jane" "hi" Scenario.duo);
    first [scenario_ok | reflexivity | discriminate].
Defined.

(** C4 as the specification states it, at the scenario: jane's "hi" is confirmed to her
    and broadcast to bob under the id [msg_1700000000400_k3x9], which the hub
    made itself and which is no id of the durable store. *)
Lemma confirmed_id_is_not_durable :
  Scenario.summary <$> on_message Scenario.net Scenario.now 0 1700000000400 "k3x9"
                         (Some Scenario.hi) Scenario.duo
  = Some ([(0, Some "message_confirmed", Some "msg_1700000000400_k3x9", Some "hi");
           (1, Some "new_message", Some "msg_1700000000400_k3x9", Some "hi")],
          [Some "msg_1700000000400_k3x9"])
  /\ forall serial, "msg_1700000000400_k3x9" <> durable_id serial.
Proof.
  split; [vm_compute; reflexivity|].
  intros serial. apply (messageId_not_durable 1700000000400 "k3x9" serial).
Qed.

Lemma identity_from_messages_witness :
  let admitted := set_clients (clients_set 1 "jane") Scenario.hub in
  registry_ok Scenario.hub
  /\ clients_get 1 (clients Scenario.hub) = Some "bob"
  /\ clients_get 1 (clients admitted) = Some "jane"
  /\ on_message Scenario.net Scenario.now 1 1700000000400 "k3x9" (Some Scenario.typing)
       Scenario.hub
     = dispatch Scenario.net Scenario.now 1 1700000000400 "k3x9" Scenario.typing
         "typing_indicator" "jane" admitted
  /\ exists h', on_message Scenario.net Scenario.now 1 1700000000400 "k3x9"
                  (Some Scenario.typing) Scenario.hub = Some h'
       /\ (sendThrows (Scenario.net 1) = false -> clients_get 1 (clients h') = Some "jane")
       /\ (clients_get 1 (clients h') = Some "jane" \/ clients_get 1 (clients h') = None).
Proof.
  split; [scenario_ok|]. split; [reflexivity|].
  apply (identity_from_messages Scenario.net Scenario.now 1 1700000000400 "k3x9"
           Scenario.typing "typing_indicator" "jane" Scenario.hub);
    first [scenario_ok | reflexivity | discriminate].
Defined.

Lemma failed_confirmation_rolls_back_witness :
  sendThrows (Scenario.net 2) = true
  /\ exists h', on_message Scenario.net Scenario.now 2 1700000000400 "k3x9"
                  (Some Scenario.hi) Scenario.hub = Some h'
    /\ messagesInMemory h' = messagesInMemory Scenario.hub
    /\ sent h' = sent Scenario.hub
    /\ userPresenceInMemory h' = userPresenceInMemory Scenario.hub
    /\ pendingMessages h'
       = delete (messageId_of 1700000000400 "k3x9") (pendingMessages Scenario.hub)
    /\ (pendingMessages Scenario.hub !! messageId_of 1700000000400 "k3x9" = None
        -> pendingMessages h' = pendingMessages Scenario.hub)
    /\ clients h' = clients_set 2 "jane" (clients Scenario.hub).
Proof.
  split; [reflexivity|].
  apply (failed_confirmation_rolls_back Scenario.net Scenario.now 2 1700000000400 "k3x9"
           Scenario.hi "jane" "hi" Scenario.hub);
    first [reflexivity | discriminate].
Defined.

Lemma intake_validation_witness :
  truthy (content Scenario.no_content) = false
  /\ exists h', on_message Scenario.net Scenario.now 0 1700000000400 "k3x9"
                  (Some Scenario.no_content) Scenario.duo = Some h'
    /\ sent h' = sent Scenario.duo
    /\ messagesInMemory h' = messagesInMemory Scenario.duo
    /\ pendingMessages h' = pendingMessages Scenario.duo
    /\ userPresenceInMemory h' = userPresenceInMemory Scenario.duo.
Proof.
  split; [reflexivity|].
  apply (intake_validation Scenario.net Scenario.now 0 1700000000400 "k3x9"
           Scenario.no_content Scenario.duo); [reflexivity|].
  left. reflexivity.
Defined.

(** C3 as the specification states it, at the scenario: a [new_message] whose content is
    three spaces, empty once trimmed, is not rejected; it is confirmed to
    jane, broadcast to bob and stored. *)
Lemma blank_content_is_accepted :
  trim "   " = ""
  /\ Scenario.summary <$> on_message Scenario.net Scenario.now 0 1700000000400 "k3x9"
                            (Some (Scenario.new_message "   " None)) Scenario.duo
     = Some ([(0, Some "message_confirmed", Some "msg_1700000000400_k3x9", Some "   ");
              (1, Some "new_message", Some "msg_1700000000400_k3x9", Some "   ")],
             [Some "msg_1700000000400_k3x9"]).
Proof. split; vm_compute; reflexivity. Qed.

(** The handler never looks at [parentId]: a reply to a message the hub has
    never seen is confirmed, broadcast and stored like any other. *)
Lemma unknown_parent_is_accepted :
  Scenario.summary <$> on_message Scenario.net Scenario.now 0 1700000000400 "k3x9"
                         (Some (Scenario.new_message "hi" (Some "no_such_message")))
                         Scenario.duo
  = Some ([(0, Some "message_confirmed", Some "msg_1700000000400_k3x9", Some "hi");
           (1, Some "new_message", Some "msg_1700000000400_k3x9", Some "hi")],
          [Some "msg_1700000000400_k3x9"]).
Proof. vm_compute. reflexivity. Qed.

End HubFacts.

(** ** The hub: the other handlers and the invariants of its state *)
Module HubMore.
Import Server HubSpec HubFacts Connection Intake.

Lemma count_sent_le (w : WS) (e : WebSocketMessage) (l l' : list (WS * WebSocketMessage)) :
  count_sent w e l <= count_sent w e (l ++ l').
Proof. rewrite count_sent_app. lia. Qed.

Section Handlers.

Variable net : WS -> Transport.
Variable now : Z.

Local Abbreviation offline := (HubSpec.offline now).
Local Abbreviation allowed := (HubSpec.allowed net now).
Local Abbreviation evolves := (HubSpec.evolves net now).
Local Abbreviation deleted := (HubSpec.deleted now).

(** *** What a handler does to the message log and the pending map *)

Lemma dispatch_effect (ws : WS) (dateNow : N) (rnd : string)
    (message : WebSocketMessage) (ty uid : string) (h : Hub) :
  registry_ok h ->
  exists h', dispatch net now ws dateNow rnd message ty uid h = Some h'
    /\ (pendingMessages h' = delete (messageId_of dateNow rnd) (pendingMessages h)
        \/ pendingMessages h' = pendingMessages h)
    /\ messagesInMemory h'
       = (messagesInMemory h
          ++ if String.eqb ty "new_message" && truthy (content message)
                && negb (sendThrows (net ws))
             then [newMessage_of now message (messageId_of dateNow rnd) uid]
             else [])%list.
Proof.
  intros Hok.
  assert (Hb : forall e x h0, clients h0 = clients h ->
            exists h', broadcast net now e x h0 = Some h'
              /\ pendingMessages h' = pendingMessages h0
              /\ messagesInMemory h' = messagesInMemory h0).
  { intros e x h0 Hcl.
    destruct (broadcast_evolves net now e x h0) as (h' & Hbc & Hev).
    { by apply registry_ok_clients with h. }
    exists h'. split; [done|]. split; apply Hev. }
  unfold dispatch. destruct (String.eqb ty "new_message"); cbn [andb].
  { unfold handle_new_message. destruct (truthy (content message)); cbn [negb andb].
    2:{ exists h. split; [done|]. split; [by right|]. by rewrite app_nil_r. }
    destruct (sendThrows (net ws)); cbn [negb].
    - eexists. split; [reflexivity|]. cbn [pendingMessages messagesInMemory set_pending set_messages].
      split; [left; apply delete_insert_eq|]. by rewrite removelast_last, app_nil_r.
    - match goal with |- context [broadcast net now ?e ?x ?h3] =>
        destruct (Hb e x h3) as (h4 & -> & Hp & Hm); [done|]
      end.
      eexists. split; [reflexivity|]. cbn [pendingMessages messagesInMemory set_pending].
      rewrite Hp, Hm. cbn [pendingMessages messagesInMemory deliver set_pending set_messages].
      split; [left; apply delete_insert_eq|done]. }
  assert (Hrest : forall e x h0, clients h0 = clients h ->
            pendingMessages h0 = pendingMessages h ->
            messagesInMemory h0 = messagesInMemory h ->
            exists h', broadcast net now e x h0 = Some h'
              /\ (pendingMessages h' = delete (messageId_of dateNow rnd) (pendingMessages h)
                  \/ pendingMessages h' = pendingMessages h)
              /\ messagesInMemory h' = (messagesInMemory h ++ [])%list).
  { intros e x h0 Hcl Hp0 Hm0. destruct (Hb e x h0 Hcl) as (h' & Hbc & Hp & Hm).
    exists h'. split; [done|]. rewrite Hp, Hm, app_nil_r. auto. }
  destruct (String.eqb ty "presence_update").
  { unfold handle_presence_update.
    destruct (status message) as [st|].
    2:{ exists h. split; [done|]. split; [by right|]. by rewrite app_nil_r. }
    destruct (negb (truthy (Some st))).
    { exists h. split; [done|]. split; [by right|]. by rewrite app_nil_r. }
    by apply Hrest. }
  destruct (String.eqb ty "typing_indicator").
  { by apply Hrest. }
  by apply Hrest.
Qed.

Lemma accepts_dispatch (ws : WS) (message : WebSocketMessage) (ty uid : string) :
  type message = Some ty -> Wire.userId message = Some uid ->
  truthy (Some ty) = true -> truthy (Some uid) = true ->
  accepts net ws (Some message)
  = String.eqb ty "new_message" && truthy (content message) && negb (sendThrows (net ws)).
Proof.
  intros Hty Hu Htt Htu. unfold accepts. rewrite Hty, Hu, Htu.
  by rewrite andb_true_r.
Qed.

Lemma on_message_effect (ws : WS) (dateNow : N) (rnd : string)
    (raw : option WebSocketMessage) (h : Hub) :
  registry_ok h ->
  exists h', on_message net now ws dateNow rnd raw h = Some h'
    /\ messagesInMemory h'
       = (messagesInMemory h
          ++ if accepts net ws raw then stored now dateNow rnd raw else [])%list
    /\ (pendingMessages h' = delete (messageId_of dateNow rnd) (pendingMessages h)
        \/ pendingMessages h' = pendingMessages h).
Proof.
  intros Hok. unfold on_message.
  assert (Hsame : forall b : bool, b = false ->
            exists h', Some h = Some h'
              /\ messagesInMemory h'
                 = (messagesInMemory h ++ if b then stored now dateNow rnd raw else [])%list
              /\ (pendingMessages h' = delete (messageId_of dateNow rnd) (pendingMessages h)
                  \/ pendingMessages h' = pendingMessages h)).
  { intros b ->. exists h. rewrite app_nil_r. auto. }
  destruct raw as [message|]; [|by apply Hsame].
  destruct (type message) as [ty|] eqn:Hty;
    [|apply Hsame; unfold accepts; by rewrite Hty].
  destruct (Wire.userId message) as [uid|] eqn:Hu.
  2:{ apply Hsame. unfold accepts. rewrite Hty, Hu. cbn [truthy].
      by rewrite andb_false_r. }
  destruct (truthy (Some ty)) eqn:Htt; cbn [negb orb].
  2:{ apply Hsame. unfold accepts. rewrite Hty.
      destruct (String.eqb_spec ty "new_message") as [->|]; [discriminate|done]. }
  destruct (truthy (Some uid)) eqn:Htu; cbn [negb].
  2:{ apply Hsame. unfold accepts. rewrite Hty, Hu, Htu. by rewrite andb_false_r. }
  apply truthy_Some in Htu as Hu0. destruct Hu0 as (u' & [= <-] & Hu0).
  destruct (dispatch_effect ws dateNow rnd message ty uid
              (set_clients (clients_set ws uid) h)) as (h' & Hd & Hp & Hm).
  { by apply clients_set_ok. }
  exists h'. split; [done|]. split; [|done].
  rewrite Hm. cbn [messagesInMemory set_clients].
  rewrite (accepts_dispatch ws message ty uid Hty Hu Htt Htu).
  unfold stored. by rewrite Hu.
Qed.

Lemma on_close_effect (ws : WS) (h : Hub) :
  registry_ok h ->
  exists h', on_close net now ws h = Some h'
    /\ registry_ok h'
    /\ messagesInMemory h' = messagesInMemory h
    /\ pendingMessages h' = pendingMessages h.
Proof.
  intros Hok. unfold on_close.
  pose proof (cleanup_spec net now (broadcastMessage net now (length (clients h)))
                (length (clients h)) (broadcastMessage_evolves net now _) ws h
                (Nat.le_refl _) Hok) as Hspec.
  fold (cleanupClient net now (length (clients h)) ws h) in Hspec.
  fold (evict net now ws h) in Hspec.
  destruct (clients_get ws (clients h)) as [u|] eqn:Hget.
  - destruct Hspec as (h' & Hc & Hev). exists h'. split; [done|].
    specialize (Hev Wire.empty None). split.
    + apply (evolves_ok net now _ _ _ Hev).
      apply registry_ok_sublist with h; [apply clients_delete_sublist|done].
    + split; [apply Hev|apply Hev].
  - by exists h.
Qed.

(** *** A new connection *)

Lemma try_send_frames (ws : WS) (f : WebSocketMessage) (h : Hub) :
  sendThrows (net ws) = false ->
  try_send net ws f h = deliver ws f h.
Proof. intros Hw. unfold try_send. by rewrite Hw. Qed.

Lemma replay_presence_spec (ws : WS) (store : list (string * Presence)) (h : Hub) :
  sendThrows (net ws) = false ->
  let h' := replay_presence net now ws store h in
  sent h' = (sent h ++ ((fun up => (ws, presence_state now up.1 up.2)) <$> store))%list
  /\ clients h' = clients h /\ messagesInMemory h' = messagesInMemory h
  /\ pendingMessages h' = pendingMessages h
  /\ userPresenceInMemory h' = userPresenceInMemory h.
Proof.
  intros Hw. unfold replay_presence. revert h.
  induction store as [|up rest IH]; intros h; cbn [fold_left fmap list_fmap].
  - by rewrite app_nil_r.
  - destruct (IH (try_send net ws (presence_state now up.1 up.2) h))
      as (Hs & Hc & Hm & Hp & Hu).
    rewrite Hs, Hc, Hm, Hp, Hu, try_send_frames by done.
    cbn [sent clients messagesInMemory pendingMessages userPresenceInMemory deliver].
    by rewrite <-app_assoc.
Qed.

Lemma replay_messages_spec (ws : WS) (log : list WebSocketMessage) (h : Hub) :
  sendThrows (net ws) = false ->
  let h' := replay_messages net ws log h in
  sent h' = (sent h ++ ((fun m => (ws, m)) <$> List.filter is_new_message log))%list
  /\ clients h' = clients h /\ messagesInMemory h' = messagesInMemory h
  /\ pendingMessages h' = pendingMessages h
  /\ userPresenceInMemory h' = userPresenceInMemory h.
Proof.
  intros Hw. unfold replay_messages. revert h.
  induction log as [|m rest IH]; intros h; cbn [fold_left List.filter].
  - by rewrite app_nil_r.
  - destruct (is_new_message m).
    + destruct (IH (try_send net ws m h)) as (Hs & Hc & Hm & Hp & Hu).
      rewrite Hs, Hc, Hm, Hp, Hu, try_send_frames by done.
      cbn [sent clients messagesInMemory pendingMessages userPresenceInMemory deliver
           fmap list_fmap].
      by rewrite <-app_assoc.
    + apply IH.
Qed.

Lemma on_connection_effect (ws : WS) (h h' : Hub) :
  on_connection net now ws h = Some h' ->
  clients h' = clients h /\ messagesInMemory h' = messagesInMemory h
  /\ pendingMessages h' = pendingMessages h
  /\ userPresenceInMemory h' = userPresenceInMemory h.
Proof.
  unfold on_connection. destruct (sendThrows (net ws)) eqn:Hw; [discriminate|].
  intros [= <-].
  destruct (replay_messages_spec ws (messagesInMemory h)
              (replay_presence net now ws (map_to_list (userPresenceInMemory h))
                 (deliver ws (connection_established now) h)) Hw)
    as (_ & -> & -> & -> & ->).
  destruct (replay_presence_spec ws (map_to_list (userPresenceInMemory h))
              (deliver ws (connection_established now) h) Hw)
    as (_ & -> & -> & -> & ->).
  done.
Qed.

(** X3.  No handler removes or rewrites a stored message.  [ws.on('message')]
    appends the stored form of the event when it accepts the event, and
    otherwise leaves the log as it is; [ws.on('close')] and the connection
    handler leave it as it is. *)
Theorem message_log_is_append_only (ws : WS) (dateNow : N) (rnd : string)
    (raw : option WebSocketMessage) (h : Hub) :
  registry_ok h ->
  (exists h', on_message net now ws dateNow rnd raw h = Some h'
     /\ messagesInMemory h'
        = (messagesInMemory h
           ++ if accepts net ws raw then stored now dateNow rnd raw else [])%list
     /\ messagesInMemory h `prefix_of` messagesInMemory h')
  /\ (exists h', on_close net now ws h = Some h'
        /\ messagesInMemory h' = messagesInMemory h)
  /\ (forall h', on_connection net now ws h = Some h'
        -> messagesInMemory h' = messagesInMemory h).
Proof.
  intros Hok. split; [|split].
  - destruct (on_message_effect ws dateNow rnd raw h Hok) as (h' & Hm & Hlog & _).
    exists h'. split; [done|]. split; [done|]. rewrite Hlog. by eexists.
  - destruct (on_close_effect ws h Hok) as (h' & Hc & _ & Hlog & _). by exists h'.
  - intros h' Hc. by apply on_connection_effect in Hc as (_ & ? & _).
Qed.

(** *** Presence, typing and the other events *)

Lemma admitted_elem (ws : WS) (uid : string) (h : Hub) :
  (ws, uid) ∈ clients (set_clients (clients_set ws uid) h).
Proof. apply clients_get_Some_elem. cbn [clients set_clients]. apply clients_set_get. Qed.

(** X4.  A [presence_update] with a status is recorded in the presence store
    and broadcast to every registered connection, the sender's included:
    each one that is open and whose [send] works is sent the update exactly
    once and stays registered.  The store then holds the reported status for
    the user, unless a connection of that user was evicted meanwhile, which
    marks the user offline.  The message log is not touched. *)
Theorem presence_update_reaches_everyone (ws : WS) (dateNow : N) (rnd : string)
    (message : WebSocketMessage) (uid st : string) (h : Hub) :
  registry_ok h ->
  type message = Some "presence_update" ->
  Wire.userId message = Some uid -> uid <> "" ->
  status message = Some st -> st <> "" ->
  let admitted := set_clients (clients_set ws uid) h in
  let frame := presence_frame now uid st in
  exists h', on_message net now ws dateNow rnd (Some message) h = Some h'
    /\ messagesInMemory h' = messagesInMemory h
    /\ ((userPresenceInMemory h' !! uid) = Some {| p_status := st; p_lastSeen := now |}
        \/ (userPresenceInMemory h' !! uid) = Some offline)
    /\ (ws, uid) ∈ clients admitted
    /\ forall w u, (w, u) ∈ clients admitted ->
         isOpen (net w) = true -> sendThrows (net w) = false ->
         count_sent w frame (sent h') = S (count_sent w frame (sent h))
         /\ (w, u) ∈ clients h'.
Proof.
  intros Hok Hty Hu Hu0 Hst Hst0 admitted frame.
  rewrite (on_message_dispatch net now ws dateNow rnd message "presence_update" uid h Hty)
    by done.
  unfold dispatch. cbn [String.eqb Ascii.eqb Bool.eqb].
  unfold handle_presence_update. rewrite Hst, (truthy_of_Some st Hst0). cbn [negb].
  fold admitted. change {| type := Some "presence_update"; messageId := None;
    emoji := None; Wire.userId := Some uid; content := None; channelId := None;
    dmId := None; timestamp := Some now; status := Some st; isTyping := None;
    lastSeen := Some now; readBy := None; Wire.id := None; parentId := None |}
    with frame.
  set (h1 := set_presence _ admitted).
  assert (Hok1 : registry_ok h1).
  { apply registry_ok_clients with admitted; [done|]. by apply clients_set_ok. }
  destruct (broadcast_evolves net now frame None h1 Hok1) as (h' & Hb & Hev).
  exists h'. split; [done|]. split; [apply Hev|]. split.
  { destruct (ev_presence _ _ _ _ _ Hev uid) as [-> | ->]; [left|by right].
    cbn [userPresenceInMemory h1 set_presence]. apply lookup_insert_eq. }
  split; [apply admitted_elem|].
  intros w u Hreg Hopen Hw. split.
  - apply (broadcast_delivers net now frame None w u h1 h'); try done.
  - by apply (evolves_keeps net now _ h1 h' (w, u) Hev).
Qed.

(** An event passed on to the other connections. *)
Lemma relay_spec (e : WebSocketMessage) (ws : WS) (uid : string) (h : Hub) :
  registry_ok h -> uid <> "" -> (forall v, e <> offline_notice now v) ->
  exists h', broadcast net now e (Some ws) (set_clients (clients_set ws uid) h) = Some h'
    /\ messagesInMemory h' = messagesInMemory h
    /\ pendingMessages h' = pendingMessages h
    /\ count_sent ws e (sent h') = count_sent ws e (sent h)
    /\ forall w u, (w, u) ∈ clients h -> w <> ws ->
         isOpen (net w) = true -> sendThrows (net w) = false ->
         count_sent w e (sent h') = S (count_sent w e (sent h))
         /\ (w, u) ∈ clients h'.
Proof.
  intros Hok Hu0 Hnot. set (admitted := set_clients (clients_set ws uid) h).
  assert (Hok1 : registry_ok admitted) by by apply clients_set_ok.
  destruct (broadcast_evolves net now e (Some ws) admitted Hok1) as (h' & Hb & Hev).
  exists h'. split; [done|]. split; [apply Hev|]. split; [apply Hev|]. split.
  - apply (evolves_silent net now _ _ _ _ _ ws Hev Hnot). right. apply not_excluded_self.
  - intros w u Hreg Hne Hopen Hw.
    assert (Hreg1 : (w, u) ∈ clients admitted) by by apply clients_set_elem_ne.
    split.
    + apply (broadcast_delivers net now e (Some ws) w u admitted h'); try done.
      by apply not_excluded_ne.
    + by apply (evolves_keeps net now _ admitted h' (w, u) Hev).
Qed.

(** X5.  A [typing_indicator] is rebuilt by the hub (user id, conversation,
    flag and the hub's own timestamp; nothing else of the event survives) and
    sent exactly once to every other registered connection that is open and
    whose [send] works; the sender gets no copy, and neither the message log
    nor the pending map changes. *)
Theorem typing_is_relayed_to_the_others (ws : WS) (dateNow : N) (rnd : string)
    (message : WebSocketMessage) (uid : string) (h : Hub) :
  registry_ok h ->
  type message = Some "typing_indicator" ->
  Wire.userId message = Some uid -> uid <> "" ->
  let frame := typing_frame now message uid in
  exists h', on_message net now ws dateNow rnd (Some message) h = Some h'
    /\ messagesInMemory h' = messagesInMemory h
    /\ pendingMessages h' = pendingMessages h
    /\ count_sent ws frame (sent h') = count_sent ws frame (sent h)
    /\ forall w u, (w, u) ∈ clients h -> w <> ws ->
         isOpen (net w) = true -> sendThrows (net w) = false ->
         count_sent w frame (sent h') = S (count_sent w frame (sent h))
         /\ (w, u) ∈ clients h'.
Proof.
  intros Hok Hty Hu Hu0 frame.
  rewrite (on_message_dispatch net now ws dateNow rnd message "typing_indicator" uid h Hty)
    by done.
  unfold dispatch. cbn [String.eqb Ascii.eqb Bool.eqb].
  unfold handle_typing_indicator. apply (relay_spec frame ws uid h Hok Hu0).
  intros v. discriminate.
Qed.

(** X6.  An event of any other type ([read_receipt], [message_edited],
    [message_confirmed], ...) is passed on as it came: every other registered
    connection that is open and whose [send] works is sent the sender's event,
    unchanged, exactly once; the sender gets no copy and nothing is stored. *)
Theorem other_events_are_passed_on (ws : WS) (dateNow : N) (rnd : string)
    (message : WebSocketMessage) (ty uid : string) (h : Hub) :
  registry_ok h ->
  type message = Some ty -> ty <> "" ->
  ty <> "new_message" -> ty <> "presence_update" -> ty <> "typing_indicator" ->
  Wire.userId message = Some uid -> uid <> "" ->
  exists h', on_message net now ws dateNow rnd (Some message) h = Some h'
    /\ messagesInMemory h' = messagesInMemory h
    /\ pendingMessages h' = pendingMessages h
    /\ count_sent ws message (sent h') = count_sent ws message (sent h)
    /\ forall w u, (w, u) ∈ clients h -> w <> ws ->
         isOpen (net w) = true -> sendThrows (net w) = false ->
         count_sent w message (sent h') = S (count_sent w message (sent h))
         /\ (w, u) ∈ clients h'.
Proof.
  intros Hok Hty Hty0 Hn1 Hn2 Hn3 Hu Hu0.
  rewrite (on_message_dispatch net now ws dateNow rnd message ty uid h Hty) by done.
  unfold dispatch.
  rewrite (proj2 (String.eqb_neq _ _) Hn1), (proj2 (String.eqb_neq _ _) Hn2),
    (proj2 (String.eqb_neq _ _) Hn3).
  apply (relay_spec message ws uid h Hok Hu0).
  intros v ->. cbn [type offline_notice] in Hty. congruence.
Qed.

(** X7.  [broadcastMessage] skips a registered connection whose transport is
    not open: whatever is broadcast and whoever is excluded, and whatever
    evictions the broadcast causes, that connection is sent nothing and
    stays in the registry. *)
Theorem closed_connection_is_skipped (e : WebSocketMessage) (x : option WS)
    (w : WS) (u : string) (h : Hub) :
  registry_ok h -> (w, u) ∈ clients h -> isOpen (net w) = false ->
  exists h', broadcast net now e x h = Some h'
    /\ (w, u) ∈ clients h'
    /\ forall f, (w, f) ∈ sent h' -> (w, f) ∈ sent h.
Proof.
  intros Hok Hreg Hclosed.
  destruct (broadcast_evolves net now e x h Hok) as (h' & Hb & Hev).
  exists h'. split; [done|]. split.
  - destruct (decide ((w, u) ∈ clients h')) as [|Hout]; [done|].
    destruct (ev_evicted _ _ _ _ _ Hev (w, u) Hreg Hout) as (Ho & _). simpl in Ho.
    congruence.
  - intros f. destruct (ev_sent _ _ _ _ _ Hev) as (new & -> & Hnew).
    intros Hin. apply elem_of_app in Hin as [Hin|Hin]; [done|].
    apply (proj1 (Forall_forall _ _) Hnew) in Hin as (Ho & _). simpl in Ho. congruence.
Qed.

(** *** Eviction *)

Lemma evolves_count_mono (P : WS * WebSocketMessage -> Prop) (h h' : Hub)
    (w : WS) (e : WebSocketMessage) :
  evolves P h h' -> count_sent w e (sent h) <= count_sent w e (sent h').
Proof.
  intros Hev. destruct (ev_sent _ _ _ _ _ Hev) as (new & -> & _). apply count_sent_le.
Qed.

Section Loop.

Variable bc : WebSocketMessage -> option WS -> Hub -> option Hub.
Variable n : nat.
Hypothesis bc_ok : forall e x h,
  length (clients h) < n -> registry_ok h ->
  exists h', bc e x h = Some h' /\ evolves (allowed (fst <$> clients h) e x) h h'.

(** Whatever the event, a visited connection that is registered, open and
    working and is not excluded is sent it at least once. *)
Lemma loop_delivers_at_least (e : WebSocketMessage) (x : option WS) (w : WS) (u : string)
    (ks : list WS) (h h' : Hub) :
  w ∈ ks ->
  length (clients h) <= n -> registry_ok h -> (w, u) ∈ clients h ->
  not_excluded w x = true -> isOpen (net w) = true -> sendThrows (net w) = false ->
  forEach_clients (broadcast_visit net (cleanupClient_with now bc) e x) ks h = Some h' ->
  S (count_sent w e (sent h)) <= count_sent w e (sent h').
Proof.
  intros Hin Hlen Hok Hreg Hx Hopen Hworks. revert h Hlen Hok Hreg.
  induction ks as [|ws rest IH]; intros h Hlen Hok Hreg Hloop.
  { by apply elem_of_nil in Hin. }
  cbn [forEach_clients] in Hloop.
  destruct (decide (ws = w)) as [->|Hne].
  - rewrite (clients_get_elem w u (clients h) (proj1 Hok) Hreg) in Hloop.
    unfold broadcast_visit at 1 in Hloop. rewrite Hx, Hopen, Hworks in Hloop.
    cbn [andb] in Hloop.
    destruct (loop_evolves net now bc n bc_ok e x rest (deliver w e h))
      as (h2 & Hl & Hev); [done|done|].
    rewrite Hl in Hloop. injection Hloop as <-.
    pose proof (evolves_count_mono _ _ _ w e Hev) as Hmono.
    cbn [sent deliver] in Hmono. rewrite count_sent_app in Hmono.
    unfold count_sent at 2 in Hmono. cbn [List.filter] in Hmono.
    rewrite bool_decide_eq_true_2 in Hmono by reflexivity. cbn [length] in Hmono. lia.
  - apply elem_of_cons in Hin as [->|Hin]; [done|].
    destruct (clients_get ws (clients h)) as [v|] eqn:Hget; [|by apply IH].
    destruct (visit_evolves net now bc n bc_ok e x ws v h Hlen Hok) as (h1 & Hv & Hev1).
    rewrite Hv in Hloop.
    pose proof (evolves_count_mono _ _ _ w e Hev1) as Hmono.
    enough (S (count_sent w e (sent h1)) <= count_sent w e (sent h')) by lia.
    apply IH; auto.
    + pose proof (evolves_length net now _ _ _ Hev1). lia.
    + by eapply evolves_ok.
    + by eapply (evolves_keeps net now _ h h1 (w, u)).
Qed.

End Loop.

Lemma broadcast_delivers_at_least (e : WebSocketMessage) (x : option WS) (w : WS)
    (u : string) (h h' : Hub) :
  registry_ok h -> (w, u) ∈ clients h ->
  not_excluded w x = true -> isOpen (net w) = true -> sendThrows (net w) = false ->
  broadcast net now e x h = Some h' ->
  S (count_sent w e (sent h)) <= count_sent w e (sent h').
Proof.
  intros Hok Hreg Hx Hopen Hworks Hb.
  eapply (loop_delivers_at_least (broadcastMessage net now (length (clients h)))
            (length (clients h)) (broadcastMessage_evolves net now _) e x w u
            (fst <$> clients h) h h'); eauto.
  by apply (list_elem_of_fmap_2 fst) in Hreg.
Qed.

(** X8.  When a registered connection closes, its user is marked offline in
    the presence store, whether or not another connection of the same user
    stays registered, and every other registered connection that is open and
    whose [send] works is sent the user's offline notice at least once and
    stays registered. *)
Theorem close_marks_the_user_offline (ws : WS) (u : string) (h : Hub) :
  registry_ok h -> (ws, u) ∈ clients h ->
  exists h', on_close net now ws h = Some h'
    /\ (userPresenceInMemory h' !! u) = Some offline
    /\ forall w v, (w, v) ∈ clients h -> w <> ws ->
         isOpen (net w) = true -> sendThrows (net w) = false ->
         (w, v) ∈ clients h'
         /\ S (count_sent w (offline_notice now u) (sent h))
            <= count_sent w (offline_notice now u) (sent h').
Proof.
  intros Hok Hreg.
  assert (Hget : clients_get ws (clients h) = Some u).
  { by apply clients_get_elem; [apply Hok|]. }
  assert (Hu : truthy (Some u) = true).
  { apply truthy_of_Some. by apply (proj1 (Forall_forall _ _) (proj2 Hok) (ws, u)). }
  assert (Hokd : registry_ok (deleted ws u h)).
  { apply registry_ok_sublist with h; [apply clients_delete_sublist|done]. }
  assert (Hlen : length (clients (deleted ws u h)) < length (clients h)).
  { apply (clients_delete_length ws u (clients h) Hget). }
  destruct (broadcastMessage_total net now (length (clients h)) (offline_notice now u)
              None (deleted ws u h) Hokd Hlen) as (_ & Hfuel).
  destruct (broadcast_evolves net now (offline_notice now u) None (deleted ws u h) Hokd)
    as (h' & Hb & Hev).
  exists h'. split.
  { unfold on_close, evict, cleanupClient, cleanupClient_with. rewrite Hget, Hu.
    fold offline. fold (deleted ws u h). by rewrite Hfuel. }
  split.
  { destruct (ev_presence _ _ _ _ _ Hev u) as [-> | ->]; [|done].
    cbn [userPresenceInMemory HubSpec.deleted set_presence]. apply lookup_insert_eq. }
  intros w v Hin Hne Hopen Hw.
  assert (Hind : (w, v) ∈ clients (deleted ws u h)).
  { apply clients_delete_elem. done. }
  split.
  - by apply (evolves_keeps net now _ (deleted ws u h) h' (w, v) Hev).
  - by apply (broadcast_delivers_at_least (offline_notice now u) None w v
                (deleted ws u h) h').
Qed.

End Handlers.

(** *** The invariants of a running hub *)

Lemma stored_entry_ok (now : Z) (message : WebSocketMessage) (dateNow : N)
    (rnd uid : string) :
  type message = Some "new_message" -> Wire.userId message = Some uid ->
  truthy (Some uid) = true -> truthy (content message) = true ->
  log_entry_ok (newMessage_of now message (messageId_of dateNow rnd) uid).
Proof.
  intros Hty Hu Htu Hc. unfold log_entry_ok.
  cbn [type content Wire.userId Wire.id readBy timestamp newMessage_of].
  rewrite Hu. repeat split; try done. by exists dateNow, rnd.
Qed.

Lemma accepted_entries_ok (net : WS -> Transport) (now : Z) (ws : WS) (dateNow : N)
    (rnd : string) (raw : option WebSocketMessage) :
  Forall log_entry_ok (if accepts net ws raw then stored now dateNow rnd raw else []).
Proof.
  destruct (accepts net ws raw) eqn:Ha; [|constructor].
  unfold accepts in Ha. destruct raw as [message|]; [|discriminate].
  destruct (type message) as [ty|] eqn:Hty; [|discriminate].
  apply andb_true_iff in Ha as [Ha _]. apply andb_true_iff in Ha as [Ha Hc].
  apply andb_true_iff in Ha as [Ht Hu]. apply String.eqb_eq in Ht. subst ty.
  unfold stored. destruct (Wire.userId message) as [uid|] eqn:Huid; [|discriminate].
  apply Forall_singleton. by apply stored_entry_ok.
Qed.

Lemma serving_invariant (h : Hub) :
  serving h ->
  registry_ok h /\ pendingMessages h = ∅ /\ Forall log_entry_ok (messagesInMemory h).
Proof.
  induction 1 as [|net ws now h h' _ (Hok & Hp & Hl) Hc
                  |net now ws dateNow rnd raw h h' _ (Hok & Hp & Hl) Hm
                  |net now ws h h' _ (Hok & Hp & Hl) Hc].
  - split; [split; constructor|]. split; [done|constructor].
  - destruct (on_connection_effect net now ws h h' Hc) as (Hcl & Hlog & Hpe & _).
    split; [by apply registry_ok_clients with h|]. by rewrite Hpe, Hlog.
  - destruct (on_message_ok net now ws dateNow rnd raw h Hok) as (h1 & Hm1 & Hok1).
    destruct (on_message_effect net now ws dateNow rnd raw h Hok)
      as (h2 & Hm2 & Hlog & Hpe).
    assert (h1 = h') by congruence. assert (h2 = h') by congruence. subst h1 h2.
    split; [done|]. split.
    + destruct Hpe as [-> | ->]; rewrite Hp; [apply delete_empty|done].
    + rewrite Hlog. apply Forall_app. split; [done|apply accepted_entries_ok].
  - destruct (on_close_effect net now ws h Hok) as (h1 & Hc1 & Hok1 & Hlog & Hpe).
    assert (h1 = h') by congruence. subst h1. by rewrite Hlog, Hpe.
Qed.

(** *** The presence store *)

(** Whatever a delivery and the bookkeeping of an eviction keep, a broadcast
    keeps. *)
Lemma broadcastMessage_keeps (net : WS -> Transport) (now : Z) (I : Hub -> Prop) :
  (forall w f h, I h -> I (deliver w f h)) ->
  (forall ws u h, u <> "" -> I h -> I (HubSpec.deleted now ws u h)) ->
  forall fuel e x h h', I h -> broadcastMessage net now fuel e x h = Some h' -> I h'.
Proof.
  intros Hdeliver Hdeleted. induction fuel as [|fuel IHfuel]; [discriminate|].
  intros e x h h' Hi. cbn [broadcastMessage]. generalize (fst <$> clients h).
  intros ks. revert h Hi. induction ks as [|ws ks IHks]; intros h Hi Hloop;
    cbn [forEach_clients] in Hloop.
  { by injection Hloop as <-. }
  destruct (clients_get ws (clients h)) as [u|] eqn:Hget; [|by eapply IHks].
  unfold broadcast_visit at 1 in Hloop.
  destruct (not_excluded ws x && isOpen (net ws)); [|by eapply IHks].
  destruct (sendThrows (net ws)); [|eapply IHks; [|done]; by apply Hdeliver].
  unfold cleanupClient_with in Hloop. rewrite Hget in Hloop.
  destruct (truthy (Some u)) eqn:Hu; [|by eapply IHks].
  apply truthy_Some in Hu as (u' & [= <-] & Hu).
  match type of Hloop with
  | match broadcastMessage net now fuel ?e0 None ?h0 with _ => _ end = _ =>
      destruct (broadcastMessage net now fuel e0 None h0) as [h1|] eqn:Hb; [|discriminate];
      apply (IHks h1); [|done];
      apply (IHfuel e0 None h0 h1); [|done]
  end.
  by apply (Hdeleted ws u h).
Qed.

Lemma presence_ok_insert (u : string) (p : Presence) (h : Hub) :
  u <> "" -> p_status p <> "" -> presence_ok h ->
  presence_ok (set_presence (insert u p) h).
Proof.
  intros Hu Hp Hok. unfold presence_ok. cbn [userPresenceInMemory set_presence].
  by apply map_Forall_insert_2.
Qed.

Lemma broadcast_keeps_presence (net : WS -> Transport) (now : Z)
    (e : WebSocketMessage) (x : option WS) (h h' : Hub) :
  presence_ok h -> broadcast net now e x h = Some h' -> presence_ok h'.
Proof.
  apply (broadcastMessage_keeps net now presence_ok); [done|].
  intros ws u h0 Hu Hok. unfold HubSpec.deleted. by apply presence_ok_insert.
Qed.

Lemma on_message_keeps_presence (net : WS -> Transport) (now : Z) (ws : WS)
    (dateNow : N) (rnd : string) (raw : option WebSocketMessage) (h h' : Hub) :
  presence_ok h -> on_message net now ws dateNow rnd raw h = Some h' -> presence_ok h'.
Proof.
  intros Hok. unfold on_message.
  destruct raw as [message|]; [|by intros [= <-]].
  destruct (type message) as [ty|]; [|by intros [= <-]].
  destruct (Wire.userId message) as [uid|]; [|by intros [= <-]].
  destruct (truthy (Some ty)); cbn [negb orb]; [|by intros [= <-]].
  destruct (truthy (Some uid)) eqn:Hu; cbn [negb]; [|by intros [= <-]].
  apply truthy_Some in Hu as (u' & [= <-] & Hu).
  unfold dispatch.
  destruct (String.eqb ty "new_message").
  { unfold handle_new_message.
    destruct (truthy (content message)); cbn [negb]; [|by intros [= <-]].
    destruct (sendThrows (net ws)); [by intros [= <-]|].
    match goal with |- context [broadcast net now ?e ?x ?h3] =>
      destruct (broadcast net now e x h3) as [h4|] eqn:Hb; [|discriminate]
    end.
    intros [= <-]. by apply broadcast_keeps_presence in Hb. }
  destruct (String.eqb ty "presence_update").
  { unfold handle_presence_update.
    destruct (status message) as [st|]; [|by intros [= <-]].
    destruct (truthy (Some st)) eqn:Hst; cbn [negb]; [|by intros [= <-]].
    apply truthy_Some in Hst as (st' & [= <-] & Hst).
    apply broadcast_keeps_presence. by apply presence_ok_insert. }
  destruct (String.eqb ty "typing_indicator"); by apply broadcast_keeps_presence.
Qed.

Lemma on_close_keeps_presence (net : WS -> Transport) (now : Z) (ws : WS) (h h' : Hub) :
  presence_ok h -> on_close net now ws h = Some h' -> presence_ok h'.
Proof.
  intros Hok. unfold on_close, evict, cleanupClient, cleanupClient_with.
  destruct (clients_get ws (clients h)) as [u|]; [|by intros [= <-]].
  destruct (truthy (Some u)) eqn:Hu; [|by intros [= <-]].
  apply truthy_Some in Hu as (u' & [= <-] & Hu).
  apply (broadcastMessage_keeps net now presence_ok); [done| |].
  - intros w v h0 Hv Hok0. unfold HubSpec.deleted. by apply presence_ok_insert.
  - by apply presence_ok_insert.
Qed.

(** X1.  Between two handlers the pending map is empty: the entry
    [case 'new_message'] makes is deleted again before the handler returns,
    whether the reply could be sent or not, and nothing else writes to the
    map. *)
Theorem pending_map_is_empty_between_handlers (h : Hub) :
  serving h -> pendingMessages h = ∅.
Proof. intros Hs. by destruct (serving_invariant h Hs) as (_ & ? & _). Qed.

(** X2.  Every entry of the message log is a [new_message] with a content and
    a user id that are not empty, an id the hub made, the hub's timestamp and
    [readBy] holding just the sender: presence updates, typing indicators,
    other events and rejected messages never reach the log. *)
Theorem message_log_holds_accepted_messages (h : Hub) :
  serving h -> Forall log_entry_ok (messagesInMemory h).
Proof. intros Hs. by destruct (serving_invariant h Hs) as (_ & _ & ?). Qed.

Lemma serving_presence_ok (h : Hub) : serving h -> presence_ok h.
Proof.
  induction 1 as [|net ws now h h' _ IH Hc|net now ws dateNow rnd raw h h' _ IH Hm
                  |net now ws h h' _ IH Hc].
  - apply map_Forall_empty.
  - apply on_connection_effect in Hc as (_ & _ & _ & Hp). unfold presence_ok.
    by rewrite Hp.
  - by apply (on_message_keeps_presence net now ws dateNow rnd raw h h').
  - by apply (on_close_keeps_presence net now ws h h').
Qed.

(** X10.  Every entry of the presence store has a user id and a status that
    are not empty: the store is written by [case 'presence_update'], with the
    status of the event, and by [cleanupClient], with ['offline'], and both
    run only for a user id that passed the handler's test. *)
Theorem presence_store_is_well_formed (h : Hub) :
  serving h -> presence_ok h.
Proof. apply serving_presence_ok. Qed.

(** X9.  A new connection whose first [send] works is sent, in this order,
    the greeting, one frame for every entry of the presence store, and every
    stored message, the messages in the order of the log.  Nothing but the
    frames sent changes: the connection is not registered, and the stores
    are as they were. *)
Theorem connection_replays_the_state (net : WS -> Transport) (now : Z) (ws : WS)
    (h : Hub) :
  serving h -> sendThrows (net ws) = false ->
  exists h' presence,
    on_connection net now ws h = Some h'
    /\ sent h' = (sent h ++ (ws, connection_established now) :: presence
                  ++ ((fun m => (ws, m)) <$> messagesInMemory h))%list
    /\ presence ≡ₚ (fun up => (ws, presence_state now up.1 up.2))
                     <$> map_to_list (userPresenceInMemory h)
    /\ clients h' = clients h
    /\ userPresenceInMemory h' = userPresenceInMemory h
    /\ messagesInMemory h' = messagesInMemory h.
Proof.
  intros Hserving Hw.
  assert (Hlog : List.filter is_new_message (messagesInMemory h) = messagesInMemory h).
  { apply List.forallb_filter_id, forallb_forall. intros m Hm.
    destruct (serving_invariant h Hserving) as (_ & _ & Hok).
    apply list_elem_of_In in Hm.
    apply (proj1 (Forall_forall _ _) Hok) in Hm as (Hty & _).
    unfold is_new_message. by rewrite Hty. }
  unfold on_connection. rewrite Hw.
  eexists _, _. split; [reflexivity|].
  destruct (replay_messages_spec net ws (messagesInMemory h)
              (replay_presence net now ws (map_to_list (userPresenceInMemory h))
                 (deliver ws (connection_established now) h)) Hw)
    as (-> & -> & -> & _ & ->).
  destruct (replay_presence_spec net now ws (map_to_list (userPresenceInMemory h))
              (deliver ws (connection_established now) h) Hw)
    as (-> & -> & -> & _ & ->).
  cbn [sent clients messagesInMemory userPresenceInMemory deliver].
  rewrite Hlog. split; [|done]. by rewrite <-!app_assoc.
Qed.

(** *** The scenario and the session *)

Lemma jane_said_hi_serving : serving Session.jane_said_hi.
Proof.
  apply (serving_message Scenario.net Scenario.now 0 1700000000400 "k3x9"
           (Some Scenario.hi) Session.jane_is_busy); [|vm_compute; reflexivity].
  apply (serving_message Scenario.net 1700000000300 0 1700000000300 "a1"
           (Some Session.busy) init); [apply serving_init|vm_compute; reflexivity].
Qed.

Lemma pending_map_is_empty_between_handlers_witness :
  serving Session.jane_said_hi /\ pendingMessages Session.jane_said_hi = ∅.
Proof.
  split; [apply jane_said_hi_serving|].
  apply (pending_map_is_empty_between_handlers Session.jane_said_hi jane_said_hi_serving).
Defined.

Lemma message_log_holds_accepted_messages_witness :
  serving Session.jane_said_hi
  /\ Forall log_entry_ok (messagesInMemory Session.jane_said_hi).
Proof.
  split; [apply jane_said_hi_serving|].
  apply (message_log_holds_accepted_messages Session.jane_said_hi jane_said_hi_serving).
Defined.

Lemma presence_store_is_well_formed_witness :
  serving Session.jane_said_hi /\ presence_ok Session.jane_said_hi.
Proof.
  split; [apply jane_said_hi_serving|].
  apply (presence_store_is_well_formed Session.jane_said_hi jane_said_hi_serving).
Defined.

Lemma message_log_is_append_only_witness :
  registry_ok Scenario.hub
  /\ (exists h', on_message Scenario.net Scenario.now 0 1700000000400 "k3x9"
                   (Some Scenario.hi) Scenario.hub = Some h'
        /\ messagesInMemory h'
           = (messagesInMemory Scenario.hub
              ++ if accepts Scenario.net 0 (Some Scenario.hi)
                 then stored Scenario.now 1700000000400 "k3x9" (Some Scenario.hi)
                 else [])%list
        /\ messagesInMemory Scenario.hub `prefix_of` messagesInMemory h')
  /\ (exists h', on_close Scenario.net Scenario.now 0 Scenario.hub = Some h'
        /\ messagesInMemory h' = messagesInMemory Scenario.hub)
  /\ (forall h', on_connection Scenario.net Scenario.now 0 Scenario.hub = Some h'
        -> messagesInMemory h' = messagesInMemory Scenario.hub).
Proof.
  split; [scenario_ok|].
  apply (message_log_is_append_only Scenario.net Scenario.now 0 1700000000400 "k3x9"
           (Some Scenario.hi) Scenario.hub).
  scenario_ok.
Defined.

Lemma presence_update_reaches_everyone_witness :
  let admitted := set_clients (clients_set 0 "jane") Scenario.hub in
  let frame := presence_frame Scenario.now "jane" "busy" in
  registry_ok Scenario.hub
  /\ exists h', on_message Scenario.net Scenario.now 0 1700000000400 "k3x9"
                  (Some Session.busy) Scenario.hub = Some h'
    /\ messagesInMemory h' = messagesInMemory Scenario.hub
    /\ ((userPresenceInMemory h' !! "jane")
          = Some {| p_status := "busy"; p_lastSeen := Scenario.now |}
        \/ (userPresenceInMemory h' !! "jane") = Some (HubSpec.offline Scenario.now))
    /\ (0, "jane") ∈ clients admitted
    /\ forall w u, (w, u) ∈ clients admitted ->
         isOpen (Scenario.net w) = true -> sendThrows (Scenario.net w) = false ->
         count_sent w frame (sent h') = S (count_sent w frame (sent Scenario.hub))
         /\ (w, u) ∈ clients h'.
Proof.
  intros admitted frame. split; [scenario_ok|].
  apply (presence_update_reaches_everyone Scenario.net Scenario.now 0 1700000000400
           "k3x9" Session.busy "jane" "busy" Scenario.hub);
    [scenario_ok|reflexivity|reflexivity|discriminate|reflexivity|discriminate].
Defined.

Lemma typing_is_relayed_to_the_others_witness :
  let frame := typing_frame Scenario.now Scenario.typing "jane" in
  registry_ok Scenario.hub
  /\ exists h', on_message Scenario.net Scenario.now 0 1700000000400 "k3x9"
                  (Some Scenario.typing) Scenario.hub = Some h'
    /\ messagesInMemory h' = messagesInMemory Scenario.hub
    /\ pendingMessages h' = pendingMessages Scenario.hub
    /\ count_sent 0 frame (sent h') = count_sent 0 frame (sent Scenario.hub)
    /\ forall w u, (w, u) ∈ clients Scenario.hub -> w <> 0 ->
         isOpen (Scenario.net w) = true -> sendThrows (Scenario.net w) = false ->
         count_sent w frame (sent h') = S (count_sent w frame (sent Scenario.hub))
         /\ (w, u) ∈ clients h'.
Proof.
  intros frame. split; [scenario_ok|].
  apply (typing_is_relayed_to_the_others Scenario.net Scenario.now 0 1700000000400
           "k3x9" Scenario.typing "jane" Scenario.hub);
    [scenario_ok|reflexivity|reflexivity|discriminate].
Defined.

Lemma other_events_are_passed_on_witness :
  registry_ok Scenario.hub
  /\ exists h', on_message Scenario.net Scenario.now 0 1700000000400 "k3x9"
                  (Some Session.receipt) Scenario.hub = Some h'
    /\ messagesInMemory h' = messagesInMemory Scenario.hub
    /\ pendingMessages h' = pendingMessages Scenario.hub
    /\ count_sent 0 Session.receipt (sent h')
       = count_sent 0 Session.receipt (sent Scenario.hub)
    /\ forall w u, (w, u) ∈ clients Scenario.hub -> w <> 0 ->
         isOpen (Scenario.net w) = true -> sendThrows (Scenario.net w) = false ->
         count_sent w Session.receipt (sent h')
         = S (count_sent w Session.receipt (sent Scenario.hub))
         /\ (w, u) ∈ clients h'.
Proof.
  split; [scenario_ok|].
  apply (other_events_are_passed_on Scenario.net Scenario.now 0 1700000000400
           "k3x9" Session.receipt "read_receipt" "jane" Scenario.hub);
    [scenario_ok|reflexivity|discriminate|discriminate|discriminate|discriminate
    |reflexivity|discriminate].
Defined.

Lemma closed_connection_is_skipped_witness :
  registry_ok Scenario.hub /\ (3, "dave") ∈ clients Scenario.hub
  /\ isOpen (Scenario.net 3) = false
  /\ exists h', broadcast Scenario.net Scenario.now Scenario.typing None Scenario.hub
                = Some h'
    /\ (3, "dave") ∈ clients h'
    /\ forall f, (3, f) ∈ sent h' -> (3, f) ∈ sent Scenario.hub.
Proof.
  split; [scenario_ok|]. split; [compute_done|]. split; [reflexivity|].
  apply (closed_connection_is_skipped Scenario.net Scenario.now Scenario.typing None
           3 "dave" Scenario.hub); [scenario_ok|compute_done|reflexivity].
Defined.

Lemma close_marks_the_user_offline_witness :
  registry_ok Scenario.hub /\ (1, "bob") ∈ clients Scenario.hub
  /\ exists h', on_close Scenario.net Scenario.now 1 Scenario.hub = Some h'
    /\ (userPresenceInMemory h' !! "bob") = Some (HubSpec.offline Scenario.now)
    /\ forall w v, (w, v) ∈ clients Scenario.hub -> w <> 1 ->
         isOpen (Scenario.net w) = true -> sendThrows (Scenario.net w) = false ->
         (w, v) ∈ clients h'
         /\ S (count_sent w (offline_notice Scenario.now "bob") (sent Scenario.hub))
            <= count_sent w (offline_notice Scenario.now "bob") (sent h').
Proof.
  split; [scenario_ok|]. split; [compute_done|].
  apply (close_marks_the_user_offline Scenario.net Scenario.now 1 "bob" Scenario.hub);
    [scenario_ok|compute_done].
Defined.

Lemma connection_replays_the_state_witness :
  serving Session.jane_said_hi /\ sendThrows (Scenario.net 1) = false
  /\ exists h' presence,
    on_connection Scenario.net Scenario.now 1 Session.jane_said_hi = Some h'
    /\ sent h' = (sent Session.jane_said_hi
                  ++ (1, connection_established Scenario.now) :: presence
                  ++ ((fun m => (1, m)) <$> messagesInMemory Session.jane_said_hi))%list
    /\ presence ≡ₚ (fun up => (1, presence_state Scenario.now up.1 up.2))
                     <$> map_to_list (userPresenceInMemory Session.jane_said_hi)
    /\ clients h' = clients Session.jane_said_hi
    /\ userPresenceInMemory h' = userPresenceInMemory Session.jane_said_hi
    /\ messagesInMemory h' = messagesInMemory Session.jane_said_hi.
Proof.
  split; [apply jane_said_hi_serving|]. split; [reflexivity|].
  apply (connection_replays_the_state Scenario.net Scenario.now 1 Session.jane_said_hi);
    [apply jane_said_hi_serving|reflexivity].
Defined.

End HubMore.

(** ** The client's presence and typing state *)
Module StoreFacts.
Import Server HubSpec Connection Intake Store.

Local Open Scope list_scope.

(** *** Typing *)

Lemma typingUsers_spec (ti : gmap string (gset string)) (id : option string) :
  typingUsers ti id = true
  <-> default ∅ (ti !! typing_key (typing_event 0 true None id)) <> ∅.
Proof.
  unfold typingUsers.
  assert (Hkey : typing_key (typing_event 0 true None id)
                 = match id with
                   | Some i => if truthy (Some i) then i else ""
                   | None => ""
                   end).
  { unfold typing_key, typing_event. cbn [Wire.channelId Wire.dmId].
    by destruct id. }
  rewrite Hkey. rewrite negb_true_iff, Nat.eqb_neq.
  rewrite size_non_empty_iff. by unfold_leibniz.
Qed.

Lemma typing_key_relayed (nowA nowH : Z) (b : bool) (id : option string) (u : string) :
  typing_key (typing_frame nowH (typing_event nowA b None id) u)
  = typing_key (typing_event 0 true None id).
Proof. reflexivity. Qed.

(** X11.  Typing, from one client to another.  The event a message input
    sends when its user types, [updateTyping(true, undefined, id)], goes out
    as it is when the socket is open; once the hub has relayed it, a client
    that receives it shows "Someone is typing..." on the page with that
    route parameter [id], whatever [id] is.  When it then receives the relayed
    [updateTyping(false, undefined, id)], the sender is no longer in the set:
    the notice is gone if nobody was typing there before, the typing state of
    every other conversation is what it was, and the messages are untouched
    throughout. *)
Theorem typing_shows_and_clears (id : option string) (dateNow : N)
    (nowA nowA' nowH nowH' nowB nowB' : Z) (me : Client.Hook) (s : State) :
  let start := typing_event nowA true None id in
  let stop := typing_event nowA' false None id in
  let s1 := receive nowB (typing_frame nowH start "current") s in
  let s2 := receive nowB' (typing_frame nowH' stop "current") s1 in
  updateTyping true false dateNow nowA true None id me = (true, me, Some start)
  /\ typingUsers (typingIndicators s1) id = true
  /\ (typingUsers (typingIndicators s) id = false
      -> typingUsers (typingIndicators s2) id = false)
  /\ (forall k, k <> typing_key start ->
        (typingIndicators s2 !! k) = (typingIndicators s !! k))
  /\ hook s2 = hook s /\ presenceUpdates s2 = presenceUpdates s.
Proof.
  intros start stop s1 s2.
  set (key := typing_key start).
  assert (H1 : typingIndicators s1
               = <[key := default ∅ (typingIndicators s !! key) ∪ {[ "current" ]}]>
                   (typingIndicators s)) by reflexivity.
  assert (H2 : typingIndicators s2
               = <[key := default ∅ (typingIndicators s1 !! key) ∖ {[ "current" ]}]>
                   (typingIndicators s1)) by reflexivity.
  split; [reflexivity|]. split.
  { apply typingUsers_spec.
    change (typing_key (typing_event 0 true None id)) with key.
    rewrite H1, lookup_insert_eq. cbn [default]. set_solver. }
  split.
  { intros Hnone. apply not_true_iff_false. apply not_true_iff_false in Hnone.
    intros Hsome. apply Hnone. apply typingUsers_spec. apply typingUsers_spec in Hsome.
    change (typing_key (typing_event 0 true None id)) with key in Hsome |- *.
    rewrite H2, lookup_insert_eq in Hsome. cbn [default] in Hsome.
    rewrite H1, lookup_insert_eq in Hsome. cbn [default] in Hsome.
    intros Hempty. apply Hsome. rewrite Hempty. set_solver. }
  split; [|done].
  intros k Hk. rewrite H2, lookup_insert_ne by done. by rewrite H1, lookup_insert_ne.
Qed.

(** *** Presence *)

Lemma receive_all_app (ev1 ev2 : list (Z * WebSocketMessage)) (s : State) :
  receive_all (ev1 ++ ev2) s = receive_all ev2 (receive_all ev1 s).
Proof. apply fold_left_app. Qed.

(** What the client keeps of an entry of the hub's presence store. *)
Lemma receive_presence_state (now nowH : Z) (u : string) (p : Presence) (s : State) :
  u <> "" -> p_status p <> "" ->
  receive now (presence_state nowH u p) s
  = {| hook := hook s;
       presenceUpdates :=
         <[u := {| userId := u; status := p_status p; lastSeen := Some (p_lastSeen p) |}]>
           (presenceUpdates s);
       typingIndicators := typingIndicators s |}.
Proof.
  intros Hu Hp. unfold receive, presence_state. cbn [type].
  unfold on_presence_update. cbn [Wire.userId Wire.status Wire.lastSeen].
  by rewrite (truthy_of_Some u Hu), (truthy_of_Some _ Hp).
Qed.

Lemma receive_presence_states (nowH : Z) (store : list (string * Presence))
    (events : list (Z * WebSocketMessage)) (s : State) :
  Forall (fun up => up.1 <> "" /\ p_status up.2 <> "") store ->
  NoDup store.*1 ->
  events.*2 = (fun up => presence_state nowH up.1 up.2) <$> store ->
  let s' := receive_all events s in
  hook s' = hook s /\ typingIndicators s' = typingIndicators s
  /\ forall u,
       (presenceUpdates s' !! u)
       = match List.find (fun up => String.eqb up.1 u) store with
         | Some up => Some {| userId := u; status := p_status up.2;
                              lastSeen := Some (p_lastSeen up.2) |}
         | None => presenceUpdates s !! u
         end.
Proof.
  revert events s. induction store as [|[v q] store IH]; intros events s Hok Hnd Hev.
  { apply fmap_nil_inv in Hev as ->. cbn. done. }
  destruct events as [|[now f] events]; [discriminate|].
  rewrite !fmap_cons in Hev. injection Hev as Hf Hev. cbn [fst snd] in Hf. subst f.
  apply Forall_cons in Hok as [[Hv Hq] Hok]. cbn [fst snd] in Hv, Hq.
  rewrite fmap_cons in Hnd. apply NoDup_cons in Hnd as [Hfresh Hnd]. cbn [fst] in Hfresh.
  unfold receive_all. cbn [fold_left fst snd].
  rewrite (receive_presence_state now nowH v q s Hv Hq).
  match goal with |- context [fold_left _ events ?s0] => set (s1 := s0) end.
  destruct (IH events s1 Hok Hnd Hev) as (Hh & Ht & Hp). unfold receive_all in Hh, Ht, Hp.
  cbv zeta. rewrite Hh, Ht. split; [done|]. split; [done|].
  intros u. rewrite Hp. cbn [List.find fst snd presenceUpdates s1].
  destruct (String.eqb_spec v u) as [->|Hne].
  - destruct (List.find _ store) as [up|] eqn:Hfind; [|by rewrite lookup_insert_eq].
    apply find_some in Hfind as [Hin Heq]. apply String.eqb_eq in Heq.
    exfalso. apply Hfresh. apply list_elem_of_fmap. exists up. split; [done|].
    by apply list_elem_of_In.
  - destruct (List.find _ store); [done|]. by rewrite lookup_insert_ne.
Qed.

Lemma find_map_to_list (store : gmap string Presence) (u : string) :
  List.find (fun up => String.eqb up.1 u) (map_to_list store)
  = (fun p => (u, p)) <$> (store !! u).
Proof.
  destruct (List.find _ (map_to_list store)) as [[v q]|] eqn:Hfind.
  - apply find_some in Hfind as [Hin Heq]. cbn [fst] in Heq.
    apply String.eqb_eq in Heq as ->.
    apply list_elem_of_In, elem_of_map_to_list in Hin. by rewrite Hin.
  - destruct (store !! u) as [p|] eqn:Hu; [|done].
    apply elem_of_map_to_list, list_elem_of_In in Hu.
    apply (find_none _ _ Hfind) in Hu. cbn [fst] in Hu.
    by rewrite String.eqb_refl in Hu.
Qed.

(** *** Stored messages *)

Lemma hub_id_not_temp (dateNow : N) (rnd : string) :
  is_temp (messageId_of dateNow rnd) = false /\ messageId_of dateNow rnd <> "".
Proof. split; [reflexivity|discriminate]. Qed.

(** The client's messages after one entry of the log: the entry is known by
    its id and nothing changes, or it is added. *)
Lemma receive_log_entry (now : Z) (m : WebSocketMessage) (s : State) :
  log_entry_ok m ->
  Forall (fun m' => is_temp (Client.id m') = false) (Client.messages (hook s)) ->
  exists msgs,
    receive now m s
    = {| hook := {| Client.messages := msgs;
                    Client.pendingMessages := Client.pendingMessages (hook s) |};
         presenceUpdates := presenceUpdates s;
         typingIndicators := typingIndicators s |}
    /\ ((msgs = Client.messages (hook s)
         /\ exists m', m' ∈ msgs /\ Wire.id m = Some (Client.id m'))
        \/ exists m', msgs = Client.sort_by_time (Client.messages (hook s) ++ [m'])
             /\ shown_as m m' /\ is_temp (Client.id m') = false
             /\ Client.id m' ∉ (Client.id <$> Client.messages (hook s))).
Proof.
  intros (Hty & Hc & Hu & (dateNow & rnd & Hid) & _ & Hts) Hprev.
  unfold receive. rewrite Hty. unfold Client.onmessage. rewrite Hty.
  eexists. split; [reflexivity|].
  unfold Client.on_new_message. rewrite Hid.
  destruct (Wire.content m) as [c|] eqn:Hcm; [|discriminate].
  destruct (Wire.userId m) as [u|] eqn:Hum; [|discriminate].
  rewrite Hc, Hu. destruct (hub_id_not_temp dateNow rnd) as [Htemp Hne].
  rewrite (truthy_of_Some _ Hne). cbn [negb orb Client.id Client.content].
  destruct (existsb _ (Client.messages (hook s))) eqn:Hex.
  - left. split; [done|]. apply existsb_exists in Hex as (m' & Hin & Heq).
    apply String.eqb_eq in Heq. exists m'. split; [by apply list_elem_of_In|].
    by rewrite Heq.
  - right. eexists. split.
    { rewrite (List.forallb_filter_id (Client.keep_unless_placeholder c)); [reflexivity|].
      apply forallb_forall. intros m' Hin. unfold Client.keep_unless_placeholder.
      apply list_elem_of_In in Hin.
      by rewrite (proj1 (Forall_forall _ _) Hprev m' Hin). }
    split.
    { destruct Hts as [t Hts]. unfold shown_as. cbn. by rewrite Hts. }
    split; [done|]. cbn [Client.id].
    intros Hin. apply list_elem_of_fmap in Hin as (m' & Heq & Hin).
    apply not_true_iff_false in Hex. apply Hex. apply existsb_exists.
    exists m'. split; [by apply list_elem_of_In|]. apply String.eqb_eq. by rewrite Heq.
Qed.

Lemma receive_log (log : list WebSocketMessage) (events : list (Z * WebSocketMessage))
    (s : State) :
  Forall log_entry_ok log -> events.*2 = log ->
  Forall (fun m' => is_temp (Client.id m') = false) (Client.messages (hook s)) ->
  NoDup (Client.id <$> Client.messages (hook s)) ->
  Sorted (fun a b => (Client.timestamp a <= Client.timestamp b)%Z)
    (Client.messages (hook s)) ->
  let s' := receive_all events s in
  presenceUpdates s' = presenceUpdates s /\ typingIndicators s' = typingIndicators s
  /\ Client.pendingMessages (hook s') = Client.pendingMessages (hook s)
  /\ (forall m, m ∈ log ->
        exists m', m' ∈ Client.messages (hook s') /\ Wire.id m = Some (Client.id m'))
  /\ (forall m', m' ∈ Client.messages (hook s') ->
        m' ∈ Client.messages (hook s) \/ exists m, m ∈ log /\ shown_as m m')
  /\ (forall m', m' ∈ Client.messages (hook s) -> m' ∈ Client.messages (hook s'))
  /\ Forall (fun m' => is_temp (Client.id m') = false) (Client.messages (hook s'))
  /\ NoDup (Client.id <$> Client.messages (hook s'))
  /\ Sorted (fun a b => (Client.timestamp a <= Client.timestamp b)%Z)
       (Client.messages (hook s')).
Proof.
  revert events s. induction log as [|m log IH]; intros events s Hok Hev Htemp Hnd Hsorted.
  { apply fmap_nil_inv in Hev as ->. cbn. repeat split; try done.
    - intros m Hm. by apply elem_of_nil in Hm.
    - intros m' Hm. by left. }
  destruct events as [|[now f] events]; [discriminate|].
  rewrite fmap_cons in Hev. injection Hev as Hf Hev. cbn [snd] in Hf. subst f.
  apply Forall_cons in Hok as [Hm Hok].
  unfold receive_all. cbn [fold_left fst snd].
  destruct (receive_log_entry now m s Hm Htemp) as (msgs & -> & Hstep).
  match goal with |- context [fold_left _ events ?s0] => set (s1 := s0) end.
  assert (Hmsgs : Client.messages (hook s1) = msgs) by reflexivity.
  assert (H1 : Forall (fun m' => is_temp (Client.id m') = false) msgs
               /\ NoDup (Client.id <$> msgs)
               /\ Sorted (fun a b => (Client.timestamp a <= Client.timestamp b)%Z) msgs
               /\ (forall m', m' ∈ Client.messages (hook s) -> m' ∈ msgs)
               /\ (exists m', m' ∈ msgs /\ Wire.id m = Some (Client.id m'))
               /\ (forall m', m' ∈ msgs ->
                     m' ∈ Client.messages (hook s) \/ shown_as m m')).
  { destruct Hstep as [[-> Hknown]|(m' & -> & Hshown & Ht & Hfresh)].
    - repeat split; try done. intros m' Hin. by left.
    - pose proof (Reconciliation.sort_by_time_perm (Client.messages (hook s) ++ [m']))
        as Hperm.
      split. { rewrite Hperm. apply Forall_app. split; [done|]. by constructor. }
      split. { rewrite Hperm, fmap_app. apply NoDup_app. split; [done|].
               split; [|apply NoDup_singleton].
               intros i Hi Hi'. apply list_elem_of_singleton in Hi'. by subst i. }
      split. { apply Reconciliation.sort_by_time_sorted. }
      split. { intros m0 Hin. rewrite Hperm. apply elem_of_app. by left. }
      split. { exists m'. split; [|apply Hshown]. rewrite Hperm. apply elem_of_app.
               right. by apply list_elem_of_singleton. }
      intros m0 Hin. rewrite Hperm in Hin. apply elem_of_app in Hin as [Hin|Hin];
        [by left|]. apply list_elem_of_singleton in Hin as ->. by right. }
  destruct H1 as (Ht1 & Hnd1 & Hs1 & Hkeep1 & Hnew1 & Hfrom1).
  destruct (IH events s1 Hok Hev) as (Hp & Hty & Hpend & Hall & Hfrom & Hkeep & Ht' & Hnd' & Hs');
    try by rewrite Hmsgs.
  unfold receive_all in Hp, Hty, Hpend, Hall, Hfrom, Hkeep, Ht', Hnd', Hs'.
  cbv zeta. split; [done|]. split; [done|]. split; [done|]. split.
  { intros m0 Hin. apply elem_of_cons in Hin as [->|Hin]; [|by apply Hall].
    destruct Hnew1 as (m' & Hin' & Hid). exists m'. split; [|done].
    apply Hkeep. by rewrite Hmsgs. }
  split.
  { intros m' Hin. apply Hfrom in Hin as [Hin|(m0 & Hin0 & Hshown)].
    - rewrite Hmsgs in Hin. apply Hfrom1 in Hin as [Hin|Hshown]; [by left|].
      right. exists m. split; [by left|done].
    - right. exists m0. split; [by right|done]. }
  split. { intros m' Hin. apply Hkeep. rewrite Hmsgs. by apply Hkeep1. }
  done.
Qed.

(** *** A client that connects *)

Lemma on_connection_frames (net : WS -> Transport) (now : Z) (ws : WS) (h h' : Hub) :
  serving h -> on_connection net now ws h = Some h' ->
  sent h' = sent h
            ++ (ws, connection_established now)
               :: ((fun up => (ws, presence_state now up.1 up.2))
                     <$> map_to_list (userPresenceInMemory h))
               ++ ((fun m => (ws, m)) <$> messagesInMemory h).
Proof.
  intros Hserving. unfold on_connection.
  destruct (sendThrows (net ws)) eqn:Hw; [discriminate|]. intros [= <-].
  assert (Hlog : List.filter is_new_message (messagesInMemory h) = messagesInMemory h).
  { apply List.forallb_filter_id, forallb_forall. intros m Hm.
    destruct (HubMore.serving_invariant h Hserving) as (_ & _ & Hok).
    apply list_elem_of_In in Hm.
    apply (proj1 (Forall_forall _ _) Hok) in Hm as (Hty & _).
    unfold is_new_message. by rewrite Hty. }
  destruct (HubMore.replay_messages_spec net ws (messagesInMemory h)
              (replay_presence net now ws (map_to_list (userPresenceInMemory h))
                 (deliver ws (connection_established now) h)) Hw)
    as (-> & _).
  destruct (HubMore.replay_presence_spec net now ws (map_to_list (userPresenceInMemory h))
              (deliver ws (connection_established now) h) Hw)
    as (-> & _).
  cbn [sent deliver]. by rewrite Hlog, <-!app_assoc.
Qed.

(** X12.  What a client knows once it has connected.  A client that starts
    with empty state and handles, in order, the frames the hub sends to its
    new connection shows for every user the status the hub's presence store
    holds (and 'offline' for a user the store does not hold), and has a
    message for every entry of the hub's log, under the entry's id, and no
    other message: each of its messages shows an entry of the log, no id
    occurs twice, there is no placeholder, and the list is in the order of
    the timestamps.  All of these frames are addressed to the new connection. *)
Theorem new_client_sees_the_state (net : WS -> Transport) (now : Z) (ws : WS)
    (h h' : Hub) (new : list (WS * WebSocketMessage))
    (events : list (Z * WebSocketMessage)) :
  serving h -> on_connection net now ws h = Some h' ->
  sent h' = sent h ++ new -> events.*2 = new.*2 ->
  let s := receive_all events Store.empty in
  Forall (fun p => p.1 = ws) new
  /\ (forall u, getUserStatus (presenceUpdates s) u
                = match userPresenceInMemory h !! u with
                  | Some p => p_status p
                  | None => "offline"
                  end)
  /\ (forall m, m ∈ messagesInMemory h ->
        exists m', m' ∈ Client.messages (hook s) /\ Wire.id m = Some (Client.id m'))
  /\ (forall m', m' ∈ Client.messages (hook s) ->
        exists m, m ∈ messagesInMemory h /\ shown_as m m')
  /\ NoDup (Client.id <$> Client.messages (hook s))
  /\ Forall (fun m' => is_temp (Client.id m') = false) (Client.messages (hook s))
  /\ Sorted (fun a b => (Client.timestamp a <= Client.timestamp b)%Z)
       (Client.messages (hook s)).
Proof.
  intros Hserving Hc Hsent Hev.
  rewrite (on_connection_frames net now ws h h' Hserving Hc) in Hsent.
  apply app_inv_head in Hsent. subst new.
  rewrite fmap_cons, fmap_app, <-!list_fmap_compose in Hev. cbn [snd] in Hev.
  destruct events as [|[now0 f0] events]; [discriminate|].
  rewrite fmap_cons in Hev. injection Hev as Hf0 Hev. cbn [snd] in Hf0. subst f0.
  apply fmap_app_inv in Hev as (evP & evM & HevP & HevM & ->).
  cbv zeta. split.
  { constructor; [done|]. apply Forall_app. split; by apply Forall_fmap, Forall_true. }
  unfold receive_all. cbn [fold_left fst snd].
  change (receive now0 (connection_established now) Store.empty) with Store.empty.
  rewrite fold_left_app. fold (receive_all evP Store.empty).
  destruct (receive_presence_states now (map_to_list (userPresenceInMemory h)) evP
              Store.empty) as (HhP & HtP & HpP).
  { apply Forall_forall. intros [u p] Hin. apply elem_of_map_to_list in Hin.
    apply (HubMore.serving_presence_ok h Hserving u p Hin). }
  { apply NoDup_fst_map_to_list. }
  { rewrite <-HevP. apply list_fmap_ext. by intros ? []. }
  set (sP := receive_all evP Store.empty) in *.
  fold (receive_all evM sP).
  destruct (receive_log (messagesInMemory h) evM sP)
    as (Hp & _ & _ & Hall & Hfrom & _ & Htemp & Hnd & Hsorted).
  { by destruct (HubMore.serving_invariant h Hserving) as (_ & _ & ?). }
  { rewrite <-HevM. rewrite <-(list_fmap_id (messagesInMemory h)) at 2.
    apply list_fmap_ext. by intros ? ?. }
  { rewrite HhP. constructor. }
  { rewrite HhP. constructor. }
  { rewrite HhP. constructor. }
  cbv zeta in Hp, Hall, Hfrom, Htemp, Hnd, Hsorted.
  split.
  { intros u. unfold getUserStatus. rewrite Hp, HpP, find_map_to_list.
    destruct (userPresenceInMemory h !! u) as [p|] eqn:Hu; cbn [fmap option_fmap option_map].
    - cbn [status snd].
      destruct (HubMore.serving_presence_ok h Hserving u p Hu) as [_ Hst].
      by rewrite (truthy_of_Some _ Hst).
    - done. }
  split; [done|]. split; [|done].
  intros m' Hin. apply Hfrom in Hin as [Hin|Hin]; [|done].
  rewrite HhP in Hin. by apply elem_of_nil in Hin.
Qed.

Lemma new_client_sees_the_state_witness :
  let s := receive_all Arrival.events Store.empty in
  serving Session.jane_said_hi
  /\ on_connection Scenario.net Scenario.now 1 Session.jane_said_hi
     = Some Arrival.bob_connects
  /\ sent Arrival.bob_connects = sent Session.jane_said_hi ++ Arrival.replay
  /\ Arrival.events.*2 = Arrival.replay.*2
  /\ Forall (fun p => p.1 = 1) Arrival.replay
  /\ (forall u, getUserStatus (presenceUpdates s) u
                = match userPresenceInMemory Session.jane_said_hi !! u with
                  | Some p => p_status p
                  | None => "offline"
                  end)
  /\ (forall m, m ∈ messagesInMemory Session.jane_said_hi ->
        exists m', m' ∈ Client.messages (hook s) /\ Wire.id m = Some (Client.id m'))
  /\ (forall m', m' ∈ Client.messages (hook s) ->
        exists m, m ∈ messagesInMemory Session.jane_said_hi /\ shown_as m m')
  /\ NoDup (Client.id <$> Client.messages (hook s))
  /\ Forall (fun m' => is_temp (Client.id m') = false) (Client.messages (hook s))
  /\ Sorted (fun a b => (Client.timestamp a <= Client.timestamp b)%Z)
       (Client.messages (hook s)).
Proof.
  intros s. split; [apply HubMore.jane_said_hi_serving|].
  split; [vm_compute; reflexivity|]. split; [vm_compute; reflexivity|].
  split; [vm_compute; reflexivity|].
  apply (new_client_sees_the_state Scenario.net Scenario.now 1 Session.jane_said_hi
           Arrival.bob_connects Arrival.replay Arrival.events);
    [apply HubMore.jane_said_hi_serving|vm_compute; reflexivity..].
Defined.

(** X13.  The status a client shows for a user follows the presence frames
    of the hub.  After the frame the hub broadcasts for a [presence_update],
    the user is shown with the reported status; after the offline notice of
    an eviction, as offline; and in both cases every other user is shown as
    before, and the messages and the typing state are untouched.  A user's
    own status is recorded by [updatePresence] only when the event was
    written to the socket: with no open socket, or a [send] that throws,
    nothing is written and the presence state stays as it was. *)
Theorem shown_status_follows_the_hub (nowH now : Z) (u st : string) (s : State) :
  u <> "" -> st <> "" ->
  let s1 := receive now (presence_frame nowH u st) s in
  let s2 := receive now (offline_notice nowH u) s in
  getUserStatus (presenceUpdates s1) u = st
  /\ getUserStatus (presenceUpdates s2) u = "offline"
  /\ (forall v, v <> u ->
        getUserStatus (presenceUpdates s1) v = getUserStatus (presenceUpdates s) v
        /\ getUserStatus (presenceUpdates s2) v = getUserStatus (presenceUpdates s) v)
  /\ hook s1 = hook s /\ hook s2 = hook s
  /\ typingIndicators s1 = typingIndicators s /\ typingIndicators s2 = typingIndicators s
  /\ (forall ws_open send_throws dateNow now',
        let '(s', frame) := updatePresence ws_open send_throws dateNow now now' st s in
        if ws_open && negb send_throws
        then frame = Some (presence_event now st)
             /\ getUserStatus (presenceUpdates s') "current" = st
        else frame = None /\ presenceUpdates s' = presenceUpdates s)
  /\ (forall v, getUserStatus (presenceUpdates s) v <> "").
Proof.
  intros Hu Hst s1 s2.
  assert (H1 : presenceUpdates s1
               = <[u := {| userId := u; status := st; lastSeen := Some nowH |}]>
                   (presenceUpdates s)).
  { subst s1. unfold receive, presence_frame. cbn [type]. unfold on_presence_update.
    cbn [Wire.userId Wire.status Wire.lastSeen presenceUpdates].
    by rewrite (truthy_of_Some u Hu), (truthy_of_Some st Hst). }
  assert (H2 : presenceUpdates s2
               = <[u := {| userId := u; status := "offline"; lastSeen := None |}]>
                   (presenceUpdates s)).
  { subst s2. unfold receive, offline_notice. cbn [type]. unfold on_presence_update.
    cbn [Wire.userId Wire.status Wire.lastSeen presenceUpdates].
    by rewrite (truthy_of_Some u Hu). }
  split. { unfold getUserStatus. rewrite H1, lookup_insert_eq. cbn [status].
           by rewrite (truthy_of_Some st Hst). }
  split. { unfold getUserStatus. by rewrite H2, lookup_insert_eq. }
  split. { intros v Hv. unfold getUserStatus. rewrite H1, H2.
           by rewrite !lookup_insert_ne. }
  split; [done|]. split; [done|]. split; [done|]. split; [done|]. split.
  - intros ws_open send_throws dateNow now'. unfold updatePresence, Client.sendMessage.
    destruct ws_open; cbn [negb andb]; [|done].
    destruct send_throws; cbn [negb presence_event type content]; [done|].
    split; [done|]. unfold getUserStatus. cbn [presenceUpdates].
    change (Client.user_id Client.mockUser0) with "current".
    rewrite lookup_insert_eq. cbn [status]. by rewrite (truthy_of_Some st Hst).
  - intros v. unfold getUserStatus. destruct (presenceUpdates s !! v) as [p|]; [|done].
    destruct (truthy (Some (status p))) eqn:Ht; [|done].
    by apply truthy_Some in Ht as (? & [= <-] & ?).
Qed.

Lemma shown_status_follows_the_hub_witness :
  let s := receive_all Arrival.events Store.empty in
  let s1 := receive 1700000000600 (presence_frame Scenario.now "jane" "online") s in
  let s2 := receive 1700000000600 (offline_notice Scenario.now "jane") s in
  "jane" <> "" /\ "online" <> ""
  /\ getUserStatus (presenceUpdates s1) "jane" = "online"
  /\ getUserStatus (presenceUpdates s2) "jane" = "offline"
  /\ (forall v, v <> "jane" ->
        getUserStatus (presenceUpdates s1) v = getUserStatus (presenceUpdates s) v
        /\ getUserStatus (presenceUpdates s2) v = getUserStatus (presenceUpdates s) v)
  /\ hook s1 = hook s /\ hook s2 = hook s
  /\ typingIndicators s1 = typingIndicators s /\ typingIndicators s2 = typingIndicators s
  /\ (forall ws_open send_throws dateNow now',
        let '(s', frame) :=
          updatePresence ws_open send_throws dateNow 1700000000600 now' "online" s in
        if ws_open && negb send_throws
        then frame = Some (presence_event 1700000000600 "online")
             /\ getUserStatus (presenceUpdates s') "current" = "online"
        else frame = None /\ presenceUpdates s' = presenceUpdates s)
  /\ (forall v, getUserStatus (presenceUpdates s) v <> "").
Proof.
  intros s s1 s2. split; [discriminate|]. split; [discriminate|].
  apply (shown_status_follows_the_hub Scenario.now 1700000000600 "jane" "online" s);
    discriminate.
Defined.

End StoreFacts.

(** ** The client's message list *)
Module Timeline.
Import Client.

Local Open Scope list_scope.

Local Abbreviation by_time := (fun a b : Message => (timestamp a <= timestamp b)%Z).

Lemma on_new_message_sorted (now : Z) (data : WebSocketMessage) (prev : list Message) :
  Sorted by_time prev -> Sorted by_time (on_new_message now data prev).
Proof.
  intros Hs. unfold on_new_message.
  destruct (Wire.content data); [|done]. destruct (Wire.userId data); [|done].
  destruct (Wire.id data); [|done]. destruct (_ || _); [done|].
  destruct (existsb _ prev); [done|]. apply Reconciliation.sort_by_time_sorted.
Qed.

Lemma on_message_confirmed_sorted (now : Z) (data : WebSocketMessage) (prev : list Message) :
  Sorted by_time prev -> Sorted by_time (on_message_confirmed now data prev).
Proof.
  intros Hs. unfold on_message_confirmed.
  destruct (Wire.id data); [|done]. destruct (Wire.content data); [|done].
  destruct (_ || _); [done|]. apply Reconciliation.sort_by_time_sorted.
Qed.

(** What [socket.onmessage] does to the list, by the type of the event. *)
Lemma onmessage_messages (now : Z) (data : WebSocketMessage) (h : Hook) :
  (Wire.type data = Some "new_message"
   /\ messages (onmessage now data h) = on_new_message now data (messages h))
  \/ (Wire.type data = Some "message_confirmed"
      /\ messages (onmessage now data h) = on_message_confirmed now data (messages h))
  \/ onmessage now data h = h.
Proof.
  destruct (Wire.type data) as [ty|] eqn:Hty;
    [|right; right; unfold onmessage; by rewrite Hty].
  destruct (String.eqb_spec ty "new_message") as [->|Hn].
  { left. split; [done|]. unfold onmessage. by rewrite Hty. }
  destruct (String.eqb_spec ty "message_confirmed") as [->|Hc].
  { right. left. split; [done|]. by rewrite Reconciliation.onmessage_confirmed_messages. }
  right. right. unfold onmessage. rewrite Hty. clear Hty.
  repeat (destruct ty as [|[[] [] [] [] [] [] [] []] ty]; try done).
Qed.

Lemma sendMessage_messages_cases (ws_open send_throws : bool) (dateNow : N) (now : Z)
    (message : WebSocketMessage) (h : Hook) :
  let h' := (sendMessage ws_open send_throws dateNow now message h).1.2 in
  h' = h
  \/ exists c, Wire.type message = Some "new_message" /\ Wire.content message = Some c
       /\ c <> "" /\ ws_open = true
       /\ messages h' = sort_by_time (messages h ++ [tempMessage dateNow now c message])
       /\ pendingMessages h' = pendingMessages h ∪ {[ c ]}.
Proof.
  unfold sendMessage. destruct ws_open; cbn [negb]; [|by left].
  assert (Hsame : forall h0 : Hook,
            (if send_throws then (false, h0, None) else (true, h0, Some message)).1.2 = h0).
  { intros h0. by destruct send_throws. }
  rewrite Hsame. cbv zeta.
  destruct (Wire.type message) as [ty|] eqn:Hty; [|by left].
  destruct (String.eqb_spec ty "new_message") as [->|Hn].
  - destruct (Wire.content message) as [c|]; [|by left].
    destruct (truthy (Some c)) eqn:Hc; [|by left].
    apply truthy_Some in Hc as (c' & [= <-] & Hc). right. by exists c.
  - left. clear Hty.
    repeat (destruct ty as [|[[] [] [] [] [] [] [] []] ty]; try done).
Qed.

(** X14.  Among messages and events whose timestamps are dates, the hook's
    message list stays in the order of the timestamps: whatever such event
    [socket.onmessage] handles and whatever [sendMessage] is asked to send, a
    list that was sorted is sorted afterwards.  A timestamp here is an
    instant, which is what [new Date().toISOString()] of the hub and of the
    hook gives; an event with a timestamp that no date can be read from is
    none of these events, and nothing is stated about it. *)
Theorem messages_stay_sorted (h : Hook) :
  Sorted by_time (messages h) ->
  (forall now data, Sorted by_time (messages (onmessage now data h)))
  /\ (forall ws_open send_throws dateNow now message,
        Sorted by_time
          (messages (sendMessage ws_open send_throws dateNow now message h).1.2)).
Proof.
  intros Hs. split.
  - intros now data.
    destruct (onmessage_messages now data h) as [[_ ->]|[[_ ->]| ->]]; [| |done].
    + by apply on_new_message_sorted.
    + by apply on_message_confirmed_sorted.
  - intros ws_open send_throws dateNow now message.
    destruct (sendMessage_messages_cases ws_open send_throws dateNow now message h)
      as [->|(c & _ & _ & _ & _ & -> & _)]; [done|].
    apply Reconciliation.sort_by_time_sorted.
Qed.

Lemma filter_keeps (c : string) (m : Message) (l : list Message) :
  m ∈ l -> m ∈ List.filter (keep_unless_placeholder c) l
           \/ (is_temp (id m) = true /\ content m = c).
Proof.
  intros Hin. destruct (keep_unless_placeholder c m) eqn:Hk.
  - left. apply list_elem_of_In, filter_In. split; [by apply list_elem_of_In|done].
  - right. unfold keep_unless_placeholder in Hk.
    destruct (is_temp (id m)); [|done]. split; [done|].
    apply negb_false_iff in Hk. by apply String.eqb_eq.
Qed.

(** X15.  The hook never loses a message other than a placeholder that an
    event matches: a message of the list is still in it after any event,
    unless it is a placeholder and the event is a [new_message] or a
    [message_confirmed] with the placeholder's content; and [sendMessage]
    removes nothing at all. *)
Theorem only_matched_placeholders_are_removed (m : Message) (h : Hook) :
  m ∈ messages h ->
  (forall now data,
     m ∈ messages (onmessage now data h)
     \/ (is_temp (id m) = true /\ Wire.content data = Some (content m)
         /\ (Wire.type data = Some "new_message"
             \/ Wire.type data = Some "message_confirmed")))
  /\ (forall ws_open send_throws dateNow now message,
        m ∈ messages (sendMessage ws_open send_throws dateNow now message h).1.2).
Proof.
  intros Hin. split.
  - intros now data.
    destruct (onmessage_messages now data h) as [[Hty ->]|[[Hty ->]| ->]]; [| |by left].
    + unfold on_new_message.
      destruct (Wire.content data) as [c|]; [|by left].
      destruct (Wire.userId data); [|by left]. destruct (Wire.id data); [|by left].
      destruct (_ || _); [by left|]. destruct (existsb _ _); [by left|].
      cbn [content].
      destruct (filter_keeps c m _ Hin) as [Hkeep|[Ht <-]]; [|right; auto].
      left. rewrite Reconciliation.sort_by_time_perm. apply elem_of_app. by left.
    + unfold on_message_confirmed.
      destruct (Wire.id data); [|by left].
      destruct (Wire.content data) as [c|]; [|by left].
      destruct (_ || _); [by left|]. cbv zeta.
      destruct (filter_keeps c m _ Hin) as [Hkeep|[Ht <-]]; [|right; auto].
      left. rewrite Reconciliation.sort_by_time_perm. apply elem_of_app. by left.
  - intros ws_open send_throws dateNow now message.
    destruct (sendMessage_messages_cases ws_open send_throws dateNow now message h)
      as [->|(c & _ & _ & _ & _ & -> & _)]; [done|].
    rewrite Reconciliation.sort_by_time_perm. apply elem_of_app. by left.
Qed.

(** X16.  A placeholder is matched by its content alone.  A [new_message]
    with an id the list does not hold removes every placeholder that has its
    content, whoever sent the event and whatever conversation the event and
    the placeholder belong to, and adds the message of the event; every
    other entry of the list stays. *)
Theorem placeholders_are_matched_by_content_alone (now : Z) (data : WebSocketMessage)
    (prev : list Message) (c u i : string) :
  Wire.content data = Some c -> c <> "" ->
  Wire.userId data = Some u -> u <> "" ->
  Wire.id data = Some i -> i <> "" ->
  i ∉ (id <$> prev) ->
  let next := on_new_message now data prev in
  (forall p, p ∈ prev -> is_temp (id p) = true -> content p = c -> p ∉ next)
  /\ (forall m, m ∈ prev -> (is_temp (id m) = false \/ content m <> c) -> m ∈ next)
  /\ exists m, m ∈ next /\ id m = i /\ content m = c /\ sender m = lookup_sender u
       /\ channelId m = Wire.channelId data /\ dmId m = Wire.dmId data
       /\ forall m', m' ∈ next -> m' = m \/ m' ∈ prev.
Proof.
  intros Hc Hc0 Hu Hu0 Hi Hi0 Hfresh next. subst next.
  unfold on_new_message. rewrite Hc, Hu, Hi.
  rewrite (truthy_of_Some c Hc0), (truthy_of_Some u Hu0), (truthy_of_Some i Hi0).
  cbn [negb orb id content].
  destruct (existsb _ prev) eqn:Hex.
  { exfalso. apply existsb_exists in Hex as (m & Hin & Heq). apply String.eqb_eq in Heq.
    apply Hfresh. apply list_elem_of_fmap. exists m. split; [done|].
    by apply list_elem_of_In. }
  match goal with |- context [sort_by_time (?f ++ [?n])] =>
    set (filtered := f); set (newMessage := n) end.
  pose proof (Reconciliation.sort_by_time_perm (filtered ++ [newMessage])) as Hperm.
  split.
  { intros p Hp Ht Hpc Hin. rewrite Hperm in Hin. apply elem_of_app in Hin as [Hin|Hin].
    - apply list_elem_of_In, filter_In in Hin as [_ Hk].
      unfold keep_unless_placeholder in Hk. rewrite Ht, Hpc, String.eqb_refl in Hk.
      discriminate.
    - apply list_elem_of_singleton in Hin. subst p. cbn [id newMessage] in Ht.
      apply Hfresh. apply list_elem_of_fmap. by exists newMessage. }
  split.
  { intros m Hm Hkeep. rewrite Hperm. apply elem_of_app. left.
    apply list_elem_of_In, filter_In. split; [by apply list_elem_of_In|].
    unfold keep_unless_placeholder. destruct Hkeep as [-> | Hne]; [done|].
    destruct (is_temp (id m)); [|done]. apply negb_true_iff.
    by apply String.eqb_neq. }
  exists newMessage. split.
  { rewrite Hperm. apply elem_of_app. right. by apply list_elem_of_singleton. }
  repeat (split; [reflexivity|]).
  intros m' Hin. rewrite Hperm in Hin. apply elem_of_app in Hin as [Hin|Hin].
  - right. apply list_elem_of_In, filter_In in Hin as [Hin _]. by apply list_elem_of_In.
  - left. by apply list_elem_of_singleton in Hin.
Qed.

Lemma messages_stay_sorted_witness :
  Sorted by_time (messages Outbox.after_send)
  /\ (forall now data, Sorted by_time (messages (onmessage now data Outbox.after_send)))
  /\ (forall ws_open send_throws dateNow now message,
        Sorted by_time
          (messages (sendMessage ws_open send_throws dateNow now message
                       Outbox.after_send).1.2)).
Proof.
  split; [repeat constructor|].
  apply (messages_stay_sorted Outbox.after_send). repeat constructor.
Defined.

Lemma only_matched_placeholders_are_removed_witness :
  Outbox.placeholder ∈ messages Outbox.after_send
  /\ (forall now data,
        Outbox.placeholder ∈ messages (onmessage now data Outbox.after_send)
        \/ (is_temp (id Outbox.placeholder) = true
            /\ Wire.content data = Some (content Outbox.placeholder)
            /\ (Wire.type data = Some "new_message"
                \/ Wire.type data = Some "message_confirmed")))
  /\ (forall ws_open send_throws dateNow now message,
        Outbox.placeholder
        ∈ messages (sendMessage ws_open send_throws dateNow now message
                      Outbox.after_send).1.2).
Proof.
  split; [repeat constructor|].
  apply (only_matched_placeholders_are_removed Outbox.placeholder Outbox.after_send).
  repeat constructor.
Defined.

Lemma placeholders_are_matched_by_content_alone_witness :
  let prev := messages Outbox.after_send in
  let next := on_new_message 1700000000600 Outbox.bobs_hello prev in
  Wire.content Outbox.bobs_hello = Some "hello" /\ "hello" <> ""
  /\ Wire.userId Outbox.bobs_hello = Some "bob" /\ "bob" <> ""
  /\ Wire.id Outbox.bobs_hello = Some "msg_1700000000450_q7"
  /\ "msg_1700000000450_q7" <> ""
  /\ ("msg_1700000000450_q7" ∉ (id <$> prev))
  /\ (forall p, p ∈ prev -> is_temp (id p) = true -> content p = "hello" -> p ∉ next)
  /\ (forall m, m ∈ prev -> (is_temp (id m) = false \/ content m <> "hello") -> m ∈ next)
  /\ exists m, m ∈ next /\ id m = "msg_1700000000450_q7" /\ content m = "hello"
       /\ sender m = lookup_sender "bob"
       /\ channelId m = Wire.channelId Outbox.bobs_hello
       /\ dmId m = Wire.dmId Outbox.bobs_hello
       /\ forall m', m' ∈ next -> m' = m \/ m' ∈ prev.
Proof.
  intros prev next.
  assert (Hfresh : "msg_1700000000450_q7" ∉ (id <$> prev)).
  { intros Hin. apply list_elem_of_singleton in Hin. discriminate. }
  split; [reflexivity|]. split; [discriminate|]. split; [reflexivity|].
  split; [discriminate|]. split; [reflexivity|]. split; [discriminate|].
  split; [exact Hfresh|].
  apply (placeholders_are_matched_by_content_alone 1700000000600 Outbox.bobs_hello prev
           "hello" "bob" "msg_1700000000450_q7");
    [reflexivity|discriminate|reflexivity|discriminate|reflexivity|discriminate
    |exact Hfresh].
Defined.

End Timeline.

(** ** The pages *)
Module PageFacts.
Import Client Pages.

Local Open Scope list_scope.

(** *** The map of the merge *)

Lemma map_has_spec (k : string) (m : list (string * Message)) :
  map_has k m = true <-> k ∈ m.*1.
Proof.
  unfold map_has. rewrite existsb_exists. split.
  - intros (p & Hin & Heq). apply String.eqb_eq in Heq as <-.
    apply list_elem_of_fmap. exists p. split; [done|]. by apply list_elem_of_In.
  - intros Hin. apply list_elem_of_fmap in Hin as (p & -> & Hin).
    exists p. split; [by apply list_elem_of_In|]. apply String.eqb_refl.
Qed.

Lemma map_set_fresh (k : string) (v : Message) (m : list (string * Message)) :
  k ∉ m.*1 -> map_set k v m = m ++ [(k, v)].
Proof.
  induction m as [|[k' v'] r IH]; intros Hk; cbn [map_set app]; [done|].
  rewrite fmap_cons in Hk. apply not_elem_of_cons in Hk as [Hne Hk]. cbn [fst] in Hne.
  destruct (String.eqb_spec k' k) as [->|_]; [done|]. by rewrite IH.
Qed.

Lemma map_set_keys (k : string) (v : Message) (m : list (string * Message)) :
  k ∈ m.*1 -> (map_set k v m).*1 = m.*1.
Proof.
  induction m as [|[k' v'] r IH]; intros Hk; cbn [map_set].
  { by apply elem_of_nil in Hk. }
  destruct (String.eqb_spec k' k) as [->|Hne]; [done|].
  rewrite !fmap_cons. f_equal. apply IH.
  rewrite fmap_cons in Hk. apply elem_of_cons in Hk as [Hk|Hk]; [|done].
  cbn [fst] in Hk. by subst.
Qed.

Lemma map_set_elem (k : string) (v : Message) (m : list (string * Message))
    (p : string * Message) :
  NoDup m.*1 ->
  p ∈ map_set k v m <-> p = (k, v) \/ (p.1 <> k /\ p ∈ m).
Proof.
  induction m as [|[k' v'] r IH]; intros Hnd; cbn [map_set].
  { rewrite list_elem_of_singleton. split; [by left|]. intros [?|[_ Hin]]; [done|].
    by apply elem_of_nil in Hin. }
  rewrite fmap_cons in Hnd. apply NoDup_cons in Hnd as [Hfresh Hnd]. cbn [fst] in Hfresh.
  destruct (String.eqb_spec k' k) as [->|Hne].
  - rewrite !elem_of_cons. split.
    + intros [->|Hin]; [by left|]. right. split; [|by right].
      intros <-. apply Hfresh. apply list_elem_of_fmap. by exists p.
    + intros [->|[Hp [->|Hin]]]; [by left|done|by right].
  - rewrite !elem_of_cons, (IH Hnd). split.
    + intros [->|[->|[Hp Hin]]]; [right; split; [done|by left]|by left|].
      right. split; [done|by right].
    + intros [->|[Hp [->|Hin]]]; [right; by left|by left|]. right. right. by split.
Qed.

Lemma map_set_NoDup (k : string) (v : Message) (m : list (string * Message)) :
  NoDup m.*1 -> NoDup (map_set k v m).*1.
Proof.
  intros Hnd. destruct (decide (k ∈ m.*1)) as [Hin|Hout].
  - by rewrite map_set_keys.
  - rewrite map_set_fresh, fmap_app by done. apply NoDup_app. split; [done|].
    split; [|apply NoDup_singleton].
    intros x Hx Hx'. apply list_elem_of_singleton in Hx'. cbn in Hx'. by subst.
Qed.

(** One turn of the loop: the keys stay apart, every value sits under its
    own key, and the key of the message is taken afterwards. *)
Lemma dedupe_visit_spec (M : list (string * Message)) (msg : Message) :
  NoDup M.*1 ->
  let M' := dedupe_visit M msg in
  NoDup M'.*1
  /\ map_key msg ∈ M'.*1
  /\ (forall p, p ∈ M' -> p = (map_key msg, msg) \/ p ∈ M)
  /\ (forall p, p ∈ M -> p.1 <> map_key msg -> p ∈ M')
  /\ (is_temp (id msg) = false -> (id msg, msg) ∈ M')
  /\ (is_temp (id msg) = true -> forall p, p ∈ M -> p ∈ M').
Proof.
  intros Hnd. unfold dedupe_visit, map_key.
  destruct (is_temp (id msg)) eqn:Ht.
  - destruct (map_has (content msg) M) eqn:Hhas.
    + apply map_has_spec in Hhas. cbv zeta. repeat split; auto. discriminate.
    + assert (Hout : content msg ∉ M.*1).
      { intros Hin. apply map_has_spec in Hin. congruence. }
      rewrite map_set_fresh by done. cbv zeta. split.
      { rewrite <-(map_set_fresh _ msg) by done. by apply map_set_NoDup. }
      split. { rewrite fmap_app. apply elem_of_app. right. by constructor. }
      split. { intros p Hp. apply elem_of_app in Hp as [Hp|Hp]; [by right|].
               left. by apply list_elem_of_singleton in Hp. }
      split. { intros p Hp _. apply elem_of_app. by left. }
      split; [discriminate|]. intros _ p Hp. apply elem_of_app. by left.
  - cbv zeta. split; [by apply map_set_NoDup|]. split.
    { destruct (decide (id msg ∈ M.*1)) as [Hin|Hout].
      - by rewrite map_set_keys.
      - rewrite map_set_fresh, fmap_app by done. apply elem_of_app. right. by constructor. }
    split. { intros p Hp. apply map_set_elem in Hp as [->|[_ Hp]]; auto. }
    split. { intros p Hp Hne. apply map_set_elem; auto. }
    split; [|discriminate]. intros _. apply map_set_elem; auto.
Qed.

Lemma dedupe_fold_spec (l : list Message) (M : list (string * Message)) :
  NoDup M.*1 -> Forall (fun p => p.1 = map_key p.2) M ->
  let M' := fold_left dedupe_visit l M in
  NoDup M'.*1
  /\ Forall (fun p => p.1 = map_key p.2) M'
  /\ (forall p, p ∈ M' -> p ∈ M \/ p.2 ∈ l)
  /\ (forall k, k ∈ M.*1 -> k ∈ M'.*1)
  /\ (forall m, m ∈ l -> map_key m ∈ M'.*1).
Proof.
  revert M. induction l as [|msg l IH]; intros M Hnd Hkeys; cbn [fold_left].
  { cbv zeta. repeat split; auto. intros m Hm. by apply elem_of_nil in Hm. }
  destruct (dedupe_visit_spec M msg Hnd) as (Hnd1 & Hkey1 & Hfrom1 & Hkeep1 & _).
  assert (Hkeys1 : Forall (fun p => p.1 = map_key p.2) (dedupe_visit M msg)).
  { apply Forall_forall. intros p Hp. apply Hfrom1 in Hp as [->|Hp]; [done|].
    by apply (proj1 (Forall_forall _ _) Hkeys). }
  destruct (IH (dedupe_visit M msg) Hnd1 Hkeys1) as (Hnd' & Hkeys' & Hfrom' & Hgrow' & Hall').
  cbv zeta. split; [done|]. split; [done|]. split.
  { intros p Hp. apply Hfrom' in Hp as [Hp|Hp]; [|right; by right].
    apply Hfrom1 in Hp as [->|Hp]; [right; by left|by left]. }
  split.
  { intros k Hk. apply Hgrow'. destruct (decide (k = map_key msg)) as [->|Hne]; [done|].
    apply list_elem_of_fmap in Hk as (p & -> & Hp). apply list_elem_of_fmap.
    exists p. split; [done|]. by apply Hkeep1. }
  intros m Hm. apply elem_of_cons in Hm as [->|Hm]; [by apply Hgrow'|by apply Hall'].
Qed.

(** The latest of the messages with an id stays under that id. *)
Lemma dedupe_fold_keeps (l : list Message) (M : list (string * Message)) (m : Message) :
  NoDup M.*1 -> is_temp (id m) = false -> (id m, m) ∈ M ->
  (forall m', m' ∈ l -> is_temp (id m') = false -> id m' <> id m) ->
  (id m, m) ∈ fold_left dedupe_visit l M.
Proof.
  revert M. induction l as [|msg l IH]; intros M Hnd Ht Hin Hlast; cbn [fold_left];
    [done|].
  destruct (dedupe_visit_spec M msg Hnd) as (Hnd1 & _ & _ & Hkeep1 & _ & Htemp1).
  apply IH; [done|done| |].
  - destruct (is_temp (id msg)) eqn:Htm; [by apply Htemp1|].
    apply Hkeep1; [done|]. unfold map_key. rewrite Htm. cbn [fst].
    intros Heq. apply (Hlast msg); [by left|done|done].
  - intros m' Hm'. apply Hlast. by right.
Qed.

Lemma dedupe_fold_id (l : list Message) (M : list (string * Message)) :
  NoDup (M.*1 ++ (map_key <$> l)) ->
  fold_left dedupe_visit l M = M ++ ((fun m => (map_key m, m)) <$> l).
Proof.
  revert M. induction l as [|msg l IH]; intros M Hnd; cbn [fold_left fmap list_fmap].
  { by rewrite app_nil_r. }
  rewrite fmap_cons in Hnd.
  assert (Hout : map_key msg ∉ M.*1).
  { apply NoDup_app in Hnd as (_ & Hdisj & _). intros Hin.
    apply (Hdisj _ Hin). by left. }
  assert (Hv : dedupe_visit M msg = M ++ [(map_key msg, msg)]).
  { unfold dedupe_visit, map_key in *. destruct (is_temp (id msg)).
    - destruct (map_has (content msg) M) eqn:Hhas; [|by apply map_set_fresh].
      by apply map_has_spec in Hhas.
    - by apply map_set_fresh. }
  rewrite Hv, IH.
  - by rewrite <-app_assoc.
  - rewrite fmap_app. cbn [fmap list_fmap fst]. by rewrite <-app_assoc.
Qed.

Lemma keys_of_values (M : list (string * Message)) :
  Forall (fun p => p.1 = map_key p.2) M -> map_key <$> M.*2 = M.*1.
Proof.
  induction 1 as [|p M Hp _ IH]; [done|]. rewrite !fmap_cons. by rewrite IH, Hp.
Qed.

(** What the merge of a page keeps. *)
Lemma dedupe_spec (allMessages : list Message) :
  (forall m, m ∈ dedupe allMessages -> m ∈ allMessages)
  /\ NoDup (map_key <$> dedupe allMessages)
  /\ (forall m, m ∈ allMessages ->
        exists m', m' ∈ dedupe allMessages /\ map_key m' = map_key m)
  /\ (forall before m after, allMessages = before ++ m :: after ->
        is_temp (id m) = false ->
        (forall m', m' ∈ after -> is_temp (id m') = false -> id m' <> id m) ->
        m ∈ dedupe allMessages)
  /\ (NoDup (map_key <$> allMessages) -> dedupe allMessages = allMessages).
Proof.
  unfold dedupe.
  destruct (dedupe_fold_spec allMessages [] (NoDup_nil_2) (Forall_nil_2 _))
    as (Hnd & Hkeys & Hfrom & _ & Hall).
  cbv zeta in Hnd, Hkeys, Hfrom, Hall.
  split.
  { intros m Hm. apply list_elem_of_fmap in Hm as (p & -> & Hp).
    apply Hfrom in Hp as [Hp|Hp]; [by apply elem_of_nil in Hp|done]. }
  split. { by rewrite keys_of_values. }
  split.
  { intros m Hm. apply Hall in Hm. apply list_elem_of_fmap in Hm as (p & Hk & Hp).
    exists p.2. split; [apply list_elem_of_fmap; by exists p|].
    rewrite Hk. symmetry. by apply (proj1 (Forall_forall _ _) Hkeys). }
  split.
  { intros before m after -> Ht Hlast. rewrite fold_left_app. cbn [fold_left].
    destruct (dedupe_fold_spec before [] (NoDup_nil_2) (Forall_nil_2 _)) as (Hnd1 & _).
    cbv zeta in Hnd1.
    destruct (dedupe_visit_spec _ m Hnd1) as (Hnd2 & _ & _ & _ & Hin & _).
    apply list_elem_of_fmap. exists (id m, m). split; [done|].
    apply dedupe_fold_keeps; auto. }
  intros Hnd0. rewrite dedupe_fold_id by done. cbn [app].
  rewrite <-list_fmap_compose. apply list_fmap_id.
Qed.

(** X17.  What the merge of a page keeps.  Every message it shows is one of
    those it was given; no two of them have the same key (the id of a
    message, the content of a placeholder), so no id of a confirmed message
    is shown twice; every key of the list is shown; of the messages with one
    id it shows the latest; and a list in which no key occurs twice is shown
    as it is, in its order. *)
Theorem dedupe_keeps_one_message_per_key (allMessages : list Message) :
  (forall m, m ∈ dedupe allMessages -> m ∈ allMessages)
  /\ NoDup (map_key <$> dedupe allMessages)
  /\ (forall m, m ∈ allMessages ->
        exists m', m' ∈ dedupe allMessages /\ map_key m' = map_key m)
  /\ (forall before m after, allMessages = before ++ m :: after ->
        is_temp (id m) = false ->
        (forall m', m' ∈ after -> is_temp (id m') = false -> id m' <> id m) ->
        m ∈ dedupe allMessages)
  /\ (NoDup (map_key <$> allMessages) -> dedupe allMessages = allMessages).
Proof.
  apply dedupe_spec.
Qed.

(** *** The channel page *)

Lemma latest_with_id (l : list Message) (i : string) :
  i ∈ (id <$> l) ->
  exists before m0 after, l = before ++ m0 :: after
    /\ id m0 = i /\ (i ∉ (id <$> after)).
Proof.
  induction l as [|x l IH]; intros Hin; [by apply elem_of_nil in Hin|].
  destruct (decide (i ∈ (id <$> l))) as [Hl|Hl].
  - destruct (IH Hl) as (before & m0 & after & -> & Hid & Hlast).
    by exists (x :: before), m0, after.
  - rewrite fmap_cons in Hin. apply elem_of_cons in Hin as [->|Hin]; [|done].
    by exists [], x, l.
Qed.

Lemma dedupe_shows_every_id (l : list Message) (m : Message) :
  m ∈ l -> is_temp (id m) = false ->
  exists m0, m0 ∈ dedupe l /\ id m0 = id m.
Proof.
  intros Hin Ht.
  destruct (latest_with_id l (id m)) as (before & m0 & after & Hl & Hid & Hlast).
  { apply list_elem_of_fmap. by exists m. }
  exists m0. split; [|done].
  destruct (dedupe_spec l) as (_ & _ & _ & Hlatest & _).
  apply (Hlatest before m0 after Hl); [by rewrite Hid|].
  intros m' Hm' _ Heq. apply Hlast. rewrite <-Hid, <-Heq. apply list_elem_of_fmap.
  by exists m'.
Qed.

Lemma confirmed_ids_NoDup (l : list Message) :
  NoDup (map_key <$> l) ->
  NoDup (id <$> List.filter (fun m => negb (is_temp (id m))) l).
Proof.
  induction l as [|x l IH]; intros Hnd; cbn [List.filter]; [constructor|].
  rewrite fmap_cons in Hnd. apply NoDup_cons in Hnd as [Hfresh Hnd].
  destruct (is_temp (id x)) eqn:Ht; cbn [negb]; [by apply IH|].
  rewrite fmap_cons. apply NoDup_cons. split; [|by apply IH].
  intros Hin. apply Hfresh. apply list_elem_of_fmap in Hin as (y & Hid & Hy).
  apply list_elem_of_In, filter_In in Hy as [Hy Hty]. apply negb_true_iff in Hty.
  apply list_elem_of_fmap. exists y. split; [|by apply list_elem_of_In].
  unfold map_key. by rewrite Ht, Hty.
Qed.

(** X18.  The list the channel page keeps has every message once.  With a
    route parameter [i], the list the effect of the page stores in
    [localMessages], which is the list the page hands to [MessageThread],
    holds only messages of channel [i], each of them a mock message or a
    message of the hook; no id of a confirmed message is in it twice, also
    when the hook's list holds the message more than once; and every
    confirmed message of the channel, mock or from the hook, is in it under
    its id.  Without a route parameter the effect leaves the list as it was.
    What is rendered of the list is the matter of [MessageThread]. *)
Theorem channel_page_keeps_each_message_once (i : string)
    (wsMessages localMessages : list Message) :
  i <> "" ->
  let kept := channel_messages (Some i) wsMessages localMessages in
  let confirmed := List.filter (fun m => negb (is_temp (id m))) kept in
  (forall m, m ∈ kept ->
     channelId m = Some i /\ (m ∈ mockChannelMessages \/ m ∈ wsMessages))
  /\ NoDup (id <$> confirmed)
  /\ (forall m, m ∈ mockChannelMessages ++ wsMessages ->
        channelId m = Some i -> is_temp (id m) = false -> id m ∈ (id <$> confirmed))
  /\ channel_messages None wsMessages localMessages = localMessages
  /\ channel_messages (Some "") wsMessages localMessages = localMessages.
Proof.
  intros Hi kept confirmed. subst confirmed kept.
  unfold channel_messages. rewrite (truthy_of_Some i Hi). cbv zeta.
  set (mine := fun m : Message => bool_decide (channelId m = Some i)).
  set (all := sort_by_time (List.filter mine mockChannelMessages
                            ++ List.filter mine wsMessages)).
  assert (Hall : forall m, m ∈ all
            <-> channelId m = Some i /\ (m ∈ mockChannelMessages \/ m ∈ wsMessages)).
  { intros m. unfold all. rewrite Reconciliation.sort_by_time_perm, elem_of_app.
    rewrite !list_elem_of_In, !filter_In. unfold mine.
    rewrite bool_decide_eq_true. tauto. }
  destruct (dedupe_spec all) as (Hsub & Hnd & _).
  split. { intros m Hm. by apply Hall, Hsub. }
  split. { by apply confirmed_ids_NoDup. }
  split; [|done].
  intros m Hm Hch Ht. apply elem_of_app in Hm.
  destruct (dedupe_shows_every_id all m) as (m0 & Hm0 & Hid); [by apply Hall|done|].
  apply list_elem_of_fmap. exists m0. split; [done|].
  apply list_elem_of_In, filter_In. split; [by apply list_elem_of_In|].
  by rewrite Hid, Ht.
Qed.

Lemma channel_page_keeps_each_message_once_witness :
  let twice :=
    messages (onmessage 1700000000600 Scenario.confirmed_hello
                (onmessage 1700000000600 Scenario.confirmed_hello Scenario.empty_hook)) in
  let kept := channel_messages (Some "1") twice [] in
  let confirmed := List.filter (fun m => negb (is_temp (id m))) kept in
  "1" <> ""
  /\ (forall m, m ∈ kept ->
        channelId m = Some "1" /\ (m ∈ mockChannelMessages \/ m ∈ twice))
  /\ NoDup (id <$> confirmed)
  /\ (forall m, m ∈ mockChannelMessages ++ twice ->
        channelId m = Some "1" -> is_temp (id m) = false -> id m ∈ (id <$> confirmed))
  /\ channel_messages None twice [] = []
  /\ channel_messages (Some "") twice [] = [].
Proof.
  intros twice kept confirmed. split; [discriminate|].
  apply (channel_page_keeps_each_message_once "1" twice []). discriminate.
Defined.

(** *** The direct-message page *)

(** X19.  The direct-message page merges in the same way.  For a route
    parameter that is not a name every object inherits, the list the effect
    of the page stores in [localMessages], which is the list the page hands
    to [MessageThread], holds only messages of that conversation, mock or
    from the hook, no confirmed id twice, and every confirmed message of the
    conversation that the hook holds; for an inherited name ("constructor",
    "toString", ...) the lookup in [mockDirectMessageThreads] gives a value
    that cannot be spread, and the effect throws.  What is rendered of the
    list is the matter of [MessageThread]. *)
Theorem dm_page_keeps_each_message_once (i : string)
    (wsMessages localMessages : list Message) :
  i <> "" ->
  if JsObject.inherited i then dm_messages (Some i) wsMessages localMessages = None
  else
    exists kept, dm_messages (Some i) wsMessages localMessages = Some kept
      /\ (forall m, m ∈ kept ->
            (m ∈ wsMessages /\ dmId m = Some i)
            \/ exists thread, (i, thread) ∈ mockDirectMessageThreads /\ m ∈ thread)
      /\ NoDup (id <$> List.filter (fun m => negb (is_temp (id m))) kept)
      /\ (forall m, m ∈ wsMessages -> dmId m = Some i -> is_temp (id m) = false ->
            id m ∈ (id <$> List.filter (fun m => negb (is_temp (id m))) kept)).
Proof.
  intros Hi. unfold dm_messages. rewrite (truthy_of_Some i Hi).
  destruct (JsObject.inherited i); [done|].
  eexists. split; [reflexivity|]. cbv zeta.
  set (mock := or_default _ []).
  set (mine := fun m : Message => bool_decide (dmId m = Some i)).
  set (all := sort_by_time (mock ++ List.filter mine wsMessages)).
  assert (Hall : forall m, m ∈ all <-> m ∈ mock \/ (m ∈ wsMessages /\ dmId m = Some i)).
  { intros m. unfold all. rewrite Reconciliation.sort_by_time_perm, elem_of_app.
    assert (Hf : m ∈ List.filter mine wsMessages <-> m ∈ wsMessages /\ dmId m = Some i).
    { rewrite !list_elem_of_In, filter_In. unfold mine. by rewrite bool_decide_eq_true. }
    by rewrite Hf. }
  destruct (dedupe_spec all) as (Hsub & Hnd & _).
  split.
  { intros m Hm. apply Hsub, Hall in Hm as [Hm|Hm]; [right|by left].
    unfold mock in Hm.
    destruct (List.find _ mockDirectMessageThreads) as [[k thread]|] eqn:Hfind;
      [|by apply elem_of_nil in Hm].
    apply find_some in Hfind as [Hin Heq]. apply String.eqb_eq in Heq. cbn [fst] in Heq.
    subst k. exists thread. split; [by apply list_elem_of_In|done]. }
  split. { by apply confirmed_ids_NoDup. }
  intros m Hm Hd Ht.
  destruct (dedupe_shows_every_id all m) as (m0 & Hm0 & Hid); [apply Hall; auto|done|].
  apply list_elem_of_fmap. exists m0. split; [done|].
  apply list_elem_of_In, filter_In. split; [by apply list_elem_of_In|].
  by rewrite Hid, Ht.
Qed.

Lemma dm_page_keeps_each_message_once_witness :
  let received := on_new_message 1700000000600 Outbox.bobs_hello [] in
  "bob" <> ""
  /\ exists kept, dm_messages (Some "bob") received [] = Some kept
      /\ (forall m, m ∈ kept ->
            (m ∈ received /\ dmId m = Some "bob")
            \/ exists thread, ("bob", thread) ∈ mockDirectMessageThreads /\ m ∈ thread)
      /\ NoDup (id <$> List.filter (fun m => negb (is_temp (id m))) kept)
      /\ (forall m, m ∈ received -> dmId m = Some "bob" -> is_temp (id m) = false ->
            id m ∈ (id <$> List.filter (fun m => negb (is_temp (id m))) kept)).
Proof.
  intros received. split; [discriminate|].
  apply (dm_page_keeps_each_message_once "bob" received []). discriminate.
Defined.

(** *** Sending *)

(** Both pages hand the text to the same code once they have found their
    channel or conversation, and throw before anything else if they have
    not. *)
Lemma pages_find_their_conversation (i : string)
    (isConnected ws_open send_throws : bool) (dateNow : N) (now : Z)
    (replyingTo : option Message) (content : string) (h : Hook) :
  Channel_handleSendMessage (Some i) isConnected ws_open send_throws dateNow now
    replyingTo content h
  = (if bool_decide (i ∈ channel_id <$> mockChannels)
     then send_trimmed isConnected ws_open send_throws dateNow now (Some i) None
            replyingTo content h
     else (inl NotFound, h, None))
  /\ DirectMessage_handleSendMessage (Some i) isConnected ws_open send_throws dateNow now
       replyingTo content h
     = (if bool_decide (i ∈ mockDirectMessages.*1)
        then send_trimmed isConnected ws_open send_throws dateNow now None (Some i)
               replyingTo content h
        else (inl NotFound, h, None))
  /\ Channel_handleSendMessage None isConnected ws_open send_throws dateNow now
       replyingTo content h = (inl NotFound, h, None)
  /\ DirectMessage_handleSendMessage None isConnected ws_open send_throws dateNow now
       replyingTo content h = (inl NotFound, h, None).
Proof.
  unfold Channel_handleSendMessage, DirectMessage_handleSendMessage.
  split; [|split; [|done]].
  - destruct (existsb _ mockChannels) eqn:Hex.
    + apply existsb_exists in Hex as (c & Hin & Heq). apply String.eqb_eq in Heq.
      rewrite bool_decide_eq_true_2; [done|].
      apply list_elem_of_fmap. exists c. split; [done|]. by apply list_elem_of_In.
    + rewrite bool_decide_eq_false_2; [done|]. intros Hin.
      apply list_elem_of_fmap in Hin as (c & -> & Hin).
      apply not_true_iff_false in Hex. apply Hex. apply existsb_exists.
      exists c. split; [by apply list_elem_of_In|]. apply String.eqb_refl.
  - destruct (existsb _ mockDirectMessages) eqn:Hex.
    + apply existsb_exists in Hex as (d & Hin & Heq). apply String.eqb_eq in Heq.
      rewrite bool_decide_eq_true_2; [done|].
      apply list_elem_of_fmap. exists d. split; [done|]. by apply list_elem_of_In.
    + rewrite bool_decide_eq_false_2; [done|]. intros Hin.
      apply list_elem_of_fmap in Hin as (d & -> & Hin).
      apply not_true_iff_false in Hex. apply Hex. apply existsb_exists.
      exists d. split; [by apply list_elem_of_In|]. apply String.eqb_refl.
Qed.

(** White space outside ASCII is white space to [trim]: a text of a no-break
    space and an ideographic space is blank, and the page throws "Message
    cannot be empty" for it and sends nothing; around " hello" the two are
    stripped with the ASCII space. *)
Lemma white_space_outside_ascii (dateNow : N) (now : Z) (channelId dmId : option string)
    (replyingTo : option Message) (h : Hook) :
  trim Outbox.typed_blank = ""
  /\ trim Outbox.typed = "hello"
  /\ send_trimmed true true false dateNow now channelId dmId replyingTo
       Outbox.typed_blank h
     = (inl EmptyMessage, h, None)
  /\ (send_trimmed true true false dateNow now channelId dmId replyingTo
        Outbox.typed h).2
     = Some (outgoing "hello" channelId dmId replyingTo).
Proof. repeat split; reflexivity. Qed.

(** X20.  What the pages send.  [handleSendMessage] returns normally exactly
    when the hook is connected, the socket is open, [send] does not throw and
    the text is not blank, that is, not empty once [trim] has stripped the
    white space of ECMAScript, inside ASCII and outside, from its ends; the
    event then written to the socket carries the trimmed text, which is not
    empty, and the mock user's id, so a hub whose reply can be sent accepts
    it, and the list holds a placeholder with the trimmed text.  In every
    other case nothing is written to the socket; the hook is left as it was,
    except that a [send] that throws leaves the placeholder behind. *)
Theorem pages_send_trimmed_text (isConnected ws_open send_throws : bool) (dateNow : N)
    (now : Z) (channelId dmId : option string) (replyingTo : option Message)
    (content : string) (h : Hook) :
  let '(result, h', frame) :=
    send_trimmed isConnected ws_open send_throws dateNow now channelId dmId replyingTo
      content h in
  let event := outgoing (trim content) channelId dmId replyingTo in
  let placeholder := tempMessage dateNow now (trim content) event in
  (result = inr tt
   <-> isConnected = true /\ ws_open = true /\ send_throws = false /\ trim content <> "")
  /\ (result = inr tt ->
        frame = Some event /\ placeholder ∈ messages h'
        /\ forall net ws, Server.sendThrows (net ws) = false ->
             Intake.accepts net ws frame = true)
  /\ (result <> inr tt -> frame = None)
  /\ (result <> inr tt ->
        h' = h \/ (isConnected = true /\ ws_open = true /\ send_throws = true
                   /\ trim content <> "" /\ result = inl SendFailed
                   /\ placeholder ∈ messages h')).
Proof.
  unfold send_trimmed.
  destruct isConnected; cbn [negb].
  2:{ split; [split; [done|by intros (? & _)]|]. split; [done|]. split; [done|]. by left. }
  destruct (truthy (Some (trim content))) eqn:Htrim; cbn [negb].
  2:{ split.
      { split; [done|]. intros (_ & _ & _ & Hne). apply truthy_of_Some in Hne. congruence. }
      split; [done|]. split; [done|]. by left. }
  apply truthy_Some in Htrim as Hne. destruct Hne as (c & [= <-] & Hne).
  unfold sendMessage. destruct ws_open; cbn [negb].
  2:{ split; [split; [done|by intros (_ & ? & _)]|]. split; [done|]. split; [done|].
      by left. }
  cbn [outgoing Wire.type Wire.content]. rewrite Htrim.
  assert (Hin : tempMessage dateNow now (trim content)
                  (outgoing (trim content) channelId dmId replyingTo)
                ∈ sort_by_time
                    (messages h ++ [tempMessage dateNow now (trim content)
                                      (outgoing (trim content) channelId dmId replyingTo)])).
  { rewrite Reconciliation.sort_by_time_perm. apply elem_of_app. right. by constructor. }
  destruct send_throws.
  - split; [split; [done|by intros (_ & _ & ? & _)]|]. split; [done|]. split; [done|].
    intros _. right. repeat split; done.
  - split; [done|]. split; [|done]. intros _. split; [done|]. split; [done|].
    intros net ws Hw. unfold Intake.accepts. cbn [outgoing Wire.type Wire.userId Wire.content].
    by rewrite Htrim, Hw.
Qed.

End PageFacts.

(** ** The thread view *)
Module ThreadFacts.
Import Client Threads.

Local Open Scope list_scope.

(** [m] is a reply to the message with id [k]. *)
Local Abbreviation reply_to k :=
  (fun m : Message => truthy (parentId m) && bool_decide (parentId m = Some k)).

Lemma thread_visit_lookup (acc : gmap string (list Message)) (m : Message) (k : string) :
  default [] (thread_visit acc m !! k)
  = default [] (acc !! k) ++ (if reply_to k m then [m] else []).
Proof.
  unfold thread_visit. destruct (truthy (parentId m)) eqn:Hp; cbn [andb].
  - destruct (parentId m) as [p|]; [|done]. cbn [or_default].
    destruct (decide (p = k)) as [->|Hne].
    + rewrite lookup_insert_eq. by rewrite bool_decide_eq_true_2.
    + rewrite lookup_insert_ne by done.
      rewrite bool_decide_eq_false_2 by congruence. by rewrite app_nil_r.
  - rewrite app_nil_r. destruct (acc !! id m) eqn:Hid; [done|].
    destruct (decide (id m = k)) as [<-|Hne].
    + by rewrite lookup_insert_eq, Hid.
    + by rewrite lookup_insert_ne.
Qed.

Lemma threads_lookup (l : list Message) (acc : gmap string (list Message)) (k : string) :
  default [] (fold_left thread_visit l acc !! k)
  = default [] (acc !! k) ++ List.filter (reply_to k) l.
Proof.
  revert acc. induction l as [|m l IH]; intros acc; cbn [fold_left List.filter].
  { by rewrite app_nil_r. }
  rewrite IH, thread_visit_lookup, <-app_assoc. cbv beta.
  by destruct (truthy (parentId m) && bool_decide (parentId m = Some k)).
Qed.

(** X21.  The thread view groups the replies under their parents.  For
    messages whose ids and [parentId]s are no inherited names, the view has
    one row for every message without [parentId], in the order of the list;
    the replies of a row are the messages whose [parentId] is the id of its
    message, in the order of the list; what a row shows of them is a prefix,
    at most two while the thread is not expanded and all of them when it is.
    So a message is in the view, as the message of a row or among its
    replies, exactly when it has no [parentId] or its [parentId] is the id of
    a message that has none: a reply to an unknown message and a reply to a
    reply are never shown. *)
Theorem replies_are_grouped_under_their_parent (expandedThreads : gset string)
    (messages : list Message) :
  plain messages = true ->
  exists rs, rows expandedThreads messages = Some rs
    /\ message <$> rs = List.filter (fun m => negb (truthy (parentId m))) messages
    /\ Forall (fun r =>
                 replies r = List.filter (reply_to (id (message r))) messages
                 /\ shown_replies r `prefix_of` replies r
                 /\ (isExpanded r = false -> length (shown_replies r) <= 2)
                 /\ (isExpanded r = true -> shown_replies r = replies r)
                 /\ (hasReplies r = true -> isParentMessage r = true)
                 /\ (id (message r) <> "" -> isParentMessage r = hasReplies r)) rs
    /\ forall m,
         (exists r, r ∈ rs /\ (m = message r \/ m ∈ replies r))
         <-> m ∈ messages
             /\ (truthy (parentId m) = false
                 \/ exists parent, parent ∈ messages
                      /\ truthy (parentId parent) = false
                      /\ parentId m = Some (id parent)).
Proof.
  intros Hplain. unfold rows, messageThreads. rewrite Hplain.
  set (threads := fold_left thread_visit messages ∅).
  set (roots := List.filter (fun m => negb (truthy (parentId m))) messages).
  assert (Hreplies : forall m,
            replies (row expandedThreads messages threads m)
            = List.filter (reply_to (id m)) messages).
  { intros m. cbn [replies row]. unfold threads. by rewrite threads_lookup. }
  assert (Hroot : forall m, m ∈ roots <-> m ∈ messages /\ truthy (parentId m) = false).
  { intros m. unfold roots. rewrite !list_elem_of_In, filter_In, negb_true_iff. done. }
  assert (Hin : forall k m, m ∈ List.filter (reply_to k) messages
                  <-> m ∈ messages /\ truthy (parentId m) = true /\ parentId m = Some k).
  { intros k m. rewrite !list_elem_of_In, filter_In, andb_true_iff, bool_decide_eq_true.
    done. }
  eexists. split; [reflexivity|]. split.
  { rewrite <-list_fmap_compose. apply list_fmap_id. }
  split.
  { apply Forall_fmap, Forall_forall. intros m Hm. cbn [compose].
    split; [apply Hreplies|].
    set (r := row expandedThreads messages threads m).
    assert (Hhas : hasReplies r = negb (Nat.eqb (length (replies r)) 0)) by reflexivity.
    assert (Hprev : previewReplies r
                    = if hasReplies r && negb (isExpanded r) then take 2 (replies r)
                      else []) by reflexivity.
    split.
    { unfold shown_replies. rewrite Hprev.
      destruct (hasReplies r), (isExpanded r); cbn [andb negb];
        try done; try apply prefix_nil. apply prefix_take. }
    split.
    { intros Hex. unfold shown_replies. rewrite Hprev, Hex, andb_false_r, andb_true_r.
      destruct (hasReplies r); cbn [length]; [|lia]. rewrite length_take. lia. }
    split.
    { intros Hex. unfold shown_replies. rewrite Hprev, Hex, andb_true_r, andb_false_r.
      destruct (hasReplies r); [done|]. symmetry in Hhas.
      apply negb_false_iff, Nat.eqb_eq in Hhas. symmetry. by apply nil_length_inv. }
    assert (Hsome : hasReplies r = true
              <-> exists x, x ∈ List.filter (reply_to (id m)) messages).
    { rewrite Hhas, negb_true_iff, Nat.eqb_neq. subst r. rewrite Hreplies.
      generalize (List.filter (reply_to (id m)) messages). intros [|x l].
      - cbn [length]. split; [lia|]. intros (x & Hx). by apply elem_of_nil in Hx.
      - cbn [length]. split; [|lia]. intros _. exists x. by left. }
    assert (Hparent : isParentMessage r = true
              <-> exists x, x ∈ messages /\ parentId x = Some (id m)).
    { cbn [isParentMessage r row]. rewrite existsb_exists.
      split; intros (x & Hx & Hp); exists x.
      - apply bool_decide_eq_true in Hp. by rewrite list_elem_of_In.
      - rewrite bool_decide_eq_true. by rewrite <-list_elem_of_In. }
    split.
    { intros Hh. apply Hparent. apply Hsome in Hh as (x & Hx).
      apply Hin in Hx as (? & _ & ?). by exists x. }
    intros Hid. cbn [message r row] in Hid.
    apply eq_true_iff_eq. rewrite Hparent, Hsome. split.
    - intros (x & Hx & Hp). exists x. apply Hin. split; [done|]. split; [|done].
      rewrite Hp. by apply truthy_of_Some.
    - intros (x & Hx). apply Hin in Hx as (? & _ & ?). by exists x. }
  intros m. split.
  - intros (r & Hr & Hm). apply list_elem_of_fmap in Hr as (root & -> & Hroot').
    apply Hroot in Hroot' as [Hrin Hrp]. cbn [message row] in Hm.
    destruct Hm as [->|Hm]; [by auto|].
    rewrite Hreplies in Hm. apply Hin in Hm as (Hmin & _ & Hp).
    split; [done|]. right. by exists root.
  - intros [Hmin [Hp|(parent & Hpin & Hpp & Hp)]].
    + exists (row expandedThreads messages threads m). split; [|by left].
      apply list_elem_of_fmap. exists m. split; [done|]. by apply Hroot.
    + destruct (truthy (parentId m)) eqn:Hmp.
      * exists (row expandedThreads messages threads parent). split.
        { apply list_elem_of_fmap. exists parent. split; [done|]. by apply Hroot. }
        right. rewrite Hreplies. by apply Hin.
      * exists (row expandedThreads messages threads m). split; [|by left].
        apply list_elem_of_fmap. exists m. split; [done|]. by apply Hroot.
Qed.

Lemma replies_are_grouped_under_their_parent_witness :
  plain Conversation.messages = true
  /\ exists rs, rows ∅ Conversation.messages = Some rs
    /\ message <$> rs
       = List.filter (fun m => negb (truthy (parentId m))) Conversation.messages
    /\ Forall (fun r =>
                 replies r
                 = List.filter (reply_to (id (message r))) Conversation.messages
                 /\ shown_replies r `prefix_of` replies r
                 /\ (isExpanded r = false -> length (shown_replies r) <= 2)
                 /\ (isExpanded r = true -> shown_replies r = replies r)
                 /\ (hasReplies r = true -> isParentMessage r = true)
                 /\ (id (message r) <> "" -> isParentMessage r = hasReplies r)) rs
    /\ forall m,
         (exists r, r ∈ rs /\ (m = message r \/ m ∈ replies r))
         <-> m ∈ Conversation.messages
             /\ (truthy (parentId m) = false
                 \/ exists parent, parent ∈ Conversation.messages
                      /\ truthy (parentId parent) = false
                      /\ parentId m = Some (id parent)).
Proof.
  split; [reflexivity|].
  apply (replies_are_grouped_under_their_parent ∅ Conversation.messages). reflexivity.
Defined.

Lemma toggleThread_elem (messageId k : string) (expandedThreads : gset string) :
  k ∈ toggleThread messageId expandedThreads
  <-> (k = messageId /\ (messageId ∉ expandedThreads))
      \/ (k <> messageId /\ k ∈ expandedThreads).
Proof.
  unfold toggleThread. destruct (decide (messageId ∈ expandedThreads)) as [H|H].
  - rewrite bool_decide_eq_true_2 by done.
    rewrite elem_of_difference, elem_of_singleton. tauto.
  - rewrite bool_decide_eq_false_2 by done.
    rewrite elem_of_union, elem_of_singleton.
    destruct (decide (k = messageId)) as [->|Hne]; tauto.
Qed.

(** X22.  Expanding and collapsing a thread.  [toggleThread] changes the
    expansion of the thread it is given and of no other, and a second call
    undoes the first; a row shows all its replies after its thread was
    toggled from collapsed, and its first two after it was toggled from
    expanded. *)
Theorem toggling_a_thread_twice_changes_nothing (messageId : string)
    (expandedThreads : gset string) :
  toggleThread messageId (toggleThread messageId expandedThreads) = expandedThreads
  /\ (messageId ∈ toggleThread messageId expandedThreads
      <-> messageId ∉ expandedThreads)
  /\ (forall k, k <> messageId ->
        k ∈ toggleThread messageId expandedThreads <-> k ∈ expandedThreads)
  /\ forall messages threads m,
       id m = messageId ->
       let before := row expandedThreads messages threads m in
       let after := row (toggleThread messageId expandedThreads) messages threads m in
       isExpanded after = negb (isExpanded before)
       /\ replies after = replies before
       /\ (isExpanded before = false -> shown_replies after = replies before)
       /\ (isExpanded before = true -> shown_replies after = take 2 (replies before)).
Proof.
  assert (Hin : messageId ∈ toggleThread messageId expandedThreads
                <-> messageId ∉ expandedThreads).
  { rewrite toggleThread_elem. tauto. }
  split.
  { apply set_eq. intros k. rewrite !toggleThread_elem.
    destruct (decide (k = messageId)) as [->|Hne];
      destruct (decide (messageId ∈ expandedThreads)); tauto. }
  split; [done|]. split.
  { intros k Hk. rewrite toggleThread_elem. tauto. }
  intros messages threads m Hid before after.
  assert (Hex : isExpanded after = negb (isExpanded before)).
  { cbn [isExpanded before after row]. rewrite Hid.
    destruct (decide (messageId ∈ expandedThreads)) as [H|H].
    - rewrite (bool_decide_eq_true_2 _ H). cbn [negb]. apply bool_decide_eq_false_2.
      rewrite Hin. tauto.
    - rewrite (bool_decide_eq_false_2 _ H). cbn [negb]. apply bool_decide_eq_true_2.
      by rewrite Hin. }
  split; [done|]. split; [done|].
  assert (Hshown : shown_replies after
                   = if hasReplies after && isExpanded after then replies before
                     else if hasReplies after && negb (isExpanded after)
                          then take 2 (replies before) else []) by reflexivity.
  assert (Hhas : hasReplies after = negb (Nat.eqb (length (replies before)) 0))
    by reflexivity.
  rewrite Hshown, Hex, Hhas.
  destruct (replies before) as [|x l]; split; intros Hb; rewrite Hb; reflexivity.
Qed.

End ThreadFacts.

(** ** The reconnect logic, for every course of events *)
Module BackoffMore.
Import Reconnect ReconnectSpec.

Local Open Scope list_scope.

Local Abbreviation spent :=
  (fun tm : Timer => {| timer_run := timer_run tm; delay := delay tm; pending := false |}).

Lemma lookup_snoc {A : Type} (l : list A) (x : A) : (l ++ [x]) !! length l = Some x.
Proof. by rewrite lookup_app_r, Nat.sub_diag. Qed.

Lemma alter_snoc {A : Type} (g : A -> A) (l : list A) (x : A) :
  alter g (length l) (l ++ [x]) = l ++ [g x].
Proof. by rewrite (alter_app_r_alt g), Nat.sub_diag. Qed.

Lemma settled_called (h : Hook) : settled h -> called h.
Proof.
  intros (Hrc & (old & cur & Hruns & Hold & Hcur & Hseen & Hrt & Hsock) & Hsockets
          & Htimers & Hbound).
  split; [done|]. split; [|done].
  exists old, cur. repeat (split; [done|]).
  assert (Hlt : Forall (fun t => timer_run t < length old) (timers h)).
  { apply (Forall_impl _ _ _ Htimers). intros t (_ & r & Hr & Hd).
    rewrite Hruns in Hr. destruct (decide (timer_run t < length old)) as [|Hge]; [done|].
    apply lookup_lt_Some in Hr as Hlen. rewrite length_app in Hlen. cbn in Hlen.
    replace (timer_run t) with (length old) in Hr by lia.
    rewrite lookup_snoc in Hr. congruence. }
  split; [|done].
  apply Forall_forall. intros t Ht. split.
  - by apply (proj1 (Forall_forall _ _) Htimers t Ht).
  - apply (proj1 (Forall_forall _ _) Hlt t) in Ht. lia.
Qed.

Lemma called_render (h : Hook) : called h -> settled (render h).
Proof.
  intros (Hrc & (old & cur & Hruns & Hold & Hcur & Hseen & Hsock & Htimers & Hquiet)
          & Hsockets & Hbound).
  assert (Hdead : forall rs t, Forall (fun r => isDestroyed r = true) rs ->
            timer_run t < length rs ->
            exists r, (rs ++ []) !! timer_run t = Some r /\ isDestroyed r = true).
  { intros rs t Hrs Hlt. rewrite app_nil_r.
    destruct (lookup_lt_is_Some_2 rs (timer_run t) Hlt) as [r Hr].
    exists r. split; [done|]. by apply (Forall_lookup_1 _ _ _ _ Hrs Hr). }
  unfold render. rewrite Hruns, length_app. cbn [length].
  replace (pred (length old + 1)) with (length old) by lia.
  rewrite lookup_snoc.
  destruct (decide (seen_retryCount cur = retryCount h
                    /\ seen_reconnectTimer cur = reconnectTimer h)) as [[_ Hsame]|Hdiff].
  - rewrite bool_decide_eq_true_2 by (split; [congruence|done]).
    split; [done|]. split; [by exists old, cur|]. split; [done|]. split; [|done].
    specialize (Hquiet Hsame). apply Forall_forall. intros t Ht.
    split; [by apply (proj1 (Forall_forall _ _) Htimers t Ht)|].
    apply (proj1 (Forall_forall _ _) Hquiet) in Ht.
    destruct (Hdead old t Hold Ht) as (r & Hr & Hd). rewrite app_nil_r in Hr.
    exists r. split; [|done]. rewrite Hruns. by apply lookup_app_l_Some.
  - rewrite bool_decide_eq_false_2 by done.
    set (cur' := {| seen_retryCount := seen_retryCount cur;
                    seen_reconnectTimer := seen_reconnectTimer cur;
                    isDestroyed := true; socket := socket cur |}).
    assert (Holdc : Forall (fun r => isDestroyed r = true) (old ++ [cur'])).
    { apply Forall_app. split; [done|]. by constructor. }
    (* the state the cleanup leaves *)
    assert (Hclean : exists ts,
              cleanup (length old) h
              = {| retryCount := retryCount h; reconnectTimer := reconnectTimer h;
                   isConnected := isConnected h; ws := ws h; runs := old ++ [cur'];
                   timers := ts; sockets := sockets h |}
              /\ length ts = length (timers h)
              /\ Forall (fun t => delay t = 1000%Z /\ timer_run t <= length old) ts).
    { unfold cleanup. rewrite Hruns, lookup_snoc. unfold set_run.
      cbn [runs retryCount reconnectTimer isConnected ws timers sockets].
      rewrite Hruns, alter_snoc. fold cur'.
      destruct (seen_reconnectTimer cur) as [t|].
      - eexists. split; [reflexivity|]. split; [by rewrite length_alter|].
        apply Forall_alter; [done|]. by intros tm _ ?.
      - by eexists. }
    destruct Hclean as (ts & -> & Hlen & Hts).
    unfold run_effect, connect.
    cbn [runs retryCount reconnectTimer isConnected ws timers sockets].
    rewrite lookup_snoc. cbn [isDestroyed]. unfold set_run.
    cbn [runs retryCount reconnectTimer isConnected ws timers sockets].
    rewrite alter_snoc. cbn [seen_retryCount seen_reconnectTimer isDestroyed].
    unfold settled. cbn [runs retryCount reconnectTimer isConnected ws timers sockets].
    split; [done|]. split.
    { eexists (old ++ [cur']), _. split; [reflexivity|].
      cbn [isDestroyed seen_retryCount seen_reconnectTimer socket].
      repeat (split; [done|]). rewrite Hsockets, length_fmap, length_seq, Hruns.
      by rewrite !length_app. }
    split.
    { rewrite Hsockets, Hruns, !length_app. cbn [length].
      replace (length old + 1 + 1) with (S (length old + 1)) by lia.
      by rewrite (Backoff.tabulate_S direct_attempt (length old + 1)). }
    split; [|intros t Ht; rewrite Hlen; by apply Hbound].
    apply (Forall_impl _ _ _ Hts). intros t (Hd & Hle). split; [done|].
    destruct (Hdead (old ++ [cur']) t Holdc) as (r & Hr & Hdr).
    { rewrite length_app. cbn [length]. lia. }
    rewrite app_nil_r in Hr. exists r. split; [|done]. by apply lookup_app_l_Some.
Qed.

(** [called] looks at five fields only. *)
Lemma called_ext (h h' : Hook) :
  retryCount h' = retryCount h -> reconnectTimer h' = reconnectTimer h ->
  runs h' = runs h -> timers h' = timers h -> sockets h' = sockets h ->
  called h -> called h'.
Proof. unfold called. by intros -> -> -> -> ->. Qed.

Lemma called_clearTimeout (t : nat) (h : Hook) : called h -> called (clearTimeout t h).
Proof.
  intros (Hrc & (old & cur & Hruns & Hold & Hcur & Hseen & Hsock & Htimers & Hquiet)
          & Hsockets & Hbound).
  unfold called, clearTimeout.
  cbn [runs retryCount reconnectTimer isConnected ws timers sockets].
  split; [done|]. split; [|split; [done|]].
  - exists old, cur. repeat (split; [done|]). split.
    + apply Forall_alter; [done|]. by intros tm _ ?.
    + intros Hsame. apply Forall_alter; [by apply Hquiet|]. by intros tm _ ?.
  - intros t' Ht'. rewrite length_alter. by apply Hbound.
Qed.

(** The run that owns a connection is the run of the same number; it is the
    last run if it is alive. *)
Lemma live_owner (h : Hook) (k : nat) (a : Attempt) (run : Run) :
  settled h -> sockets h !! k = Some a -> runs h !! attempt_run a = Some run ->
  isDestroyed run = false ->
  exists old, runs h = old ++ [run] /\ attempt_run a = length old
    /\ seen_retryCount run = 0 /\ seen_reconnectTimer run = reconnectTimer h
    /\ Forall (fun r => isDestroyed r = true) old.
Proof.
  intros (Hrc & (old & cur & Hruns & Hold & Hcur & Hseen & Hrt & Hsock) & Hsockets & _)
    Ha Hr Halive.
  rewrite Hsockets in Ha. apply list_lookup_fmap_Some in Ha as (i & -> & Hi).
  apply lookup_seq in Hi as [-> _]. cbn [attempt_run direct_attempt plus] in Hr |- *.
  rewrite Hruns in Hr. destruct (decide (k < length old)) as [Hlt|Hge].
  - rewrite lookup_app_l in Hr by done.
    pose proof (Forall_lookup_1 _ _ _ _ Hold Hr) as Hd. cbn in Hd. congruence.
  - apply lookup_lt_Some in Hr as Hlen. rewrite length_app in Hlen. cbn in Hlen.
    assert (k = length old) as -> by lia. rewrite lookup_snoc in Hr.
    injection Hr as <-. by exists old.
Qed.

Lemma onopen_called (k : nat) (h : Hook) : settled h -> called (onopen k h).
Proof.
  intros Hs. pose proof (settled_called h Hs) as Hc. unfold onopen.
  destruct (sockets h !! k) as [a|] eqn:Ha; [|done].
  destruct (runs h !! attempt_run a) as [run|] eqn:Hr; [|done].
  destruct (isDestroyed run) eqn:Halive; [done|].
  destruct (live_owner h k a run Hs Ha Hr Halive) as (old & Hruns & _ & Hseen & Hrt & Hold).
  destruct Hs as (Hrc & _).
  destruct (seen_reconnectTimer run) as [t|] eqn:Hst.
  - destruct Hc as (_ & (old' & cur' & Hruns' & Hold' & Hcur' & Hseen' & Hsock' & Htimers'
                         & _) & Hsockets & _).
    unfold called, clearTimeout.
    cbn [runs retryCount reconnectTimer isConnected ws timers sockets].
    split; [done|]. split; [|split; [done|done]].
    exists old', cur'. repeat (split; [done|]). split.
    + apply Forall_alter; [done|]. by intros tm _ ?.
    + intros Hsame. rewrite Hruns in Hruns'. apply app_inj_tail in Hruns' as [_ <-].
      congruence.
  - by apply (called_ext h).
Qed.

Lemma onclose_called (k : nat) (h : Hook) : settled h -> called (onclose k h).
Proof.
  intros Hs. pose proof (settled_called h Hs) as Hc. unfold onclose.
  destruct (sockets h !! k) as [a|] eqn:Ha; [|done].
  destruct (runs h !! attempt_run a) as [run|] eqn:Hr; [|done].
  destruct (isDestroyed run) eqn:Halive; [done|].
  destruct (live_owner h k a run Hs Ha Hr Halive)
    as (old & Hruns & Howner & Hseen & Hrt & Hold).
  rewrite Hseen. change (scheduled_delay 0) with (Some 1000%Z). cbv iota.
  destruct Hc as (Hrc & (old' & cur' & Hruns' & Hold' & Hcur' & Hseen' & Hsock' & Htimers'
                         & _) & Hsockets & Hbound).
  rewrite Hruns in Hruns'. apply app_inj_tail in Hruns' as [<- <-].
  unfold called. cbn [runs retryCount reconnectTimer isConnected ws timers sockets].
  split; [done|]. split; [|split; [done|]].
  - exists old, run. repeat (split; [done|]). split.
    + apply Forall_app. split; [done|]. constructor; [|done].
      cbn [delay timer_run]. split; [done|]. lia.
    + intros Hsame. rewrite Hrt in Hsame. apply Hbound in Hsame. lia.
  - intros t [= <-]. rewrite length_app. cbn [length]. lia.
Qed.

Lemma timer_fires_called (t : nat) (h : Hook) : settled h -> called (timer_fires t h).
Proof.
  intros Hs. pose proof (settled_called h Hs) as Hc. unfold timer_fires.
  destruct (timers h !! t) as [tm|] eqn:Ht; [|done].
  destruct (pending tm); [|done].
  destruct Hs as (_ & _ & _ & Htimers & _).
  destruct (Forall_lookup_1 _ _ _ _ Htimers Ht) as (_ & r & Hr & Hd).
  cbn [runs clearTimeout]. rewrite Hr, Hd. by apply called_clearTimeout.
Qed.

Lemma step_settled (h : Hook) (e : Event) : settled h -> settled (step h e).
Proof.
  intros Hs. unfold step. apply called_render. destruct e as [k|k|t].
  - by apply onopen_called.
  - by apply onclose_called.
  - by apply timer_fires_called.
Qed.

Lemma mount_settled : settled mount.
Proof.
  split; [reflexivity|]. split.
  { exists [], {| seen_retryCount := 0; seen_reconnectTimer := None;
                  isDestroyed := false; socket := Some 0 |}.
    repeat split; constructor. }
  split; [reflexivity|]. split; [constructor|]. intros t. discriminate.
Qed.

Lemma run_events_settled (es : list Event) : settled (run_events es).
Proof.
  unfold run_events. generalize mount_settled. generalize mount.
  induction es as [|e es IH]; intros h Hs; cbn [fold_left]; [done|].
  apply IH. by apply step_settled.
Qed.

(** X23.  The reconnect logic never backs off and never gives up, whatever
    happens.  After any sequence of sockets opening, sockets closing and
    timers firing, in any order, the retry count is still 0; every timer the
    hook has set asked for the first delay, 1000 ms; no connection was made
    by the callback of a timer, each one was made at once by a new run of the
    effect; and the last run of the effect is alive and has the latest
    connection under way, every earlier run being destroyed. *)
Theorem reconnect_never_leaves_the_first_delay (es : list Event) :
  let h := run_events es in
  retryCount h = 0
  /\ Forall (fun t => delay t = 1000%Z) (timers h)
  /\ Forall (fun a => attempt_timer a = None) (sockets h)
  /\ length (sockets h) = length (runs h)
  /\ exists old cur, runs h = old ++ [cur]
       /\ Forall (fun r => isDestroyed r = true) old
       /\ isDestroyed cur = false
       /\ socket cur = Some (pred (length (sockets h))).
Proof.
  cbv zeta.
  destruct (run_events_settled es)
    as (Hrc & (old & cur & Hruns & Hold & Hcur & _ & _ & Hsock) & Hsockets & Htimers & _).
  split; [done|]. split.
  { apply (Forall_impl _ _ _ Htimers). by intros t (? & _). }
  split. { rewrite Hsockets. by apply Forall_fmap, Forall_true. }
  split. { by rewrite Hsockets, length_fmap, length_seq. }
  exists old, cur. repeat (split; [done|]).
  rewrite Hsock, Hsockets, length_fmap, length_seq, Hruns, length_app. cbn [length].
  f_equal. lia.
Qed.

End BackoffMore.

(** ** From one client to the others *)
Module EndToEnd.
Import Server HubSpec Connection Intake Store.

Local Open Scope list_scope.

(** X24.  The sender and the receivers of a message see the same message.
    For an event the hub accepts, the message the sender's hook makes of the
    confirmation and the message another client's hook makes of the broadcast
    copy (whose id it does not hold yet) have the same id, content,
    timestamp, conversation and parent, all of them the hub's.  They differ
    in what the clients add: the sender's copy is attributed to the first
    mock user and read by it; the receiver's copy is attributed to the mock
    user with the sender's id, or to the first mock user if there is none,
    and read by the sender's id. *)
Theorem sender_and_receivers_see_the_same_message (nowH nowA nowB : Z) (dateNow : N)
    (rnd : string) (message : WebSocketMessage) (uid c : string)
    (prevA prevB : list Client.Message) :
  Wire.userId message = Some uid -> uid <> "" ->
  Wire.content message = Some c -> c <> "" ->
  let canonical := messageId_of dateNow rnd in
  canonical ∉ (Client.id <$> prevB) ->
  exists a b,
    a ∈ Client.on_message_confirmed nowA (confirmation_of nowH message canonical) prevA
    /\ b ∈ Client.on_new_message nowB (newMessage_of nowH message canonical uid) prevB
    /\ Client.id a = canonical /\ Client.id b = canonical
    /\ Client.content a = c /\ Client.content b = c
    /\ Client.timestamp a = nowH /\ Client.timestamp b = nowH
    /\ Client.channelId a = Wire.channelId message
    /\ Client.channelId b = Wire.channelId message
    /\ Client.dmId a = Wire.dmId message /\ Client.dmId b = Wire.dmId message
    /\ Client.parentId a = Wire.parentId message
    /\ Client.parentId b = Wire.parentId message
    /\ Client.sender a = Client.mockUser0 /\ Client.sender b = Client.lookup_sender uid
    /\ Client.readBy a = ["current"] /\ Client.readBy b = [uid].
Proof.
  intros Hu Hu0 Hc Hc0 canonical Hfresh.
  destruct (StoreFacts.hub_id_not_temp dateNow rnd) as [Htemp Hne]. fold canonical in Htemp, Hne.
  eexists _, _. split.
  { unfold Client.on_message_confirmed, confirmation_of. cbn [Wire.id Wire.content].
    rewrite Hc, (truthy_of_Some c Hc0), (truthy_of_Some _ Hne). cbn [negb orb].
    rewrite Reconciliation.sort_by_time_perm. apply elem_of_app. right.
    apply list_elem_of_singleton. reflexivity. }
  split.
  { unfold Client.on_new_message, newMessage_of. cbn [Wire.id Wire.content Wire.userId].
    rewrite Hc, Hu, (truthy_of_Some c Hc0), (truthy_of_Some uid Hu0),
      (truthy_of_Some _ Hne). cbn [negb orb Client.id].
    destruct (existsb _ prevB) eqn:Hex.
    { exfalso. apply existsb_exists in Hex as (m & Hin & Heq). apply String.eqb_eq in Heq.
      apply Hfresh. apply list_elem_of_fmap. exists m. split; [done|].
      by apply list_elem_of_In. }
    rewrite Reconciliation.sort_by_time_perm. apply elem_of_app. right.
    apply list_elem_of_singleton. reflexivity. }
  cbn. repeat (split; [reflexivity|]). reflexivity.
Qed.

Lemma sender_and_receivers_see_the_same_message_witness :
  let canonical := messageId_of 1700000000400 "k3x9" in
  Wire.userId Scenario.hi = Some "jane" /\ "jane" <> ""
  /\ Wire.content Scenario.hi = Some "hi" /\ "hi" <> ""
  /\ (canonical ∉ (Client.id <$> Client.messages Outbox.after_send))
  /\ exists a b,
    a ∈ Client.on_message_confirmed 1700000000600
          (confirmation_of Scenario.now Scenario.hi canonical) []
    /\ b ∈ Client.on_new_message 1700000000600
             (newMessage_of Scenario.now Scenario.hi canonical "jane")
             (Client.messages Outbox.after_send)
    /\ Client.id a = canonical /\ Client.id b = canonical
    /\ Client.content a = "hi" /\ Client.content b = "hi"
    /\ Client.timestamp a = Scenario.now /\ Client.timestamp b = Scenario.now
    /\ Client.channelId a = Wire.channelId Scenario.hi
    /\ Client.channelId b = Wire.channelId Scenario.hi
    /\ Client.dmId a = Wire.dmId Scenario.hi /\ Client.dmId b = Wire.dmId Scenario.hi
    /\ Client.parentId a = Wire.parentId Scenario.hi
    /\ Client.parentId b = Wire.parentId Scenario.hi
    /\ Client.sender a = Client.mockUser0 /\ Client.sender b = Client.lookup_sender "jane"
    /\ Client.readBy a = ["current"] /\ Client.readBy b = ["jane"].
Proof.
  intros canonical.
  assert (Hfresh : canonical ∉ (Client.id <$> Client.messages Outbox.after_send)).
  { intros Hin. apply list_elem_of_singleton in Hin. discriminate. }
  split; [reflexivity|]. split; [discriminate|]. split; [reflexivity|].
  split; [discriminate|]. split; [exact Hfresh|].
  apply (sender_and_receivers_see_the_same_message Scenario.now 1700000000600
           1700000000600 1700000000400 "k3x9" Scenario.hi "jane" "hi" []
           (Client.messages Outbox.after_send));
    [reflexivity|discriminate|reflexivity|discriminate|exact Hfresh].
Defined.

(** *** A client that connects again *)

Lemma State_eq (s s' : State) :
  hook s = hook s' -> presenceUpdates s = presenceUpdates s' ->
  typingIndicators s = typingIndicators s' -> s = s'.
Proof. destruct s, s'. cbn. by intros -> -> ->. Qed.

Lemma receive_established (now nowH : Z) (s : State) :
  receive now (connection_established nowH) s = s.
Proof. by apply State_eq. Qed.

Lemma on_new_message_keeps (now : Z) (data : WebSocketMessage)
    (prev : list Client.Message) (m : Client.Message) :
  m ∈ prev -> is_temp (Client.id m) = false -> m ∈ Client.on_new_message now data prev.
Proof.
  intros Hin Ht. unfold Client.on_new_message.
  destruct (Wire.content data) as [c|]; [|done]. destruct (Wire.userId data); [|done].
  destruct (Wire.id data); [|done]. destruct (_ || _); [done|].
  destruct (existsb _ prev); [done|].
  rewrite Reconciliation.sort_by_time_perm. apply elem_of_app. left.
  apply list_elem_of_In, filter_In. split; [by apply list_elem_of_In|].
  unfold Client.keep_unless_placeholder. by rewrite Ht.
Qed.

(** After an entry of the log the client has a message with its id. *)
Lemma receive_entry (now : Z) (m : WebSocketMessage) (s : State) :
  log_entry_ok m ->
  let s' := receive now m s in
  presenceUpdates s' = presenceUpdates s /\ typingIndicators s' = typingIndicators s
  /\ Client.pendingMessages (hook s') = Client.pendingMessages (hook s)
  /\ (exists m', m' ∈ Client.messages (hook s') /\ Wire.id m = Some (Client.id m')
                 /\ is_temp (Client.id m') = false)
  /\ (forall m', m' ∈ Client.messages (hook s) -> is_temp (Client.id m') = false ->
        m' ∈ Client.messages (hook s'))
  /\ ((exists m', m' ∈ Client.messages (hook s) /\ Wire.id m = Some (Client.id m'))
      -> s' = s).
Proof.
  intros (Hty & Hc & Hu & (dateNow & rnd & Hid) & _ & Hts).
  assert (Hs' : receive now m s
                = {| hook := {| Client.messages :=
                                  Client.on_new_message now m (Client.messages (hook s));
                                Client.pendingMessages := Client.pendingMessages (hook s) |};
                     presenceUpdates := presenceUpdates s;
                     typingIndicators := typingIndicators s |}).
  { unfold receive. rewrite Hty. unfold Client.onmessage. by rewrite Hty. }
  cbv zeta. rewrite Hs'. cbn [hook presenceUpdates typingIndicators Client.messages
                              Client.pendingMessages].
  destruct (StoreFacts.hub_id_not_temp dateNow rnd) as [Htemp Hne].
  split; [done|]. split; [done|]. split; [done|]. split.
  { unfold Client.on_new_message. rewrite Hid.
    destruct (Wire.content m) as [c|]; [|discriminate].
    destruct (Wire.userId m) as [u|]; [|discriminate].
    rewrite Hc, Hu, (truthy_of_Some _ Hne). cbn [negb orb Client.id].
    destruct (existsb _ (Client.messages (hook s))) eqn:Hex.
    - apply existsb_exists in Hex as (m' & Hin & Heq). apply String.eqb_eq in Heq.
      exists m'. split; [by apply list_elem_of_In|]. by rewrite Heq.
    - eexists. split.
      { rewrite Reconciliation.sort_by_time_perm. apply elem_of_app. right.
        apply list_elem_of_singleton. reflexivity. }
      done. }
  split. { intros m' Hin Ht. by apply on_new_message_keeps. }
  intros (m' & Hin & Hid'). apply State_eq; cbn [hook presenceUpdates typingIndicators];
    [|done|done].
  rewrite (Reconciliation.on_new_message_known_id now m _ (Client.id m') Hid').
  - by destruct (hook s).
  - apply existsb_exists. exists m'. split; [by apply list_elem_of_In|].
    apply String.eqb_refl.
Qed.

Lemma receive_log_ids (log : list WebSocketMessage) (events : list (Z * WebSocketMessage))
    (s : State) :
  Forall log_entry_ok log -> events.*2 = log ->
  let s' := receive_all events s in
  presenceUpdates s' = presenceUpdates s /\ typingIndicators s' = typingIndicators s
  /\ (forall m, m ∈ log ->
        exists m', m' ∈ Client.messages (hook s') /\ Wire.id m = Some (Client.id m'))
  /\ (forall m', m' ∈ Client.messages (hook s) -> is_temp (Client.id m') = false ->
        m' ∈ Client.messages (hook s')).
Proof.
  revert events s. induction log as [|m log IH]; intros events s Hok Hev.
  { apply fmap_nil_inv in Hev as ->. cbn. repeat split; try done.
    intros m Hm. by apply elem_of_nil in Hm. }
  destruct events as [|[now f] events]; [discriminate|].
  rewrite fmap_cons in Hev. injection Hev as Hf Hev. cbn [snd] in Hf. subst f.
  apply Forall_cons in Hok as [Hm Hok].
  unfold receive_all. cbn [fold_left fst snd].
  destruct (receive_entry now m s Hm) as (Hp1 & Ht1 & _ & (m1 & Hin1 & Hid1 & Htemp1)
                                          & Hkeep1 & _).
  set (s1 := receive now m s) in *.
  destruct (IH events s1 Hok Hev) as (Hp & Ht & Hall & Hkeep).
  unfold receive_all in Hp, Ht, Hall, Hkeep. cbv zeta.
  split; [congruence|]. split; [congruence|]. split.
  - intros m0 Hin. apply elem_of_cons in Hin as [->|Hin]; [|by apply Hall].
    exists m1. split; [by apply Hkeep|done].
  - intros m' Hin Htm. apply Hkeep; [|done]. by apply Hkeep1.
Qed.

Lemma receive_log_known (log : list WebSocketMessage)
    (events : list (Z * WebSocketMessage)) (s : State) :
  Forall log_entry_ok log -> events.*2 = log ->
  (forall m, m ∈ log ->
     exists m', m' ∈ Client.messages (hook s) /\ Wire.id m = Some (Client.id m')) ->
  receive_all events s = s.
Proof.
  revert events. induction log as [|m log IH]; intros events Hok Hev Hknown.
  { by apply fmap_nil_inv in Hev as ->. }
  destruct events as [|[now f] events]; [discriminate|].
  rewrite fmap_cons in Hev. injection Hev as Hf Hev. cbn [snd] in Hf. subst f.
  apply Forall_cons in Hok as [Hm Hok].
  unfold receive_all. cbn [fold_left fst snd].
  destruct (receive_entry now m s Hm) as (_ & _ & _ & _ & _ & Hsame).
  rewrite Hsame by (apply Hknown; by left).
  apply IH; [done|done|]. intros m0 Hin. apply Hknown. by right.
Qed.

(** What the client has after the frames of a new connection. *)
Lemma receive_replay (net : WS -> Transport) (now : Z) (ws : WS) (h h' : Hub)
    (new : list (WS * WebSocketMessage)) (events : list (Z * WebSocketMessage))
    (s : State) :
  serving h -> on_connection net now ws h = Some h' ->
  sent h' = sent h ++ new -> events.*2 = new.*2 ->
  let s' := receive_all events s in
  typingIndicators s' = typingIndicators s
  /\ (forall u, (presenceUpdates s' !! u)
                = match userPresenceInMemory h !! u with
                  | Some p => Some {| userId := u; status := p_status p;
                                      lastSeen := Some (p_lastSeen p) |}
                  | None => presenceUpdates s !! u
                  end)
  /\ (forall m, m ∈ messagesInMemory h ->
        exists m', m' ∈ Client.messages (hook s') /\ Wire.id m = Some (Client.id m'))
  /\ ((forall m, m ∈ messagesInMemory h ->
         exists m', m' ∈ Client.messages (hook s) /\ Wire.id m = Some (Client.id m'))
      -> hook s' = hook s).
Proof.
  intros Hserving Hc Hsent Hev.
  rewrite (StoreFacts.on_connection_frames net now ws h h' Hserving Hc) in Hsent.
  apply app_inv_head in Hsent. subst new.
  rewrite fmap_cons, fmap_app, <-!list_fmap_compose in Hev. cbn [snd] in Hev.
  destruct events as [|[now0 f0] events]; [discriminate|].
  rewrite fmap_cons in Hev. injection Hev as Hf0 Hev. cbn [snd] in Hf0. subst f0.
  apply fmap_app_inv in Hev as (evP & evM & HevP & HevM & ->).
  unfold receive_all. cbn [fold_left fst snd]. rewrite receive_established.
  rewrite fold_left_app. fold (receive_all evP s).
  destruct (StoreFacts.receive_presence_states now (map_to_list (userPresenceInMemory h))
              evP s) as (HhP & HtP & HpP).
  { apply Forall_forall. intros [u p] Hin. apply elem_of_map_to_list in Hin.
    apply (HubMore.serving_presence_ok h Hserving u p Hin). }
  { apply NoDup_fst_map_to_list. }
  { rewrite <-HevP. apply list_fmap_ext. by intros ? []. }
  set (sP := receive_all evP s) in *. fold (receive_all evM sP).
  assert (Hlog : Forall log_entry_ok (messagesInMemory h)).
  { by destruct (HubMore.serving_invariant h Hserving) as (_ & _ & ?). }
  assert (HevM' : evM.*2 = messagesInMemory h).
  { rewrite <-HevM. rewrite <-(list_fmap_id (messagesInMemory h)) at 2.
    apply list_fmap_ext. by intros ? ?. }
  destruct (receive_log_ids (messagesInMemory h) evM sP Hlog HevM')
    as (Hp & Ht & Hall & _).
  cbv zeta in Hp, Ht, Hall |- *.
  split; [congruence|]. split.
  { intros u. rewrite Hp, HpP, StoreFacts.find_map_to_list.
    by destruct (userPresenceInMemory h !! u). }
  split; [done|].
  intros Hknown. rewrite (receive_log_known (messagesInMemory h) evM sP Hlog HevM');
    [done|]. by rewrite HhP.
Qed.

(** X25.  Connecting again brings nothing twice.  When a client that has
    handled the frames of a new connection connects again at once and
    handles the frames of that connection too, its state is what it was
    after the first: no message is added or lost, whatever its list held
    before, and the presence and typing state are the same. *)
Theorem replay_twice_is_replay_once (net1 net2 : WS -> Transport) (now1 now2 : Z)
    (ws1 ws2 : WS) (h h1 h2 : Hub) (new1 new2 : list (WS * WebSocketMessage))
    (events1 events2 : list (Z * WebSocketMessage)) (s : State) :
  serving h ->
  on_connection net1 now1 ws1 h = Some h1 -> sent h1 = sent h ++ new1 ->
  events1.*2 = new1.*2 ->
  on_connection net2 now2 ws2 h1 = Some h2 -> sent h2 = sent h1 ++ new2 ->
  events2.*2 = new2.*2 ->
  receive_all events2 (receive_all events1 s) = receive_all events1 s.
Proof.
  intros Hserving Hc1 Hs1 He1 Hc2 Hs2 He2.
  assert (Hserving1 : serving h1) by by apply (serving_connection net1 ws1 now1 h h1).
  destruct (HubMore.on_connection_effect net1 now1 ws1 h h1 Hc1) as (_ & Hlog & _ & Hpres).
  destruct (receive_replay net1 now1 ws1 h h1 new1 events1 s Hserving Hc1 Hs1 He1)
    as (Ht1 & Hp1 & Hall1 & _).
  destruct (receive_replay net2 now2 ws2 h1 h2 new2 events2 (receive_all events1 s)
              Hserving1 Hc2 Hs2 He2) as (Ht2 & Hp2 & _ & Hsame2).
  cbv zeta in Ht1, Hp1, Hall1, Ht2, Hp2, Hsame2.
  apply State_eq; [|apply map_eq; intros u|done].
  - apply Hsame2. rewrite Hlog. apply Hall1.
  - rewrite Hp2, Hp1, Hpres. by destruct (userPresenceInMemory h !! u).
Qed.

Lemma replay_twice_is_replay_once_witness :
  serving Session.jane_said_hi
  /\ on_connection Scenario.net Scenario.now 1 Session.jane_said_hi
     = Some Arrival.bob_connects
  /\ sent Arrival.bob_connects = sent Session.jane_said_hi ++ Arrival.replay
  /\ Arrival.events.*2 = Arrival.replay.*2
  /\ on_connection Scenario.net 1700000000900 4 Arrival.bob_connects
     = Some Arrival.bob_reconnects
  /\ sent Arrival.bob_reconnects = sent Arrival.bob_connects ++ Arrival.second_replay
  /\ Arrival.second_events.*2 = Arrival.second_replay.*2
  /\ receive_all Arrival.second_events (receive_all Arrival.events Store.empty)
     = receive_all Arrival.events Store.empty.
Proof.
  split; [apply HubMore.jane_said_hi_serving|].
  do 6 (split; [vm_compute; reflexivity|]).
  apply (replay_twice_is_replay_once Scenario.net Scenario.net Scenario.now 1700000000900
           1 4 Session.jane_said_hi Arrival.bob_connects Arrival.bob_reconnects
           Arrival.replay Arrival.second_replay Arrival.events Arrival.second_events
           Store.empty);
    [apply HubMore.jane_said_hi_serving|vm_compute; reflexivity..].
Defined.

(** *** A connection that closes *)

(** X26.  A close tells the others about presence only.  Every frame the hub
    sends when a connection closes is an offline notice, and a client that
    handles one keeps its typing state and its messages as they were: the
    hub never tells the others that a user who left has stopped typing. *)
Theorem close_does_not_clear_typing (net : WS -> Transport) (now : Z) (ws : WS)
    (h : Hub) :
  registry_ok h ->
  exists h' new, on_close net now ws h = Some h' /\ sent h' = sent h ++ new
    /\ Forall (fun p => exists u, p.2 = offline_notice now u) new
    /\ forall p nowC s, p ∈ new ->
         typingIndicators (receive nowC p.2 s) = typingIndicators s
         /\ hook (receive nowC p.2 s) = hook s
         /\ forall id, typingUsers (typingIndicators (receive nowC p.2 s)) id
                       = typingUsers (typingIndicators s) id.
Proof.
  intros Hok.
  assert (Hnotice : forall h' new, sent h' = sent h ++ new ->
            Forall (fun p => exists u, p.2 = offline_notice now u) new ->
            forall p nowC s, p ∈ new ->
              typingIndicators (receive nowC p.2 s) = typingIndicators s
              /\ hook (receive nowC p.2 s) = hook s
              /\ forall id, typingUsers (typingIndicators (receive nowC p.2 s)) id
                            = typingUsers (typingIndicators s) id).
  { intros h' new _ Hall p nowC s Hin.
    apply (proj1 (Forall_forall _ _) Hall) in Hin as (u & ->). done. }
  unfold on_close.
  pose proof (HubFacts.cleanup_spec net now (broadcastMessage net now (length (clients h)))
                (length (clients h)) (HubFacts.broadcastMessage_evolves net now _) ws h
                (Nat.le_refl _) Hok) as Hspec.
  fold (cleanupClient net now (length (clients h)) ws h) in Hspec.
  fold (evict net now ws h) in Hspec.
  destruct (clients_get ws (clients h)) as [u|].
  - destruct Hspec as (h' & Hc & Hev). specialize (Hev Wire.empty None).
    destruct (ev_sent _ _ _ _ _ Hev) as (new & Hsent & Hnew).
    cbn [sent HubSpec.deleted set_presence set_clients] in Hsent.
    assert (Hall : Forall (fun p => exists u, p.2 = offline_notice now u) new).
    { apply (Forall_impl _ _ _ Hnew). intros p (_ & _ & [(_ & _ & Hin)|Hu]); [|done].
      by apply elem_of_nil in Hin. }
    exists h', new. split; [done|]. split; [done|]. split; [done|].
    by apply (Hnotice h').
  - exists h, []. split; [done|]. split; [by rewrite app_nil_r|]. split; [constructor|].
    intros p nowC s Hin. by apply elem_of_nil in Hin.
Qed.

Lemma close_does_not_clear_typing_witness :
  registry_ok Scenario.hub
  /\ exists h' new, on_close Scenario.net Scenario.now 1 Scenario.hub = Some h'
    /\ sent h' = sent Scenario.hub ++ new
    /\ Forall (fun p => exists u, p.2 = offline_notice Scenario.now u) new
    /\ forall p nowC s, p ∈ new ->
         typingIndicators (receive nowC p.2 s) = typingIndicators s
         /\ hook (receive nowC p.2 s) = hook s
         /\ forall id, typingUsers (typingIndicators (receive nowC p.2 s)) id
                       = typingUsers (typingIndicators s) id.
Proof.
  split; [HubFacts.scenario_ok|].
  apply (close_does_not_clear_typing Scenario.net Scenario.now 1 Scenario.hub).
  HubFacts.scenario_ok.
Defined.

End EndToEnd.

(** ** A message, there and back *)
Module RoundTrip.
Import Server HubSpec Intake Client Pages.

Local Open Scope list_scope.

(** X27.  A message, there and back.  The user of a connected page sends a
    text that is not blank, and the hub, whose reply can be sent, takes the
    event in: it stores the message under an id of its own and sends the
    confirmation to the sender's connection before anything else.  When the
    sender's hook has handled the confirmation, its list has the message
    under the hub's id, with the trimmed text, the hub's timestamp, the
    conversation and the parent the page gave it; no placeholder with that
    text is left, nothing confirmed was lost, and the text is no longer
    pending. *)
Theorem sent_message_comes_back_confirmed (net : WS -> Transport) (nowH : Z) (ws : WS)
    (dateNowH : N) (rnd : string) (h : Hub) (dateNow : N) (now1 now2 : Z)
    (channelId dmId : option string) (replyingTo : option Message) (text : string)
    (hk : Hook) :
  registry_ok h -> sendThrows (net ws) = false -> trim text <> "" ->
  let event := outgoing (trim text) channelId dmId replyingTo in
  let canonical := messageId_of dateNowH rnd in
  let confirmation := confirmation_of nowH event canonical in
  exists hk1 h' rest,
    send_trimmed true true false dateNow now1 channelId dmId replyingTo text hk
    = (inr tt, hk1, Some event)
    /\ on_message net nowH ws dateNowH rnd (Some event) h = Some h'
    /\ sent h' = sent h ++ (ws, confirmation) :: rest
    /\ messagesInMemory h'
       = messagesInMemory h ++ [newMessage_of nowH event canonical "current"]
    /\ let final := onmessage now2 confirmation hk1 in
       (exists m, m ∈ messages final /\ id m = canonical /\ content m = trim text
          /\ timestamp m = nowH /\ Client.channelId m = channelId
          /\ Client.dmId m = dmId /\ Client.parentId m = id <$> replyingTo)
       /\ (forall p, p ∈ messages final -> is_temp (id p) = true ->
             content p <> trim text)
       /\ (forall m, m ∈ messages hk -> is_temp (id m) = false -> m ∈ messages final)
       /\ (trim text ∉ pendingMessages final).
Proof.
  intros Hok Hworks Htext event canonical confirmation.
  pose proof (truthy_of_Some _ Htext) as Htruthy.
  destruct (StoreFacts.hub_id_not_temp dateNowH rnd) as [Htemp Hne].
  fold canonical in Htemp, Hne.
  (* the page *)
  set (hk1 := {| messages := sort_by_time
                               (messages hk ++ [tempMessage dateNow now1 (trim text) event]);
                 pendingMessages := pendingMessages hk ∪ {[ trim text ]} |}).
  assert (Hsend : send_trimmed true true false dateNow now1 channelId dmId replyingTo text hk
                  = (inr tt, hk1, Some event)).
  { unfold send_trimmed, sendMessage. cbn [negb]. rewrite Htruthy. cbn [negb].
    cbn [outgoing Wire.type Wire.content]. by rewrite Htruthy. }
  (* the hub *)
  destruct (HubFacts.new_message_accepted net nowH ws dateNowH rnd event "current"
              (trim text) h Hok) as (h4 & _ & Hm & Hev); try done.
  destruct (ev_sent _ _ _ _ _ Hev) as (rest & Hsent & _).
  pose proof (ev_messages _ _ _ _ _ Hev) as Hlog.
  exists hk1, (set_pending (delete canonical) h4), rest.
  split; [done|]. split; [done|]. split.
  { cbn [sent set_pending]. rewrite Hsent. cbn [sent HubSpec.confirmed_hub deliver].
    by rewrite <-app_assoc. }
  split. { cbn [messagesInMemory set_pending]. by rewrite Hlog. }
  (* the hook *)
  set (confirmed := {| id := canonical; content := trim text; sender := mockUser0;
                       timestamp := nowH; Client.channelId := channelId;
                       Client.dmId := dmId; reactions := [];
                       readBy := [user_id mockUser0];
                       Client.parentId := id <$> replyingTo |}).
  assert (Hfinal : onmessage now2 confirmation hk1
                   = {| messages := sort_by_time
                                      (List.filter (keep_unless_placeholder (trim text))
                                         (messages hk1) ++ [confirmed]);
                        pendingMessages := pendingMessages hk1 ∖ {[ trim text ]} |}).
  { unfold onmessage, on_message_confirmed, confirmation, confirmation_of.
    cbn [Wire.type Wire.id Wire.content event outgoing].
    by rewrite Htruthy, (truthy_of_Some _ Hne). }
  cbv zeta. rewrite Hfinal. cbn [messages pendingMessages].
  pose proof (Reconciliation.sort_by_time_perm
                (List.filter (keep_unless_placeholder (trim text)) (messages hk1)
                 ++ [confirmed])) as Hperm.
  split.
  { exists confirmed. split; [|done]. rewrite Hperm. apply elem_of_app. right.
    by apply list_elem_of_singleton. }
  split.
  { intros p Hp Ht Hpc. rewrite Hperm in Hp. apply elem_of_app in Hp as [Hp|Hp].
    - apply list_elem_of_In, filter_In in Hp as [_ Hk].
      unfold keep_unless_placeholder in Hk. rewrite Ht, Hpc, String.eqb_refl in Hk.
      discriminate.
    - apply list_elem_of_singleton in Hp. subst p. cbn [id confirmed] in Ht. congruence. }
  split.
  { intros m Hm' Ht. rewrite Hperm. apply elem_of_app. left.
    apply list_elem_of_In, filter_In. split.
    - apply list_elem_of_In. cbn [messages hk1].
      rewrite Reconciliation.sort_by_time_perm. apply elem_of_app. by left.
    - unfold keep_unless_placeholder. by rewrite Ht. }
  rewrite elem_of_difference, elem_of_singleton. tauto.
Qed.

Lemma sent_message_comes_back_confirmed_witness :
  let event := outgoing (trim Outbox.typed) (Some "1") None None in
  let canonical := messageId_of 1700000000400 "k3x9" in
  let confirmation := confirmation_of Scenario.now event canonical in
  registry_ok Scenario.hub /\ sendThrows (Scenario.net 0) = false
  /\ trim Outbox.typed <> ""
  /\ exists hk1 h' rest,
    send_trimmed true true false 1700000000000 1700000000000 (Some "1") None None
      Outbox.typed Scenario.empty_hook
    = (inr tt, hk1, Some event)
    /\ on_message Scenario.net Scenario.now 0 1700000000400 "k3x9" (Some event)
         Scenario.hub = Some h'
    /\ sent h' = sent Scenario.hub ++ (0, confirmation) :: rest
    /\ messagesInMemory h'
       = messagesInMemory Scenario.hub
         ++ [newMessage_of Scenario.now event canonical "current"]
    /\ let final := onmessage 1700000000600 confirmation hk1 in
       (exists m, m ∈ messages final /\ id m = canonical /\ content m = trim Outbox.typed
          /\ timestamp m = Scenario.now /\ Client.channelId m = Some "1"
          /\ Client.dmId m = None /\ Client.parentId m = id <$> None)
       /\ (forall p, p ∈ messages final -> is_temp (id p) = true ->
             content p <> trim Outbox.typed)
       /\ (forall m, m ∈ messages Scenario.empty_hook -> is_temp (id m) = false ->
             m ∈ messages final)
       /\ (trim Outbox.typed ∉ pendingMessages final).
Proof.
  intros event canonical confirmation.
  split; [HubFacts.scenario_ok|]. split; [reflexivity|]. split; [discriminate|].
  apply (sent_message_comes_back_confirmed Scenario.net Scenario.now 0 1700000000400
           "k3x9" Scenario.hub 1700000000000 1700000000000 1700000000600 (Some "1")
           None None Outbox.typed Scenario.empty_hook);
    [HubFacts.scenario_ok|reflexivity|discriminate].
Defined.

End RoundTrip.
